(** * Task scheduler: overlap checking, validation and orchestration

    A shallow embedding of the task scheduling core of the backend
    (entities, DTOs, [TaskValidationDomain], [TaskDataPreparationDomain],
    [TaskRepositoryService], [AvailabilityService], [TaskDomainService],
    [TaskBusinessLogicService], [TaskNotificationService], [TasksService])
    together with the properties proved about it.

    Conventions of the embedding
    - a JavaScript [number] holding an identifier is a [Z]; an optional or
      nullable number is an [option Z] ([None] stands for [undefined] and for
      [null]; where the code compares a loaded [null] with an [undefined]
      argument, the comparison is modelled as such, see [loadedDiffers]);
    - a [Date] is its epoch time in milliseconds; the value built by
      [new Date(s)] is a [JsDate], an [option Z] where [None] is
      [Invalid Date]; every relational operator on an invalid date is false,
      as for [NaN];
    - a string is the sequence of bytes of its UTF-8 encoding, the form in
      which it arrives in a request and is stored; its characters are the
      UTF-8 sequences of those bytes, and white space is what
      [String.prototype.trim] removes: WhiteSpace and LineTerminator of
      ECMAScript;
    - asynchronous methods are modelled in a state-and-exception monad over
      a [World]: the task table, the keys of the table of users, the key
      generator, the pending outcomes of the calls to external services and
      the trace of those calls;
    - of the logger only [logger.error] is represented, as an entry of the
      trace; reads of the task table do not fail, and a write fails when it
      breaks a foreign key to [users] or the limit of a column of
      [init.sql]. *)

From Stdlib Require Import ZArith List String Ascii Bool Lia.
From Stdlib Require Import Permutation Sorted.
Import ListNotations.

Local Open Scope string_scope.
Local Open Scope list_scope.
Local Open Scope Z_scope.

(** ** JavaScript values *)

Definition JsDate := option Z.

(** Truthiness of an optional number: [undefined], [null] and [0] are falsy. *)
Definition truthyNum (n : option Z) : bool :=
  match n with
  | Some z => negb (z =? 0)
  | None => false
  end.

(** Truthiness of an optional string: [undefined] and the empty string are
    falsy. *)
Definition truthyStr (s : option string) : bool :=
  match s with
  | Some s => negb (String.eqb s "")
  | None => false
  end.

(** [a >= b] on dates. *)
Definition dateGe (a b : JsDate) : bool :=
  match a, b with
  | Some x, Some y => x >=? y
  | _, _ => false
  end.

(** [a <= b] on dates. *)
Definition dateLe (a b : JsDate) : bool :=
  match a, b with
  | Some x, Some y => x <=? y
  | _, _ => false
  end.

(** [a < b] on dates. *)
Definition dateLt (a b : JsDate) : bool :=
  match a, b with
  | Some x, Some y => x <? y
  | _, _ => false
  end.

(** *** Characters and white space *)

Definition byte (n : Z) : ascii := ascii_of_nat (Z.to_nat n).

Definition byteOf (a : ascii) : Z := Z.of_nat (nat_of_ascii a).

(** The UTF-8 encoding of a code point below U+10000. *)
Definition utf8 (c : Z) : string :=
  if c <? 128
  then String (byte c) ""
  else if c <? 2048
  then String (byte (192 + c / 64)) (String (byte (128 + c mod 64)) "")
  else String (byte (224 + c / 4096))
         (String (byte (128 + (c / 64) mod 64))
            (String (byte (128 + c mod 64)) "")).

(** The code points that [String.prototype.trim] removes, WhiteSpace and
    LineTerminator of ECMAScript: TAB, LF, VT, FF, CR, SPACE, NO-BREAK SPACE,
    the other space separators of Unicode (U+1680, U+2000 to U+200A, U+202F,
    U+205F, U+3000), LINE SEPARATOR, PARAGRAPH SEPARATOR and U+FEFF. *)
Definition whiteSpaceCodePoints : list Z :=
  [9; 10; 11; 12; 13; 32; 160; 5760;
   8192; 8193; 8194; 8195; 8196; 8197; 8198; 8199; 8200; 8201; 8202;
   8232; 8233; 8239; 8287; 12288; 65279].

(** The characters of a string: its bytes grouped in UTF-8 sequences, the
    first byte of a sequence giving its length (one byte below 0xC0, two
    below 0xE0, three below 0xF0, four otherwise). A sequence cut short by
    the end of the string is a character of its own. *)
Fixpoint characters (s : string) : list string :=
  match s with
  | EmptyString => []
  | String a s1 =>
      if byteOf a <? 192
      then String a "" :: characters s1
      else
        match s1 with
        | EmptyString => [s]
        | String b s2 =>
            if byteOf a <? 224
            then String a (String b "") :: characters s2
            else
              match s2 with
              | EmptyString => [s]
              | String c s3 =>
                  if byteOf a <? 240
                  then String a (String b (String c "")) :: characters s3
                  else
                    match s3 with
                    | EmptyString => [s]
                    | String d s4 =>
                        String a (String b (String c (String d "")))
                        :: characters s4
                    end
              end
        end
  end.

Definition isWhiteSpace (character : string) : bool :=
  existsb (fun c => String.eqb character (utf8 c)) whiteSpaceCodePoints.

Fixpoint dropWhile {A} (f : A -> bool) (l : list A) : list A :=
  match l with
  | x :: rest => if f x then dropWhile f rest else l
  | [] => []
  end.

(** [String.prototype.trimStart] and [trimEnd], on characters. *)
Definition trimStart (l : list string) : list string := dropWhile isWhiteSpace l.

Definition trimEnd (l : list string) : list string :=
  rev (dropWhile isWhiteSpace (rev l)).

(** [String.prototype.trim]. *)
Definition trim (s : string) : string :=
  String.concat "" (trimEnd (trimStart (characters s))).

(** [s.length] as the database counts it for a [VARCHAR]: in characters. *)
Definition charLength (s : string) : Z := Z.of_nat (List.length (characters s)).

(** [Array.prototype.join]. *)
Definition join (sep : string) (l : list string) : string := String.concat sep l.

(** The host environment: [new Date(s)] on a string and the clock read by
    [new Date()]. *)
Record Host := {
  parseDate : string -> JsDate;
  now : Z
}.

(** [new Date(s)] where [s] may be [undefined]: [new Date(undefined)] is an
    invalid date. *)
Definition newDate (h : Host) (s : option string) : JsDate :=
  match s with
  | Some s => parseDate h s
  | None => None
  end.

(** ** Entities *)

Inductive TaskStatus := IN_PROGRESS | COMPLETED.

Definition TaskStatus_eqb (a b : TaskStatus) : bool :=
  match a, b with
  | IN_PROGRESS, IN_PROGRESS => true
  | COMPLETED, COMPLETED => true
  | _, _ => false
  end.

Module UserRole.
Definition ADMIN : string := "admin".
Definition MANAGER : string := "manager".
Definition USER : string := "user".
End UserRole.

(** The [Task] entity. The relation objects [assignedUser] and [assignedBy]
    and the store-maintained [createdAt]/[updatedAt] are not represented: a
    task is its columns. *)
Module Task.
Record t := {
  id : Z;
  title : string;
  description : option string;
  assignedUserId : option Z;
  assignedById : option Z;
  status : TaskStatus;
  startDate : Z;
  endDate : Z
}.
End Task.

(** [Partial<Task>]: every field may be missing. A date field, when present,
    is whatever [new Date] produced. *)
Module PartialTask.
Record t := {
  title : option string;
  description : option string;
  assignedUserId : option Z;
  assignedById : option Z;
  status : option TaskStatus;
  startDate : option JsDate;
  endDate : option JsDate
}.
Definition empty : t :=
  {| title := None; description := None; assignedUserId := None;
     assignedById := None; status := None; startDate := None;
     endDate := None |}.
End PartialTask.

(** ** Request objects *)

Module CreateTaskDto.
Record t := {
  title : option string;
  description : option string;
  startDate : option string;
  endDate : option string;
  assignedUserId : option Z;
  status : option TaskStatus
}.
End CreateTaskDto.

Module UpdateTaskDto.
Record t := {
  title : option string;
  description : option string;
  startDate : option string;
  endDate : option string;
  assignedUserId : option Z;
  status : option TaskStatus
}.

(** [Object.keys(dto)]: the fields the request carries, in declaration
    order. A field is either absent or carries a value of its declared type:
    a request that names a field and gives it [null] is not a value of this
    record. *)
Definition key {A} (name : string) (field : option A) : list string :=
  match field with
  | Some _ => [name]
  | None => []
  end.

Definition keys (d : t) : list string :=
  key "title" (title d) ++ key "description" (description d) ++
  key "startDate" (startDate d) ++ key "endDate" (endDate d) ++
  key "assignedUserId" (assignedUserId d) ++ key "status" (status d).
End UpdateTaskDto.

Module ReassignTaskDto.
Record t := {
  assignedUserId : option Z
}.
End ReassignTaskDto.

(** ** Exceptions (task-exceptions) *)

(** The exception classes of the module, and the [TypeError] of the
    language. [TaskOverlapException] and [TaskNotificationException] are
    declared by the module and thrown nowhere: an overlap is reported as a
    [TaskValidationException] carrying [overlapMessage], the message
    [TaskOverlapException] is built with. *)
Inductive TaskException :=
| TaskNotFoundException (taskId : Z)
| TaskValidationException (message : string)
| TaskOverlapException
| TaskPermissionException (message : string)
| TaskOperationException (operation : string) (taskId : Z) (details : string)
| TaskInfrastructureException (service operation : string)
| TaskNotificationException (operation : string) (userId : Z)
| TypeError (message : string).

Inductive Result (A : Type) :=
| Ok (a : A)
| Throw (e : TaskException).
Arguments Ok {A} a.
Arguments Throw {A} e.

Definition overlapMessage : string :=
  "User already has an overlapping task during this time period".

(** ** The world and the monad of asynchronous methods *)

(** The snapshot sent with a notification ([formatTaskForNotification]). *)
Record TaskSnapshot := {
  snap_id : Z;
  snap_title : string;
  snap_description : option string;
  snap_startDate : Z;
  snap_endDate : Z;
  snap_status : TaskStatus
}.

(** Calls that leave the process, in the order they were made. [ok] is
    [false] when the call threw. [LogError] is a [logger.error] written by a
    [catch] block. *)
Inductive Effect :=
| QueueAdd (jobName : string) (userId : Z) (ok : bool)
| NotifyUser (userId : Z) (event : string) (task : TaskSnapshot) (ok : bool)
| LogError (context : string) (what : string).

(** [users] holds the keys of the rows of the table [users], which the
    task operations read through foreign keys and never write. *)
Record World := {
  tasks : list Task.t;
  users : list Z;
  nextId : Z;
  faults : list bool;
  trace : list Effect
}.

Definition M (A : Type) : Type := World -> Result A * World.

Definition ret {A} (a : A) : M A := fun w => (Ok a, w).

Definition throw {A} (e : TaskException) : M A := fun w => (Throw e, w).

Definition bind {A B} (m : M A) (k : A -> M B) : M B :=
  fun w =>
    match m w with
    | (Ok a, w') => k a w'
    | (Throw e, w') => (Throw e, w')
    end.

Notation "x <- m ;; k" := (bind m (fun x => k))
  (at level 61, m at next level, right associativity).
Notation "m ;;; k" := (bind m (fun _ => k))
  (at level 61, right associativity).

(** A synchronous computation that may throw, run inside a method. *)
Definition liftR {A} (r : Result A) : M A := fun w => (r, w).

Definition getTasks : M (list Task.t) := fun w => (Ok (tasks w), w).

Definition emit (e : Effect) : M unit :=
  fun w =>
    (Ok tt, {| tasks := tasks w; users := users w; nextId := nextId w;
               faults := faults w; trace := trace w ++ [e] |}).

(** The outcome of the next call to an external service: [true] when it
    throws. Outcomes are consumed in order; when none is pending the call
    succeeds. *)
Definition externalCallThrows : M bool :=
  fun w =>
    match faults w with
    | [] => (Ok false, w)
    | b :: rest =>
        (Ok b, {| tasks := tasks w; users := users w; nextId := nextId w;
                  faults := rest; trace := trace w |})
    end.

Definition setTasks (ts : list Task.t) (n : Z) : M unit :=
  fun w =>
    (Ok tt, {| tasks := ts; users := users w; nextId := n;
               faults := faults w; trace := trace w |}).

Definition getNextId : M Z := fun w => (Ok (nextId w), w).

Definition getUsers : M (list Z) := fun w => (Ok (users w), w).

(** ** Queries: filter and database engine *)

(** [TaskFilter] (task-repository.interface). *)
Module TaskFilter.
Record t := {
  status : option TaskStatus;
  assignedUserId : option Z;
  search : option string;
  currentUserRole : option string;
  currentUserId : option Z;
  dateRange : option (Z * Z)
}.
End TaskFilter.

(** What a query leaves to the database engine: the [LIKE] operator, applied
    to a column value and a pattern, the order of rows by [createdAt]
    descending, a column the entity of this model does not carry, and, in a
    query ordered by [startDate], which of two rows with the same start date
    comes first. *)
Record Engine := {
  like : string -> string -> bool;
  orderByCreatedAtDesc : list Task.t -> list Task.t;
  tieBefore : Task.t -> Task.t -> bool
}.

(** Equality of optional values. *)
Definition optString_eqb (a b : option string) : bool :=
  match a, b with
  | Some x, Some y => String.eqb x y
  | None, None => true
  | _, _ => false
  end.

Definition optZ_eqb (a b : option Z) : bool :=
  match a, b with
  | Some x, Some y => x =? y
  | None, None => true
  | _, _ => false
  end.

(** ** TaskRepositoryService *)

Module TaskRepositoryService.

(** [column = :parameter] in SQL: not true when the column is [NULL] or the
    parameter is missing. *)
Definition sqlEq (column parameter : option Z) : bool :=
  match column, parameter with
  | Some a, Some b => a =? b
  | _, _ => false
  end.

(** The [WHERE] clause of [hasOverlappingTasks]. A comparison with [NULL] or
    with an invalid date is not true: an unassigned task never matches, and
    nothing matches an invalid date. The [task.id != :excludeTaskId] conjunct
    is added only when [excludeTaskId] is truthy. *)
Definition overlapRow (userId : option Z) (startDate endDate : JsDate)
  (excludeTaskId : option Z) (task : Task.t) : bool :=
  sqlEq (Task.assignedUserId task) userId
  && negb (TaskStatus_eqb (Task.status task) COMPLETED)
  && (dateLe (Some (Task.startDate task)) endDate
      && dateGe (Some (Task.endDate task)) startDate)
  && (if truthyNum excludeTaskId
      then match excludeTaskId with
           | Some x => negb (Task.id task =? x)
           | None => true
           end
      else true).

(** [query.getMany()] of [hasOverlappingTasks]. *)
Definition overlappingTasks (rows : list Task.t) (userId : option Z)
  (startDate endDate : JsDate) (excludeTaskId : option Z) : list Task.t :=
  filter (overlapRow userId startDate endDate excludeTaskId) rows.

(** [hasOverlappingTasks]: [overlappingTasks.length > 0]. *)
Definition hasOverlappingTasks (userId : option Z) (startDate endDate : JsDate)
  (excludeTaskId : option Z) : M bool :=
  rows <- getTasks ;;
  ret (0 <? Z.of_nat
         (List.length
            (overlappingTasks rows userId startDate endDate excludeTaskId))).

Definition findOne (id : Z) : M (option Task.t) :=
  rows <- getTasks ;;
  ret (find (fun t => Task.id t =? id) rows).

Definition findOneWithAllRelations (id : Z) : M (option Task.t) := findOne id.

(** The row inserted for [taskData] under a generated key. The columns
    [title], [start_date] and [end_date] are [NOT NULL]; [status] defaults to
    [IN_PROGRESS]. *)
Definition rowOf (id : Z) (taskData : PartialTask.t) : option Task.t :=
  match PartialTask.title taskData, PartialTask.startDate taskData,
        PartialTask.endDate taskData with
  | Some ti, Some (Some s), Some (Some e) =>
      Some {| Task.id := id;
              Task.title := ti;
              Task.description := PartialTask.description taskData;
              Task.assignedUserId := PartialTask.assignedUserId taskData;
              Task.assignedById := PartialTask.assignedById taskData;
              Task.status := match PartialTask.status taskData with
                             | Some st => st
                             | None => IN_PROGRESS
                             end;
              Task.startDate := s;
              Task.endDate := e |}
  | _, _, _ => None
  end.

(** *** The constraints of the table

    [title VARCHAR(255)], [description TEXT], and the foreign keys of
    [assigned_user_id] and [assigned_by_id] to [users(id)]. *)

Definition titleFits (title : string) : bool := charLength title <=? 255.

(** A [TEXT] column holds 65535 bytes. *)
Definition descriptionFits (description : option string) : bool :=
  match description with
  | Some d => Z.of_nat (String.length d) <=? 65535
  | None => true
  end.

(** A foreign key to [users(id)]: [NULL], or the key of a user. *)
Definition refersToUser (userIds : list Z) (userId : option Z) : bool :=
  match userId with
  | Some u => existsb (Z.eqb u) userIds
  | None => true
  end.

(** Whether the database accepts [new]: as a new row when [old] is [None],
    and otherwise in place of the row [old], where only the columns whose
    value changes are written. *)
Definition accepts (userIds : list Z) (old : option Task.t) (new : Task.t)
  : bool :=
  match old with
  | None =>
      titleFits (Task.title new)
      && descriptionFits (Task.description new)
      && refersToUser userIds (Task.assignedUserId new)
      && refersToUser userIds (Task.assignedById new)
  | Some old =>
      (String.eqb (Task.title old) (Task.title new)
       || titleFits (Task.title new))
      && (optString_eqb (Task.description old) (Task.description new)
          || descriptionFits (Task.description new))
      && (optZ_eqb (Task.assignedUserId old) (Task.assignedUserId new)
          || refersToUser userIds (Task.assignedUserId new))
      && (optZ_eqb (Task.assignedById old) (Task.assignedById new)
          || refersToUser userIds (Task.assignedById new))
  end.

(** [create]: insert under the next generated key. The insert fails, and is
    wrapped in a [TaskInfrastructureException], when a [NOT NULL] column has
    no value or the row breaks a constraint of the table; nothing is written
    then. *)
Definition create (taskData : PartialTask.t) : M Task.t :=
  rows <- getTasks ;;
  n <- getNextId ;;
  userIds <- getUsers ;;
  match rowOf n taskData with
  | Some row =>
      if accepts userIds None row
      then setTasks (rows ++ [row]) (n + 1) ;;; ret row
      else throw (TaskInfrastructureException "TaskRepository" "create task")
  | None => throw (TaskInfrastructureException "TaskRepository" "create task")
  end.

Definition orElse {A} (a b : option A) : option A :=
  match a with
  | Some _ => a
  | None => b
  end.

(** What [save] writes over an existing row: a column whose property is
    [undefined] on the entity is skipped, the others are written. *)
Definition mergeRow (row task : Task.t) : Task.t :=
  {| Task.id := Task.id row;
     Task.title := Task.title task;
     Task.description := orElse (Task.description task) (Task.description row);
     Task.assignedUserId :=
       orElse (Task.assignedUserId task) (Task.assignedUserId row);
     Task.assignedById := orElse (Task.assignedById task) (Task.assignedById row);
     Task.status := Task.status task;
     Task.startDate := Task.startDate task;
     Task.endDate := Task.endDate task |}.

(** [save]: the row of the entity's key is loaded and the columns that
    differ are updated; the entity is inserted when there is no such row. The
    entity itself is returned. A write that breaks a constraint of the table
    fails, wrapped in a [TaskInfrastructureException], and writes nothing. *)
Definition save (task : Task.t) : M Task.t :=
  rows <- getTasks ;;
  n <- getNextId ;;
  userIds <- getUsers ;;
  match find (fun r => Task.id r =? Task.id task) rows with
  | Some row =>
      if accepts userIds (Some row) (mergeRow row task)
      then
        setTasks
          (map (fun r => if Task.id r =? Task.id task then mergeRow r task else r)
               rows) n ;;;
        ret task
      else throw (TaskInfrastructureException "TaskRepository" "save task")
  | None =>
      if accepts userIds None task
      then setTasks (rows ++ [task]) n ;;; ret task
      else throw (TaskInfrastructureException "TaskRepository" "save task")
  end.

(** [delete]. *)
Definition delete (id : Z) : M unit :=
  task <- findOne id ;;
  match task with
  | Some _ =>
      rows <- getTasks ;;
      n <- getNextId ;;
      setTasks (filter (fun r => negb (Task.id r =? id)) rows) n
  | None => ret tt
  end.

Definition findOneWithAssignedBy (id : Z) : M (option Task.t) := findOne id.

(** Insertion in a list ordered by [startDate]; among rows with the same
    start date the engine decides. *)
Fixpoint insertByStartDate (db : Engine) (task : Task.t) (l : list Task.t)
  : list Task.t :=
  match l with
  | [] => [task]
  | x :: rest =>
      if (Task.startDate task <? Task.startDate x)
         || ((Task.startDate task =? Task.startDate x) && tieBefore db task x)
      then task :: l
      else x :: insertByStartDate db task rest
  end.

(** [order: { startDate: 'ASC' }]. *)
Definition orderByStartDateAsc (db : Engine) (l : list Task.t) : list Task.t :=
  fold_right (insertByStartDate db) [] l.

(** [getUserTasksForAvailability]: every task of the user, whatever its
    status. *)
Definition getUserTasksForAvailability (db : Engine) (userId : Z)
  : M (list Task.t) :=
  rows <- getTasks ;;
  ret (orderByStartDateAsc db
         (filter (fun task => sqlEq (Task.assignedUserId task) (Some userId))
                 rows)).

(** The [WHERE] clause of [findTasksWithComplexFilter]: a conjunct is added
    for each truthy field of the filter. [LIKE] on a [NULL] description is
    not true. *)
Definition complexFilterRow (db : Engine) (filter : TaskFilter.t)
  (task : Task.t) : bool :=
  match TaskFilter.status filter with
  | Some s => TaskStatus_eqb (Task.status task) s
  | None => true
  end
  && (if truthyNum (TaskFilter.assignedUserId filter)
      then sqlEq (Task.assignedUserId task) (TaskFilter.assignedUserId filter)
      else true)
  && (if match TaskFilter.currentUserRole filter with
         | Some r => String.eqb r UserRole.USER
         | None => false
         end
         && truthyNum (TaskFilter.currentUserId filter)
      then sqlEq (Task.assignedUserId task) (TaskFilter.currentUserId filter)
      else true)
  && (if truthyStr (TaskFilter.search filter)
      then match TaskFilter.search filter with
           | Some s =>
               let pattern := String.append "%" (String.append s "%") in
               like db (Task.title task) pattern
               || match Task.description task with
                  | Some d => like db d pattern
                  | None => false
                  end
           | None => true
           end
      else true)
  && match TaskFilter.dateRange filter with
     | Some (startDate, endDate) =>
         (Task.startDate task >=? startDate) && (Task.endDate task <=? endDate)
     | None => true
     end.

Definition findTasksWithComplexFilter (db : Engine) (filter : TaskFilter.t)
  : M (list Task.t) :=
  rows <- getTasks ;;
  ret (orderByCreatedAtDesc db (List.filter (complexFilterRow db filter) rows)).

(** [findAll]: every task when no filter is given. *)
Definition findAll (db : Engine) (filter : option TaskFilter.t)
  : M (list Task.t) :=
  match filter with
  | None => rows <- getTasks ;; ret (orderByCreatedAtDesc db rows)
  | Some filter => findTasksWithComplexFilter db filter
  end.

End TaskRepositoryService.

(** ** AvailabilityService *)

Module AvailabilityService.

Definition checkOverlap (userId : option Z) (startDate endDate : JsDate)
  (excludeTaskId : option Z) : M bool :=
  TaskRepositoryService.hasOverlappingTasks userId startDate endDate excludeTaskId.

Definition getUserTasks (db : Engine) (userId : Z) : M (list Task.t) :=
  TaskRepositoryService.getUserTasksForAvailability db userId.

End AvailabilityService.

(** ** AvailabilityProcessor *)

Module AvailabilityProcessor.

Record JobResult := {
  success : bool;
  taskCount : Z
}.

(** [handleUpdateAvailability], the consumer of the [update-availability]
    jobs. *)
Definition handleUpdateAvailability (db : Engine) (userId : Z) : M JobResult :=
  tasks <- AvailabilityService.getUserTasks db userId ;;
  ret {| success := true; taskCount := Z.of_nat (List.length tasks) |}.

End AvailabilityProcessor.

(** ** Synchronous code that may throw *)

Definition bindR {A B} (r : Result A) (k : A -> Result B) : Result B :=
  match r with
  | Ok a => k a
  | Throw e => Throw e
  end.

(** [column !== argument] where [column] is a nullable column of a loaded
    entity ([null] when the row has none) and [argument] an optional argument
    ([undefined] when not given): they differ unless both are the same
    number, [null !== undefined] included. *)
Definition loadedDiffers (column argument : option Z) : bool :=
  match column, argument with
  | Some a, Some b => negb (a =? b)
  | _, _ => true
  end.

Definition isRole (userRole : option string) (role : string) : bool :=
  match userRole with
  | Some r => String.eqb r role
  | None => false
  end.

(** [a || b] on optional numbers. *)
Definition orNum (a b : option Z) : option Z :=
  if truthyNum a then a else b.

(** [a || b] where [a] is an optional status: a status string is never
    falsy. *)
Definition orStatus (a : option TaskStatus) (b : TaskStatus) : TaskStatus :=
  match a with
  | Some s => s
  | None => b
  end.

(** ** TaskValidationDomain *)

Module TaskValidationDomain.

Definition validateRequiredFields (createTaskDto : CreateTaskDto.t) : Result unit :=
  if negb (truthyStr (option_map trim (CreateTaskDto.title createTaskDto)))
  then Throw (TaskValidationException "Task title is required")
  else if negb (truthyStr (CreateTaskDto.startDate createTaskDto))
  then Throw (TaskValidationException "Start date is required")
  else if negb (truthyStr (CreateTaskDto.endDate createTaskDto))
  then Throw (TaskValidationException "End date is required")
  else if negb (truthyNum (CreateTaskDto.assignedUserId createTaskDto))
  then Throw (TaskValidationException "Assigned user is required")
  else Ok tt.

Definition validateDateRange (h : Host) (startDate endDate : option string)
  : Result unit :=
  let start := newDate h startDate in
  let end_ := newDate h endDate in
  if dateGe start end_
  then Throw (TaskValidationException "Start date must be before end date")
  else if dateLt start (Some (now h))
  then Throw (TaskValidationException "Start date cannot be in the past")
  else Ok tt.

Definition validateTaskCreationData (h : Host) (createTaskDto : CreateTaskDto.t)
  : Result unit :=
  bindR (validateRequiredFields createTaskDto) (fun _ =>
  validateDateRange h (CreateTaskDto.startDate createTaskDto)
                      (CreateTaskDto.endDate createTaskDto)).

Definition allowedFields : list string := ["status"].

Definition includes (l : list string) (x : string) : bool :=
  existsb (String.eqb x) l.

Definition validateUserCanOnlyUpdateStatus (updateRequest : UpdateTaskDto.t)
  : Result unit :=
  let requestedFields := UpdateTaskDto.keys updateRequest in
  let restrictedFields :=
    filter (fun field => negb (includes allowedFields field)) requestedFields in
  if 0 <? Z.of_nat (List.length restrictedFields)
  then Throw (TaskPermissionException
                (String.append "Regular users can only update: "
                (String.append (join ", " allowedFields)
                (String.append ". "
                (String.append "Attempted to update: "
                               (join ", " restrictedFields))))))
  else Ok tt.

Definition validateTaskUpdatePermissions (task : Task.t)
  (updateRequest : UpdateTaskDto.t) (userRole : option string)
  (currentUserId : option Z) : Result unit :=
  if isRole userRole UserRole.USER
     && loadedDiffers (Task.assignedUserId task) currentUserId
  then Throw (TaskPermissionException "You can only update your own tasks")
  else if isRole userRole UserRole.USER
  then validateUserCanOnlyUpdateStatus updateRequest
  else Ok tt.

Definition validateTaskReassignmentData (reassignmentRequest : ReassignTaskDto.t)
  : Result unit :=
  if negb (truthyNum (ReassignTaskDto.assignedUserId reassignmentRequest))
  then Throw (TaskValidationException
                "Assigned user ID is required for reassignment")
  else Ok tt.

End TaskValidationDomain.

(** ** TaskDataPreparationDomain *)

Module TaskDataPreparationDomain.

(** [createRequest.title.trim()] throws a [TypeError] when the title is
    missing. *)
Definition prepareTaskForCreation (h : Host) (createRequest : CreateTaskDto.t)
  (creatorUserId : option Z) : Result PartialTask.t :=
  match CreateTaskDto.title createRequest with
  | None => Throw (TypeError "Cannot read properties of undefined (reading 'trim')")
  | Some ti =>
      Ok {| PartialTask.title := Some (trim ti);
            PartialTask.description :=
              option_map trim (CreateTaskDto.description createRequest);
            PartialTask.status :=
              Some (orStatus (CreateTaskDto.status createRequest) IN_PROGRESS);
            PartialTask.startDate :=
              Some (newDate h (CreateTaskDto.startDate createRequest));
            PartialTask.endDate :=
              Some (newDate h (CreateTaskDto.endDate createRequest));
            PartialTask.assignedUserId :=
              CreateTaskDto.assignedUserId createRequest;
            PartialTask.assignedById := creatorUserId |}
  end.

Definition dateUpdate (h : Host) (s : option string) : option JsDate :=
  if truthyStr s then Some (newDate h s) else None.

Definition prepareTaskForUpdate (h : Host) (existingTask : Task.t)
  (updateRequest : UpdateTaskDto.t) : PartialTask.t :=
  {| PartialTask.title := option_map trim (UpdateTaskDto.title updateRequest);
     PartialTask.description :=
       option_map trim (UpdateTaskDto.description updateRequest);
     PartialTask.status := UpdateTaskDto.status updateRequest;
     PartialTask.startDate := dateUpdate h (UpdateTaskDto.startDate updateRequest);
     PartialTask.endDate := dateUpdate h (UpdateTaskDto.endDate updateRequest);
     PartialTask.assignedUserId := None;
     PartialTask.assignedById := None |}.

(** [applyTaskReassignment] writes the fields of the entity it is given. The
    value returned here is that entity after the writes; callers keep using
    it in place of the one they passed. *)
Definition applyTaskReassignment (targetTask : Task.t)
  (reassignmentRequest : ReassignTaskDto.t) (requestingUserId : option Z)
  : Task.t :=
  {| Task.id := Task.id targetTask;
     Task.title := Task.title targetTask;
     Task.description := Task.description targetTask;
     Task.assignedUserId := ReassignTaskDto.assignedUserId reassignmentRequest;
     Task.assignedById := requestingUserId;
     Task.status := Task.status targetTask;
     Task.startDate := Task.startDate targetTask;
     Task.endDate := Task.endDate targetTask |}.

Definition requiresOverlapValidation (updateRequest : UpdateTaskDto.t) : bool :=
  truthyNum (UpdateTaskDto.assignedUserId updateRequest)
  || truthyStr (UpdateTaskDto.startDate updateRequest)
  || truthyStr (UpdateTaskDto.endDate updateRequest).

Definition calculateEffectiveDateRange (h : Host) (existingTask : Task.t)
  (updateRequest : UpdateTaskDto.t) : JsDate * JsDate :=
  let effectiveStartDate :=
    if truthyStr (UpdateTaskDto.startDate updateRequest)
    then newDate h (UpdateTaskDto.startDate updateRequest)
    else Some (Task.startDate existingTask) in
  let effectiveEndDate :=
    if truthyStr (UpdateTaskDto.endDate updateRequest)
    then newDate h (UpdateTaskDto.endDate updateRequest)
    else Some (Task.endDate existingTask) in
  (effectiveStartDate, effectiveEndDate).

End TaskDataPreparationDomain.

(** ** TaskDomainService *)

Module TaskDomainService.

Definition prepareTaskCreation (h : Host) (createTaskDto : CreateTaskDto.t)
  : M (PartialTask.t * bool) :=
  liftR (TaskValidationDomain.validateTaskCreationData h createTaskDto) ;;;
  hasOverlap <- AvailabilityService.checkOverlap
                  (CreateTaskDto.assignedUserId createTaskDto)
                  (newDate h (CreateTaskDto.startDate createTaskDto))
                  (newDate h (CreateTaskDto.endDate createTaskDto))
                  None ;;
  if hasOverlap : bool
  then throw (TaskValidationException overlapMessage)
  else
    taskData <- liftR (TaskDataPreparationDomain.prepareTaskForCreation
                         h createTaskDto None) ;;
    ret (taskData, false).

Definition prepareTaskUpdate (h : Host) (taskId : Z)
  (updateTaskDto : UpdateTaskDto.t) (currentUserRole : option string)
  (currentUserId : option Z) : M (Task.t * PartialTask.t * bool) :=
  found <- TaskRepositoryService.findOne taskId ;;
  match found with
  | None => throw (TaskNotFoundException taskId)
  | Some task =>
      liftR (TaskValidationDomain.validateTaskUpdatePermissions
               task updateTaskDto currentUserRole currentUserId) ;;;
      let requiresOverlapCheck :=
        TaskDataPreparationDomain.requiresOverlapValidation updateTaskDto in
      (if requiresOverlapCheck
       then
         let '(startDate, endDate) :=
           TaskDataPreparationDomain.calculateEffectiveDateRange
             h task updateTaskDto in
         hasOverlap <- AvailabilityService.checkOverlap
                         (orNum (UpdateTaskDto.assignedUserId updateTaskDto)
                                (Task.assignedUserId task))
                         startDate endDate (Some taskId) ;;
         if hasOverlap : bool
         then throw (TaskValidationException overlapMessage)
         else ret tt
       else ret tt) ;;;
      let updates :=
        TaskDataPreparationDomain.prepareTaskForUpdate h task updateTaskDto in
      ret (task, updates, requiresOverlapCheck)
  end.

(** The entity loaded by [findOne] is the one [applyTaskReassignment]
    writes to and the one returned: the caller receives the task with its
    new assignee already set. *)
Definition prepareTaskReassignment (taskId : Z)
  (reassignTaskDto : ReassignTaskDto.t) : M (Task.t * bool) :=
  found <- TaskRepositoryService.findOne taskId ;;
  match found with
  | None => throw (TaskNotFoundException taskId)
  | Some task =>
      liftR (TaskValidationDomain.validateTaskReassignmentData reassignTaskDto) ;;;
      hasOverlap <- AvailabilityService.checkOverlap
                      (ReassignTaskDto.assignedUserId reassignTaskDto)
                      (Some (Task.startDate task))
                      (Some (Task.endDate task))
                      (Some taskId) ;;
      if hasOverlap : bool
      then throw (TaskValidationException overlapMessage)
      else
        let task :=
          TaskDataPreparationDomain.applyTaskReassignment
            task reassignTaskDto None in
        ret (task, false)
  end.

Definition validateTaskDeletion (taskId : Z) : M Task.t :=
  found <- TaskRepositoryService.findOne taskId ;;
  match found with
  | None => throw (TaskNotFoundException taskId)
  | Some task => ret task
  end.

Definition findTasks (db : Engine) (filter : TaskFilter.t) : M (list Task.t) :=
  TaskRepositoryService.findTasksWithComplexFilter db filter.

Definition getTaskById (id : Z) : M (option Task.t) :=
  TaskRepositoryService.findOne id.

End TaskDomainService.

(** ** TaskBusinessLogicService *)

Module TaskBusinessLogicService.

Definition validateTaskCreation (h : Host) (createTaskDto : CreateTaskDto.t)
  : M unit :=
  TaskDomainService.prepareTaskCreation h createTaskDto ;;; ret tt.

Definition validateTaskUpdate (h : Host) (taskId : Z)
  (updateTaskDto : UpdateTaskDto.t) (currentUserRole : option string)
  (currentUserId : option Z) : M Task.t :=
  result <- TaskDomainService.prepareTaskUpdate
              h taskId updateTaskDto currentUserRole currentUserId ;;
  ret (fst (fst result)).

Definition validateTaskReassignment (taskId : Z)
  (reassignTaskDto : ReassignTaskDto.t) : M Task.t :=
  result <- TaskDomainService.prepareTaskReassignment taskId reassignTaskDto ;;
  ret (fst result).

Definition validateTaskDeletion (taskId : Z) : M Task.t :=
  TaskDomainService.validateTaskDeletion taskId.

(** [{...dto, status, startDate, endDate, assignedById}]. *)
Definition buildTaskEntityForCreation (h : Host)
  (taskCreationRequest : CreateTaskDto.t) (creatorUserId : option Z)
  : PartialTask.t :=
  {| PartialTask.title := CreateTaskDto.title taskCreationRequest;
     PartialTask.description := CreateTaskDto.description taskCreationRequest;
     PartialTask.assignedUserId := CreateTaskDto.assignedUserId taskCreationRequest;
     PartialTask.status :=
       Some (orStatus (CreateTaskDto.status taskCreationRequest) IN_PROGRESS);
     PartialTask.startDate :=
       Some (newDate h (CreateTaskDto.startDate taskCreationRequest));
     PartialTask.endDate :=
       Some (newDate h (CreateTaskDto.endDate taskCreationRequest));
     PartialTask.assignedById := creatorUserId |}.

(** Returns the entity after the writes of the reassignment branch, and the
    updates. *)
Definition buildTaskEntityForUpdate (h : Host) (existingTask : Task.t)
  (requestedUpdates : UpdateTaskDto.t) (requestingUserId : option Z)
  : Task.t * PartialTask.t :=
  let entityUpdates :=
    {| PartialTask.title := UpdateTaskDto.title requestedUpdates;
       PartialTask.description := UpdateTaskDto.description requestedUpdates;
       PartialTask.status := UpdateTaskDto.status requestedUpdates;
       PartialTask.startDate :=
         TaskDataPreparationDomain.dateUpdate
           h (UpdateTaskDto.startDate requestedUpdates);
       PartialTask.endDate :=
         TaskDataPreparationDomain.dateUpdate
           h (UpdateTaskDto.endDate requestedUpdates);
       PartialTask.assignedUserId := None;
       PartialTask.assignedById := None |} in
  let existingTask :=
    if truthyNum (UpdateTaskDto.assignedUserId requestedUpdates)
       && negb (optZ_eqb (UpdateTaskDto.assignedUserId requestedUpdates)
                         (Task.assignedUserId existingTask))
    then {| Task.id := Task.id existingTask;
            Task.title := Task.title existingTask;
            Task.description := Task.description existingTask;
            Task.assignedUserId := UpdateTaskDto.assignedUserId requestedUpdates;
            Task.assignedById := requestingUserId;
            Task.status := Task.status existingTask;
            Task.startDate := Task.startDate existingTask;
            Task.endDate := Task.endDate existingTask |}
    else existingTask in
  (existingTask, entityUpdates).

Definition buildTaskEntityForReassignment (targetTask : Task.t)
  (reassignmentRequest : ReassignTaskDto.t) (requestingUserId : option Z)
  : PartialTask.t :=
  {| PartialTask.title := None;
     PartialTask.description := None;
     PartialTask.status := None;
     PartialTask.startDate := None;
     PartialTask.endDate := None;
     PartialTask.assignedUserId :=
       ReassignTaskDto.assignedUserId reassignmentRequest;
     PartialTask.assignedById := requestingUserId |}.

End TaskBusinessLogicService.

(** ** TaskNotificationService *)

Module TaskNotificationService.

Definition formatTaskForNotification (task : Task.t) : TaskSnapshot :=
  {| snap_id := Task.id task;
     snap_title := Task.title task;
     snap_description := Task.description task;
     snap_startDate := Task.startDate task;
     snap_endDate := Task.endDate task;
     snap_status := Task.status task |}.

(** [try { notificationsGateway.notifyUser(...) } catch { logger.error(...) }] *)
Definition tryNotifyUser (userId : Z) (event : string) (task : Task.t)
  (onError : string) : M unit :=
  threw <- externalCallThrows ;;
  emit (NotifyUser userId event (formatTaskForNotification task) (negb threw)) ;;;
  if threw : bool
  then emit (LogError "TaskNotificationService" onError)
  else ret tt.

Definition notifyTaskCreated (task : Task.t) : M unit :=
  match Task.assignedUserId task with
  | Some u =>
      if negb (truthyNum (Some u)) then ret tt
      else tryNotifyUser u "task:created" task
             "Failed to send task creation notification"
  | None => ret tt
  end.

Definition notifyTaskCompleted (task : Task.t) : M unit :=
  match Task.assignedById task with
  | Some u =>
      if negb (truthyNum (Some u)) then ret tt
      else tryNotifyUser u "task:completed" task
             "Failed to send completion notification"
  | None => ret tt
  end.

Definition notifyTaskReassigned (task : Task.t) (oldAssignedUserId : option Z)
  : M unit :=
  match Task.assignedUserId task with
  | Some u =>
      if negb (truthyNum (Some u))
         || optZ_eqb (Task.assignedUserId task) oldAssignedUserId
      then ret tt
      else tryNotifyUser u "task:reassigned" task
             "Failed to send task reassignment notification"
  | None => ret tt
  end.

Definition notifyTaskDeleted (task : Task.t) : M unit :=
  match Task.assignedUserId task with
  | Some u =>
      if negb (truthyNum (Some u)) then ret tt
      else tryNotifyUser u "task:deleted" task
             "Failed to send task deletion notification"
  | None => ret tt
  end.

End TaskNotificationService.

(** ** TasksService *)

Module TasksService.

Record TaskUpdateContext := {
  task : Task.t;
  updates : PartialTask.t;
  oldAssignedUserId : option Z;
  oldStatus : TaskStatus
}.

(** [try { availabilityQueue.add(...) } catch { logger.error(...) }], for a
    truthy [userId]. *)
Definition queueAvailabilityUpdate (userId : option Z) : M unit :=
  match userId with
  | Some u =>
      if truthyNum (Some u)
      then
        threw <- externalCallThrows ;;
        emit (QueueAdd "update-availability" u (negb threw)) ;;;
        if threw : bool
        then emit (LogError "TasksService"
                     "Failed to queue availability update")
        else ret tt
      else ret tt
  | None => ret tt
  end.

(** [Object.assign(task, updates)]. [None] when the entity would hold an
    invalid date, which [save] cannot write. *)
Definition objectAssign (task : Task.t) (updates : PartialTask.t)
  : option Task.t :=
  match PartialTask.startDate updates, PartialTask.endDate updates with
  | Some None, _ => None
  | _, Some None => None
  | s, e =>
      Some {| Task.id := Task.id task;
              Task.title :=
                match PartialTask.title updates with
                | Some ti => ti
                | None => Task.title task
                end;
              Task.description :=
                TaskRepositoryService.orElse (PartialTask.description updates)
                                             (Task.description task);
              Task.assignedUserId :=
                TaskRepositoryService.orElse (PartialTask.assignedUserId updates)
                                             (Task.assignedUserId task);
              Task.assignedById :=
                TaskRepositoryService.orElse (PartialTask.assignedById updates)
                                             (Task.assignedById task);
              Task.status := orStatus (PartialTask.status updates) (Task.status task);
              Task.startDate :=
                match s with
                | Some (Some d) => d
                | _ => Task.startDate task
                end;
              Task.endDate :=
                match e with
                | Some (Some d) => d
                | _ => Task.endDate task
                end |}
  end.

Definition saveAndReloadTask (task : Task.t) (updates : PartialTask.t)
  : M Task.t :=
  match objectAssign task updates with
  | Some task => TaskRepositoryService.save task
  | None => throw (TaskInfrastructureException "TaskRepository" "save task")
  end.

Definition reloadTaskWithRelations (taskId : Z) (operation : string)
  (loadAllRelations : bool) : M Task.t :=
  result <- (if loadAllRelations
             then TaskRepositoryService.findOneWithAllRelations taskId
             else TaskRepositoryService.findOne taskId) ;;
  match result with
  | Some result => ret result
  | None =>
      throw (TaskOperationException operation taskId
               "task not found after operation")
  end.

Definition create (h : Host) (createTaskDto : CreateTaskDto.t)
  (currentUserId : option Z) : M Task.t :=
  TaskBusinessLogicService.validateTaskCreation h createTaskDto ;;;
  let taskData :=
    TaskBusinessLogicService.buildTaskEntityForCreation
      h createTaskDto currentUserId in
  savedTask <- TaskRepositoryService.create taskData ;;
  queueAvailabilityUpdate (Task.assignedUserId savedTask) ;;;
  result <- reloadTaskWithRelations (Task.id savedTask) "created" true ;;
  TaskNotificationService.notifyTaskCreated result ;;;
  ret result.

(** [oldAssignedUserId] and [oldStatus] are read from the loaded task before
    [buildTaskEntityForUpdate] writes to it. *)
Definition prepareTaskUpdate (h : Host) (id : Z)
  (updateTaskDto : UpdateTaskDto.t) (currentUserId : option Z)
  (currentUserRole : option string) : M TaskUpdateContext :=
  task <- TaskBusinessLogicService.validateTaskUpdate
            h id updateTaskDto currentUserRole currentUserId ;;
  let oldAssignedUserId := Task.assignedUserId task in
  let oldStatus := Task.status task in
  let '(task, updates) :=
    TaskBusinessLogicService.buildTaskEntityForUpdate
      h task updateTaskDto currentUserId in
  ret {| task := task; updates := updates;
         oldAssignedUserId := oldAssignedUserId; oldStatus := oldStatus |}.

Definition executeTaskUpdate (context : TaskUpdateContext) : M Task.t :=
  savedTask <- saveAndReloadTask (task context) (updates context) ;;
  reloadTaskWithRelations (Task.id savedTask) "updated" true.

Definition handleAvailabilityUpdates (updateTaskDto : UpdateTaskDto.t)
  (oldAssignedUserId newAssignedUserId : option Z) : M unit :=
  (if truthyNum newAssignedUserId
      && (truthyStr (UpdateTaskDto.startDate updateTaskDto)
          || truthyStr (UpdateTaskDto.endDate updateTaskDto)
          || truthyNum (UpdateTaskDto.assignedUserId updateTaskDto))
   then queueAvailabilityUpdate newAssignedUserId
   else ret tt) ;;;
  if truthyNum (UpdateTaskDto.assignedUserId updateTaskDto)
     && truthyNum oldAssignedUserId
     && negb (optZ_eqb oldAssignedUserId newAssignedUserId)
  then queueAvailabilityUpdate oldAssignedUserId
  else ret tt.

Definition handleUpdateNotifications (task : Task.t)
  (updateTaskDto : UpdateTaskDto.t) (oldStatus : TaskStatus) : M unit :=
  match UpdateTaskDto.status updateTaskDto with
  | Some s =>
      if TaskStatus_eqb s COMPLETED && negb (TaskStatus_eqb oldStatus COMPLETED)
      then TaskNotificationService.notifyTaskCompleted task
      else ret tt
  | None => ret tt
  end.

Definition handleTaskUpdateSideEffects (context : TaskUpdateContext)
  (updatedTask : Task.t) (updateTaskDto : UpdateTaskDto.t) : M unit :=
  handleAvailabilityUpdates updateTaskDto (oldAssignedUserId context)
    (Task.assignedUserId updatedTask) ;;;
  handleUpdateNotifications updatedTask updateTaskDto (oldStatus context).

Definition update (h : Host) (id : Z) (updateTaskDto : UpdateTaskDto.t)
  (currentUserId : option Z) (currentUserRole : option string) : M Task.t :=
  updateContext <- prepareTaskUpdate h id updateTaskDto currentUserId
                     currentUserRole ;;
  updatedTask <- executeTaskUpdate updateContext ;;
  handleTaskUpdateSideEffects updateContext updatedTask updateTaskDto ;;;
  ret updatedTask.

(** [oldAssignedUserId] is read from the task returned by
    [validateTaskReassignment], that is after [applyTaskReassignment] has
    written the new assignee to it. *)
Definition reassign (id : Z) (reassignTaskDto : ReassignTaskDto.t)
  (currentUserId : option Z) : M Task.t :=
  task <- TaskBusinessLogicService.validateTaskReassignment id reassignTaskDto ;;
  let oldAssignedUserId := Task.assignedUserId task in
  let updates :=
    TaskBusinessLogicService.buildTaskEntityForReassignment
      task reassignTaskDto currentUserId in
  savedTask <- saveAndReloadTask task updates ;;
  queueAvailabilityUpdate (Task.assignedUserId savedTask) ;;;
  (if truthyNum oldAssignedUserId
      && negb (optZ_eqb oldAssignedUserId (Task.assignedUserId savedTask))
   then queueAvailabilityUpdate oldAssignedUserId
   else ret tt) ;;;
  result <- reloadTaskWithRelations (Task.id savedTask) "reassigned" false ;;
  TaskNotificationService.notifyTaskReassigned result oldAssignedUserId ;;;
  ret result.

Definition remove (id : Z) : M unit :=
  task <- TaskBusinessLogicService.validateTaskDeletion id ;;
  let assignedUserId := Task.assignedUserId task in
  TaskRepositoryService.delete id ;;;
  queueAvailabilityUpdate assignedUserId ;;;
  TaskNotificationService.notifyTaskDeleted task.

Definition findAll (db : Engine) (status : option TaskStatus)
  (assignedUserId : option Z) (search : option string)
  (currentUserRole : option string) (currentUserId : option Z)
  : M (list Task.t) :=
  let filter :=
    {| TaskFilter.status := status;
       TaskFilter.assignedUserId := assignedUserId;
       TaskFilter.search := search;
       TaskFilter.currentUserRole := currentUserRole;
       TaskFilter.currentUserId := currentUserId;
       TaskFilter.dateRange := None |} in
  TaskDomainService.findTasks db filter.

Definition findOne (id : Z) : M (option Task.t) :=
  TaskRepositoryService.findOne id.

End TasksService.

(** ** Stored data *)

(** Generated keys start at 1. *)
Definition idsPositive (rows : list Task.t) : Prop :=
  Forall (fun t => 0 < Task.id t) rows.

(** Primary keys are unique. *)
Definition uniqueIds (rows : list Task.t) : Prop := NoDup (map Task.id rows).

(** A well-formed store: keys are unique, positive, and below the next key
    to be generated. The empty store is well formed and every operation
    keeps the store so. *)
Definition wellFormed (w : World) : Prop :=
  uniqueIds (tasks w)
  /\ 0 < nextId w
  /\ Forall (fun t => 0 < Task.id t < nextId w) (tasks w).

(** [task] is committed time of [userId]: assigned to them and not
    completed. *)
Definition committedTo (userId : Z) (task : Task.t) : Prop :=
  Task.assignedUserId task = Some userId /\ Task.status task <> COMPLETED.

(** The window of [task] covers the instant [x], bounds included. *)
Definition covers (task : Task.t) (x : Z) : Prop :=
  Task.startDate task <= x <= Task.endDate task.

(** The no-overlap invariant: for a user and an instant, at most one
    non-completed task of that user covers the instant. *)
Definition noOverlap (rows : list Task.t) : Prop :=
  forall userId x t1 t2,
    In t1 rows -> In t2 rows ->
    committedTo userId t1 -> committedTo userId t2 ->
    covers t1 x -> covers t2 x ->
    t1 = t2.

(** The boundary-inclusive test of a stored window against a proposed one. *)
Definition windowsConflict (task : Task.t) (startDate endDate : Z) : Prop :=
  Task.startDate task <= endDate /\ Task.endDate task >= startDate.

(** A stored task that conflicts with a proposed window of [userId]: it is
    committed time of the user, is not the excluded task when one is given,
    and its window meets the proposed one. *)
Definition conflicting (userId startDate endDate : Z)
  (excludeTaskId : option Z) (task : Task.t) : Prop :=
  committedTo userId task
  /\ (forall x, excludeTaskId = Some x -> Task.id task <> x)
  /\ windowsConflict task startDate endDate.

(** The assignee of [task] differs from the caller's id: it is not the case
    that the task has an assignee, the caller an id, and the two are
    equal. *)
Definition assigneeDiffers (task : Task.t) (currentUserId : option Z) : Prop :=
  ~ exists user,
      Task.assignedUserId task = Some user /\ currentUserId = Some user.


(** ** What the table can hold *)

(** The user named by an optional id exists: there is no id, or it is the
    key of a row of [users]. *)
Definition userExists (w : World) (userId : option Z) : Prop :=
  forall u, userId = Some u -> In u (users w).

(** A title, when there is one, has at most 255 characters. *)
Definition fitsTitle (title : option string) : Prop :=
  forall t, title = Some t -> charLength t <= 255.

(** A description, when there is one, has at most 65535 bytes. *)
Definition fitsDescription (description : option string) : Prop :=
  forall d, description = Some d -> Z.of_nat (String.length d) <= 65535.

(** ** Conditions on a creation request *)

(** Every character of [s] is a white-space character: the encoding of a
    code point of the table. The empty string is white space only. *)
Definition whiteSpaceOnly (s : string) : Prop :=
  forall character,
    In character (characters s) ->
    exists c, In c whiteSpaceCodePoints /\ character = utf8 c.

(** The title is missing, empty or made of white space only. *)
Definition blankTitle (createTaskDto : CreateTaskDto.t) : Prop :=
  match CreateTaskDto.title createTaskDto with
  | Some s => whiteSpaceOnly s
  | None => True
  end.

(** Both dates are valid and [startDate >= endDate]. *)
Definition startNotBeforeEnd (h : Host) (createTaskDto : CreateTaskDto.t) : Prop :=
  exists s e,
    newDate h (CreateTaskDto.startDate createTaskDto) = Some s
    /\ newDate h (CreateTaskDto.endDate createTaskDto) = Some e
    /\ s >= e.

(** The start date is valid and strictly before the current instant. *)
Definition startInPast (h : Host) (createTaskDto : CreateTaskDto.t) : Prop :=
  exists s,
    newDate h (CreateTaskDto.startDate createTaskDto) = Some s /\ s < now h.

(** The rejection conditions as listed in the specification, where a field
    is absent when the request does not carry it. *)
Definition specifiedRejection (h : Host) (createTaskDto : CreateTaskDto.t) : Prop :=
  blankTitle createTaskDto
  \/ CreateTaskDto.startDate createTaskDto = None
  \/ CreateTaskDto.endDate createTaskDto = None
  \/ CreateTaskDto.assignedUserId createTaskDto = None
  \/ startNotBeforeEnd h createTaskDto
  \/ startInPast h createTaskDto.

Definition missingStr (s : option string) : Prop := s = None \/ s = Some "".

Definition missingNum (n : option Z) : Prop := n = None \/ n = Some 0.

(** The rejection conditions of the code: an empty date string and a zero
    user id count as missing. *)
Definition rejection (h : Host) (createTaskDto : CreateTaskDto.t) : Prop :=
  blankTitle createTaskDto
  \/ missingStr (CreateTaskDto.startDate createTaskDto)
  \/ missingStr (CreateTaskDto.endDate createTaskDto)
  \/ missingNum (CreateTaskDto.assignedUserId createTaskDto)
  \/ startNotBeforeEnd h createTaskDto
  \/ startInPast h createTaskDto.

(** ** Reading the trace *)

(** The notifications dispatched, as (recipient, event), in order. *)
Definition notified (es : list Effect) : list (Z * string) :=
  flat_map (fun e =>
              match e with
              | NotifyUser u ev _ _ => [(u, ev)]
              | _ => []
              end) es.

(** The users for whom an availability job was enqueued, in order. *)
Definition queued (es : list Effect) : list Z :=
  flat_map (fun e =>
              match e with
              | QueueAdd _ u true => [u]
              | _ => []
              end) es.

(** The calls to external services that threw. *)
Definition failedCalls (es : list Effect) : list Effect :=
  filter (fun e =>
            match e with
            | QueueAdd _ _ ok => negb ok
            | NotifyUser _ _ _ ok => negb ok
            | LogError _ _ => false
            end) es.

(** The errors written to the log. *)
Definition loggedErrors (es : list Effect) : list Effect :=
  filter (fun e =>
            match e with
            | LogError _ _ => true
            | _ => false
            end) es.

(** Every call that threw is matched by an error in the log. *)
Definition failuresLogged (es : list Effect) : Prop :=
  List.length (failedCalls es) = List.length (loggedErrors es).

(** No notification was dispatched. *)
Definition quiet (es : list Effect) : Prop := notified es = [].

(** The recipients of the completion notification of [task]. *)
Definition completionRecipients (task : Task.t) : list (Z * string) :=
  match Task.assignedById task with
  | Some u => if u =? 0 then [] else [(u, "task:completed")]
  | None => []
  end.

(** ** Properties of computations *)

(** [m] leaves the world as it found it. *)
Definition readOnly {A} (m : M A) : Prop :=
  forall w, snd (m w) = w.


(** [m] does not draw a key. *)
Definition keepsNextId {A} (m : M A) : Prop :=
  forall w, nextId (snd (m w)) = nextId w.

(** [m] only appends to the trace, and what it appends satisfies [P]. *)
Definition appends {A} (P : list Effect -> Prop) (m : M A) : Prop :=
  forall w, exists es, trace (snd (m w)) = trace w ++ es /\ P es.

(** The world [w] where the coming external calls have the outcomes [fs]. *)
Definition withFaults (fs : list bool) (w : World) : World :=
  {| tasks := tasks w; users := users w; nextId := nextId w; faults := fs;
     trace := trace w |}.

(** Two worlds with the same stored data. *)
Definition sameStore (w1 w2 : World) : Prop :=
  tasks w1 = tasks w2 /\ users w1 = users w2 /\ nextId w1 = nextId w2.

(** The result of [m] and the data it stores depend on the stored data
    only: not on the outcomes of external calls, nor on the trace. *)
Definition faultBlind {A} (m : M A) : Prop :=
  forall w1 w2,
    sameStore w1 w2 ->
    fst (m w1) = fst (m w2) /\ sameStore (snd (m w1)) (snd (m w2)).

(** An operation tolerates the failures of its side effects: whatever the
    outcomes [fs] of its external calls, it returns what it returns when they
    all succeed, stores the same data, and logs one error per failed call. *)
Definition toleratesFaults {A} (op : M A) : Prop :=
  forall w fs,
    fst (op (withFaults fs w)) = fst (op (withFaults [] w))
    /\ tasks (snd (op (withFaults fs w))) = tasks (snd (op (withFaults [] w)))
    /\ exists es,
         trace (snd (op (withFaults fs w))) = trace w ++ es
         /\ failuresLogged es.

(** The users for whom [availabilityQueue.add] was called, in order, whether
    the call threw or not. *)
Definition enqueueAttempts (es : list Effect) : list Z :=
  flat_map (fun e =>
              match e with
              | QueueAdd _ u _ => [u]
              | _ => []
              end) es.

(** [m] returns normally from every world. *)
Definition alwaysReturns {A} (m : M A) : Prop :=
  forall w, exists a w', m w = (Ok a, w').

(** The notification an operation sends to [userId] for [event]: none when
    the id is missing or zero. *)
Definition notificationTo (userId : option Z) (event : string)
  : list (Z * string) :=
  match userId with
  | Some u => if u =? 0 then [] else [(u, event)]
  | None => []
  end.

(** The availability job an operation enqueues for [userId]: none when the
    id is missing or zero. *)
Definition jobFor (userId : option Z) : list Z :=
  match userId with
  | Some u => if u =? 0 then [] else [u]
  | None => []
  end.

(** The value of a result, or [d] when it is a failure. *)
Definition valueOr {A} (d : A) (r : Result A) : A :=
  match r with
  | Ok a => a
  | Throw _ => d
  end.

(** The availability jobs of an update, from the request, the assignee
    before and the assignee after. *)
Definition availabilityJobs (dto : UpdateTaskDto.t)
  (oldAssignedUserId newAssignedUserId : option Z) : list Z :=
  (if truthyStr (UpdateTaskDto.startDate dto)
      || truthyStr (UpdateTaskDto.endDate dto)
      || truthyNum (UpdateTaskDto.assignedUserId dto)
   then jobFor newAssignedUserId
   else [])
  ++ (if truthyNum (UpdateTaskDto.assignedUserId dto)
         && negb (optZ_eqb oldAssignedUserId newAssignedUserId)
      then jobFor oldAssignedUserId
      else []).

(** The notification of an update: [task:completed] to the assigner of the
    updated task when the request sets COMPLETED on a task that was not. *)
Definition completionNotice (dto : UpdateTaskDto.t) (oldStatus : TaskStatus)
  (updatedTask : Task.t) : list (Z * string) :=
  match UpdateTaskDto.status dto with
  | Some s =>
      if TaskStatus_eqb s COMPLETED && negb (TaskStatus_eqb oldStatus COMPLETED)
      then notificationTo (Task.assignedById updatedTask) "task:completed"
      else []
  | None => []
  end.

(** The table after the row of key [id] has been overwritten with
    [entity]. *)
Definition replaceRow (id : Z) (entity : Task.t) (rows : list Task.t)
  : list Task.t :=
  map (fun r => if Task.id r =? id
                then TaskRepositoryService.mergeRow r entity else r) rows.


(** ** A concrete host and sample data

    [isoHost] reads UTC timestamps written [YYYY-MM-DDTHH:MM:SSZ], as the
    engine does, and reports any other string as an invalid date. It is used
    to run the methods on concrete requests. *)

Definition digit (c : ascii) : option Z :=
  let n := Z.of_nat (nat_of_ascii c) in
  if (48 <=? n) && (n <=? 57) then Some (n - 48) else None.

Fixpoint number (acc : Z) (l : list ascii) : option Z :=
  match l with
  | [] => Some acc
  | c :: rest =>
      match digit c with
      | Some d => number (acc * 10 + d) rest
      | None => None
      end
  end.

Definition daysFromCivil (y m d : Z) : Z :=
  let y := if m <=? 2 then y - 1 else y in
  let era := y / 400 in
  let yoe := y - era * 400 in
  let doy := (153 * (if 2 <? m then m - 3 else m + 9) + 2) / 5 + d - 1 in
  let doe := yoe * 365 + yoe / 4 - yoe / 100 + doy in
  era * 146097 + doe - 719468.

Definition isoParse (s : string) : JsDate :=
  match list_ascii_of_string s with
  | [y1; y2; y3; y4; "-"; m1; m2; "-"; d1; d2; "T";
     h1; h2; ":"; n1; n2; ":"; s1; s2; "Z"]%char =>
      match number 0 [y1; y2; y3; y4], number 0 [m1; m2], number 0 [d1; d2],
            number 0 [h1; h2], number 0 [n1; n2], number 0 [s1; s2] with
      | Some y, Some m, Some d, Some hh, Some mm, Some ss =>
          if (1 <=? m) && (m <=? 12) && (1 <=? d) && (d <=? 31)
             && (hh <=? 23) && (mm <=? 59) && (ss <=? 59)
          then Some ((((daysFromCivil y m d * 24 + hh) * 60 + mm) * 60 + ss) * 1000)
          else None
      | _, _, _, _, _, _ => None
      end
  | _ => None
  end.

(** The clock stands at 2025-01-01T00:00:00Z. *)
Definition isoHost : Host := {| parseDate := isoParse; now := 1735689600000 |}.

(** No task yet; the users 1 to 6 exist. *)
Definition emptyWorld : World :=
  {| tasks := []; users := [1; 2; 3; 4; 5; 6]; nextId := 1; faults := [];
     trace := [] |}.

Definition T1 : Task.t :=
  {| Task.id := 1; Task.title := "T1"; Task.description := None;
     Task.assignedUserId := Some 4; Task.assignedById := Some 2;
     Task.status := IN_PROGRESS;
     Task.startDate := 1736499600000; Task.endDate := 1736528400000 |}.

(** Same window and assignee as [T1], completed. *)
Definition T2 : Task.t :=
  {| Task.id := 2; Task.title := "T2"; Task.description := None;
     Task.assignedUserId := Some 4; Task.assignedById := Some 2;
     Task.status := COMPLETED;
     Task.startDate := 1736499600000; Task.endDate := 1736528400000 |}.

(** Assigned to another user, overlapping [T1]. *)
Definition T3 : Task.t :=
  {| Task.id := 3; Task.title := "T3"; Task.description := None;
     Task.assignedUserId := Some 5; Task.assignedById := None;
     Task.status := IN_PROGRESS;
     Task.startDate := 1736524800000; Task.endDate := 1736532000000 |}.

Definition sampleWorld : World :=
  {| tasks := [T1; T2; T3]; users := [1; 2; 3; 4; 5; 6]; nextId := 4;
     faults := []; trace := [] |}.

(** [T1] once completed. *)
Definition completedT1 : Task.t :=
  {| Task.id := 1; Task.title := "T1"; Task.description := None;
     Task.assignedUserId := Some 4; Task.assignedById := Some 2;
     Task.status := COMPLETED;
     Task.startDate := 1736499600000; Task.endDate := 1736528400000 |}.

(** The world after user 4 has completed [T1] in [sampleWorld]. *)
Definition completedWorld : World :=
  {| tasks := [completedT1; T2; T3]; users := [1; 2; 3; 4; 5; 6]; nextId := 4;
     faults := [];
     trace := [NotifyUser 2 "task:completed"
                 (TaskNotificationService.formatTaskForNotification completedT1)
                 true] |}.

(** [T2] once reopened. *)
Definition reopenedT2 : Task.t :=
  {| Task.id := 2; Task.title := "T2"; Task.description := None;
     Task.assignedUserId := Some 4; Task.assignedById := Some 2;
     Task.status := IN_PROGRESS;
     Task.startDate := 1736499600000; Task.endDate := 1736528400000 |}.

(** A well-formed request for user id 0. *)
Definition zeroUserDto : CreateTaskDto.t :=
  {| CreateTaskDto.title := Some "T";
     CreateTaskDto.description := None;
     CreateTaskDto.startDate := Some "2025-01-10T09:00:00Z";
     CreateTaskDto.endDate := Some "2025-01-10T17:00:00Z";
     CreateTaskDto.assignedUserId := Some 0;
     CreateTaskDto.status := None |}.

(** A well-formed request for user 6 with the title [title]. *)
Definition titledDto (title : string) : CreateTaskDto.t :=
  {| CreateTaskDto.title := Some title;
     CreateTaskDto.description := None;
     CreateTaskDto.startDate := Some "2025-01-10T09:00:00Z";
     CreateTaskDto.endDate := Some "2025-01-10T17:00:00Z";
     CreateTaskDto.assignedUserId := Some 6;
     CreateTaskDto.status := None |}.

(** A request for user 4 over the window of [T1]. *)
Definition sampleCreateDto : CreateTaskDto.t :=
  {| CreateTaskDto.title := Some "T";
     CreateTaskDto.description := None;
     CreateTaskDto.startDate := Some "2025-01-10T09:00:00Z";
     CreateTaskDto.endDate := Some "2025-01-10T17:00:00Z";
     CreateTaskDto.assignedUserId := Some 4;
     CreateTaskDto.status := None |}.

(** A request for user 6 whose title carries surrounding blanks. *)
Definition paddedDto : CreateTaskDto.t :=
  {| CreateTaskDto.title := Some " T ";
     CreateTaskDto.description := None;
     CreateTaskDto.startDate := Some "2025-01-10T09:00:00Z";
     CreateTaskDto.endDate := Some "2025-01-10T17:00:00Z";
     CreateTaskDto.assignedUserId := Some 6;
     CreateTaskDto.status := None |}.

(** Reassign to user 6, who has no task. *)
Definition reassignToFreeUser : ReassignTaskDto.t :=
  {| ReassignTaskDto.assignedUserId := Some 6 |}.

(** A request that moves a task to user 6 and completes it. *)
Definition reassignAndComplete : UpdateTaskDto.t :=
  {| UpdateTaskDto.title := None; UpdateTaskDto.description := None;
     UpdateTaskDto.startDate := None; UpdateTaskDto.endDate := None;
     UpdateTaskDto.assignedUserId := Some 6;
     UpdateTaskDto.status := Some COMPLETED |}.

Definition statusOnly (s : TaskStatus) : UpdateTaskDto.t :=
  {| UpdateTaskDto.title := None; UpdateTaskDto.description := None;
     UpdateTaskDto.startDate := None; UpdateTaskDto.endDate := None;
     UpdateTaskDto.assignedUserId := None; UpdateTaskDto.status := Some s |}.

(** A database engine for the examples: a pattern [%s%] matches the value
    [s] only, the newest rows are the last of the table, and of two rows with
    the same start date the one with the smaller key comes first. *)
Definition sampleEngine : Engine :=
  {| like := fun value pattern =>
               String.eqb (String.append "%" (String.append value "%")) pattern;
     orderByCreatedAtDesc := @rev Task.t;
     tieBefore := fun a b => Task.id a <? Task.id b |}.

(** * Properties *)

(** ** The monad *)

Lemma bind_ok {A B} (m : M A) (k : A -> M B) w a w' :
  m w = (Ok a, w') -> bind m k w = k a w'.
Proof. intros H. unfold bind. now rewrite H. Qed.

Lemma bind_throw {A B} (m : M A) (k : A -> M B) w e w' :
  m w = (Throw e, w') -> bind m k w = (Throw e, w').
Proof. intros H. unfold bind. now rewrite H. Qed.

Lemma TaskStatus_eqb_eq a b : TaskStatus_eqb a b = true <-> a = b.
Proof. destruct a, b; simpl; split; congruence. Qed.

Lemma optZ_eqb_eq a b : optZ_eqb a b = true <-> a = b.
Proof.
  destruct a as [x|], b as [y|]; simpl; split; try congruence.
  - intros H. apply Z.eqb_eq in H. now subst.
  - intros H. inversion H. apply Z.eqb_refl.
Qed.

Lemma optZ_eqb_refl a : optZ_eqb a a = true.
Proof. now apply optZ_eqb_eq. Qed.

(** ** Overlap check *)

Section OverlapQuery.

Variables (userId startDate endDate : Z) (excludeTaskId : option Z).

Lemma overlapRow_conflicting task :
  0 < Task.id task ->
  TaskRepositoryService.overlapRow
    (Some userId) (Some startDate) (Some endDate) excludeTaskId task
    = true
  <-> conflicting userId startDate endDate excludeTaskId task.
Proof.
  intros Hid.
  unfold TaskRepositoryService.overlapRow, TaskRepositoryService.sqlEq,
    conflicting, committedTo, windowsConflict, dateGe, dateLe.
  rewrite !andb_true_iff, negb_true_iff.
  split.
  - intros [[[Hu Hs] [Hlo Hhi]] Hex].
    repeat split.
    + destruct (Task.assignedUserId task) as [u|]; [|discriminate].
      apply Z.eqb_eq in Hu. now subst.
    + intros Hc. rewrite Hc in Hs. discriminate.
    + intros x Hx. subst. simpl in Hex.
      destruct (x =? 0) eqn:E; simpl in Hex.
      * apply Z.eqb_eq in E. lia.
      * apply negb_true_iff, Z.eqb_neq in Hex. exact Hex.
    + now apply Z.leb_le.
    + apply Z.geb_le in Hhi. lia.
  - intros [[Hu Hs] [Hex [Hlo Hhi]]].
    repeat split.
    + rewrite Hu. apply Z.eqb_refl.
    + destruct (Task.status task); [reflexivity | congruence].
    + now apply Z.leb_le.
    + apply Z.geb_le. lia.
    + destruct excludeTaskId as [x|]; simpl; [|reflexivity].
      destruct (x =? 0); simpl; [reflexivity|].
      apply negb_true_iff, Z.eqb_neq. now apply Hex.
Qed.

Lemma overlappingTasks_nonempty rows :
  idsPositive rows ->
  (0 <? Z.of_nat (List.length
                    (TaskRepositoryService.overlappingTasks
                       rows (Some userId) (Some startDate) (Some endDate)
                       excludeTaskId))) = true
  <-> exists task,
        In task rows /\ conflicting userId startDate endDate excludeTaskId task.
Proof.
  intros Hpos. unfold TaskRepositoryService.overlappingTasks.
  rewrite Z.ltb_lt. split.
  - intros Hlen.
    destruct (filter _ rows) as [|task rest] eqn:E; [simpl in Hlen; lia|].
    assert (Hin : In task (filter
      (TaskRepositoryService.overlapRow
         (Some userId) (Some startDate) (Some endDate) excludeTaskId)
      rows)) by (rewrite E; now left).
    apply filter_In in Hin. destruct Hin as [Hin Hrow].
    exists task. split; [exact Hin|].
    apply overlapRow_conflicting; [|exact Hrow].
    unfold idsPositive in Hpos. rewrite Forall_forall in Hpos. now apply Hpos.
  - intros [task [Hin Hc]].
    assert (Hf : In task (filter
      (TaskRepositoryService.overlapRow
         (Some userId) (Some startDate) (Some endDate) excludeTaskId)
      rows)).
    { apply filter_In. split; [exact Hin|].
      apply overlapRow_conflicting; [|exact Hc].
      unfold idsPositive in Hpos. rewrite Forall_forall in Hpos.
      now apply Hpos. }
    destruct (filter _ rows); [destruct Hf | simpl; lia].
Qed.

End OverlapQuery.

(** C1. For every user, proposed window and optional excluded task,
    [checkOverlap] (through [hasOverlappingTasks]) returns, leaves the world as
    it is, and answers [true] exactly when some stored task is assigned to the
    user, is not completed, has an id different from the excluded one when one
    is given, and has a window with [startDate <= endDate'] and
    [endDate >= startDate'] (bounds included). Stored tasks carry generated
    keys, which are positive. *)
Theorem checkOverlap_iff_conflicting_task :
  forall (w : World) (userId startDate endDate : Z) (excludeTaskId : option Z),
    idsPositive (tasks w) ->
    exists b : bool,
      AvailabilityService.checkOverlap
        (Some userId) (Some startDate) (Some endDate) excludeTaskId w
        = (Ok b, w)
      /\ (b = true <->
          exists task,
            In task (tasks w)
            /\ Task.assignedUserId task = Some userId
            /\ Task.status task <> COMPLETED
            /\ (forall x, excludeTaskId = Some x -> Task.id task <> x)
            /\ Task.startDate task <= endDate
            /\ Task.endDate task >= startDate).
Proof.
  intros w userId startDate endDate excludeTaskId Hpos.
  eexists. split.
  - reflexivity.
  - rewrite (overlappingTasks_nonempty userId startDate endDate excludeTaskId
               (tasks w) Hpos).
    unfold conflicting, committedTo, windowsConflict.
    split; intros [task H]; exists task; tauto.
Qed.

Lemma idsPositive_sampleWorld : idsPositive (tasks sampleWorld).
Proof. repeat constructor. Defined.

(** C1 at a window of user 4 that starts at the instant [T1] ends. *)
Lemma checkOverlap_iff_conflicting_task_witness :
  idsPositive (tasks sampleWorld)
  /\ exists b : bool,
      AvailabilityService.checkOverlap
        (Some 4) (Some 1736528400000) (Some 1736535600000) None sampleWorld
        = (Ok b, sampleWorld)
      /\ (b = true <->
          exists task,
            In task (tasks sampleWorld)
            /\ Task.assignedUserId task = Some 4
            /\ Task.status task <> COMPLETED
            /\ (forall x, None = Some x -> Task.id task <> x)
            /\ Task.startDate task <= 1736535600000
            /\ Task.endDate task >= 1736528400000).
Proof.
  split.
  - exact idsPositive_sampleWorld.
  - apply (checkOverlap_iff_conflicting_task sampleWorld 4 1736528400000
             1736535600000 None).
    exact idsPositive_sampleWorld.
Defined.

Lemma conflicting_overlapRow userId startDate endDate excludeTaskId task :
  conflicting userId startDate endDate excludeTaskId task ->
  TaskRepositoryService.overlapRow
    (Some userId) (Some startDate) (Some endDate) excludeTaskId task
    = true.
Proof.
  intros [[Hu Hs] [Hex [Hlo Hhi]]].
  unfold TaskRepositoryService.overlapRow, TaskRepositoryService.sqlEq, dateGe,
    dateLe.
  rewrite Hu, Z.eqb_refl. simpl.
  assert (Hst : TaskStatus_eqb (Task.status task) COMPLETED = false)
    by (destruct (Task.status task); [reflexivity | congruence]).
  rewrite Hst. simpl.
  assert (Hle : (Task.startDate task <=? endDate) = true)
    by now apply Z.leb_le.
  assert (Hge : (Task.endDate task >=? startDate) = true)
    by (apply Z.geb_le; lia).
  rewrite Hle, Hge. simpl.
  destruct excludeTaskId as [x|]; simpl; [|reflexivity].
  destruct (x =? 0); simpl; [reflexivity|].
  apply negb_true_iff, Z.eqb_neq. now apply Hex.
Qed.

Lemma hasOverlappingTasks_conflict w userId startDate endDate excludeTaskId task :
  In task (tasks w) ->
  conflicting userId startDate endDate excludeTaskId task ->
  TaskRepositoryService.hasOverlappingTasks
    (Some userId) (Some startDate) (Some endDate) excludeTaskId w
  = (Ok true, w).
Proof.
  intros Hin Hc.
  unfold TaskRepositoryService.hasOverlappingTasks, bind, getTasks, ret.
  f_equal. f_equal.
  unfold TaskRepositoryService.overlappingTasks.
  assert (Hf : In task (filter
    (TaskRepositoryService.overlapRow
       (Some userId) (Some startDate) (Some endDate) excludeTaskId)
    (tasks w))).
  { apply filter_In. split; [exact Hin|]. now apply conflicting_overlapRow. }
  destruct (filter _ (tasks w)); [destruct Hf|].
  apply Z.ltb_lt. simpl List.length. lia.
Qed.

(** ** Reassignment onto a busy user *)

(** C5, as amended. When the task exists and the user a reassignment
    targets has another, non-completed task whose window meets the task's
    window (bounds included), [reassign] fails with a
    [TaskValidationException] that carries the overlap message, and the
    world is left exactly as it was: no row is written, so the task keeps its
    assignee, and no job or notification is issued. *)
Theorem reassign_conflict_fails_unchanged :
  forall (w : World) (id : Z) (reassignTaskDto : ReassignTaskDto.t)
         (currentUserId : option Z) (task other : Task.t) (target : Z),
    find (fun t => Task.id t =? id) (tasks w) = Some task ->
    ReassignTaskDto.assignedUserId reassignTaskDto = Some target ->
    target <> 0 ->
    In other (tasks w) ->
    conflicting target (Task.startDate task) (Task.endDate task) (Some id) other ->
    TasksService.reassign id reassignTaskDto currentUserId w
    = (Throw (TaskValidationException overlapMessage), w).
Proof.
  intros w id dto caller task other target Hfind Hdto Hnz Hin Hc.
  unfold TasksService.reassign,
    TaskBusinessLogicService.validateTaskReassignment,
    TaskDomainService.prepareTaskReassignment.
  unfold bind at 1. unfold bind at 1. unfold bind at 1.
  unfold TaskRepositoryService.findOne at 1.
  unfold bind at 1, getTasks, ret. rewrite Hfind.
  unfold bind at 1, liftR,
    TaskValidationDomain.validateTaskReassignmentData.
  rewrite Hdto. simpl truthyNum.
  apply Z.eqb_neq in Hnz. rewrite Hnz. simpl.
  unfold bind at 1, AvailabilityService.checkOverlap.
  rewrite (hasOverlappingTasks_conflict w target _ _ (Some id) other Hin Hc).
  reflexivity.
Qed.

(** C5 at the reassignment of [T1] to user 5, who holds [T3]. *)
Lemma reassign_conflict_fails_unchanged_witness :
  TasksService.reassign 1 {| ReassignTaskDto.assignedUserId := Some 5 |}
    (Some 2) sampleWorld
  = (Throw (TaskValidationException overlapMessage), sampleWorld).
Proof.
  apply (reassign_conflict_fails_unchanged sampleWorld 1
           {| ReassignTaskDto.assignedUserId := Some 5 |} (Some 2) T1 T3 5).
  - reflexivity.
  - reflexivity.
  - discriminate.
  - simpl. tauto.
  - unfold conflicting, committedTo, windowsConflict. simpl.
    repeat split; try discriminate; try lia.
    intros x Hx. inversion Hx. lia.
Defined.

(** C5 as first stated does not hold: the error of a conflicting
    reassignment is not the overlap exception. Reassigning [T1] to user 5,
    who holds [T3] over a window that meets the one of [T1], throws a
    [TaskValidationException], the exception of a rejected request;
    [TaskOverlapException] is thrown nowhere. *)
Lemma reassign_conflict_is_a_validation_error :
  exists e,
    TasksService.reassign 1 {| ReassignTaskDto.assignedUserId := Some 5 |}
      (Some 2) sampleWorld
    = (Throw e, sampleWorld)
    /\ e = TaskValidationException overlapMessage
    /\ e <> TaskOverlapException.
Proof.
  exists (TaskValidationException overlapMessage).
  split; [vm_compute; reflexivity|].
  split; [reflexivity | discriminate].
Qed.

(** ** Update permissions *)

Lemma loadedDiffers_true task currentUserId :
  loadedDiffers (Task.assignedUserId task) currentUserId = true
  <-> assigneeDiffers task currentUserId.
Proof.
  unfold assigneeDiffers.
  destruct (Task.assignedUserId task) as [a|], currentUserId as [b|]; simpl.
  - rewrite negb_true_iff, Z.eqb_neq. split.
    + intros Hne [u [Ha Hb]]. congruence.
    + intros H Heq. apply H. exists a. now subst.
  - split; [|reflexivity]. intros _ [u [_ Hb]]. discriminate.
  - split; [|reflexivity]. intros _ [u [Ha _]]. discriminate.
  - split; [|reflexivity]. intros _ [u [Ha _]]. discriminate.
Qed.

Lemma isRole_USER userRole :
  isRole userRole UserRole.USER = true <-> userRole = Some UserRole.USER.
Proof.
  destruct userRole as [r|]; simpl; split; try congruence.
  - intros H. apply String.eqb_eq in H. now subst.
  - intros H. inversion H. apply String.eqb_refl.
Qed.

Lemma restricted_field updateRequest :
  filter (fun field =>
            negb (TaskValidationDomain.includes
                    TaskValidationDomain.allowedFields field))
         (UpdateTaskDto.keys updateRequest) <> []
  <-> exists field,
        In field (UpdateTaskDto.keys updateRequest) /\ field <> "status".
Proof.
  split.
  - intros Hne.
    destruct (filter _ (UpdateTaskDto.keys updateRequest)) as [|f rest] eqn:E;
      [congruence|].
    assert (Hin : In f (f :: rest)) by now left.
    rewrite <- E in Hin. apply filter_In in Hin. destruct Hin as [Hin Hneg].
    exists f. split; [exact Hin|].
    unfold TaskValidationDomain.includes, TaskValidationDomain.allowedFields in Hneg.
    simpl in Hneg. rewrite orb_false_r in Hneg.
    apply negb_true_iff, String.eqb_neq in Hneg. exact Hneg.
  - intros [f [Hin Hneq]] Hnil.
    assert (Hf : In f (filter (fun field =>
              negb (TaskValidationDomain.includes
                      TaskValidationDomain.allowedFields field))
              (UpdateTaskDto.keys updateRequest))).
    { apply filter_In. split; [exact Hin|].
      unfold TaskValidationDomain.includes, TaskValidationDomain.allowedFields.
      simpl. rewrite orb_false_r.
      now apply negb_true_iff, String.eqb_neq. }
    rewrite Hnil in Hf. destruct Hf.
Qed.

Lemma validateUserCanOnlyUpdateStatus_iff updateRequest :
  (TaskValidationDomain.validateUserCanOnlyUpdateStatus updateRequest = Ok tt
   \/ exists m,
        TaskValidationDomain.validateUserCanOnlyUpdateStatus updateRequest
        = Throw (TaskPermissionException m))
  /\ ((exists m,
         TaskValidationDomain.validateUserCanOnlyUpdateStatus updateRequest
         = Throw (TaskPermissionException m))
      <-> exists field,
            In field (UpdateTaskDto.keys updateRequest) /\ field <> "status").
Proof.
  rewrite <- restricted_field.
  unfold TaskValidationDomain.validateUserCanOnlyUpdateStatus.
  destruct (filter _ (UpdateTaskDto.keys updateRequest)) as [|f rest].
  - simpl. split; [now left|]. split; [intros [m Hm]; discriminate | congruence].
  - assert (Hlen : (0 <? Z.of_nat (List.length (f :: rest))) = true)
      by (apply Z.ltb_lt; simpl List.length; lia).
    rewrite Hlen. split.
    + right. eexists. reflexivity.
    + split; [discriminate | intros _; eexists; reflexivity].
Qed.

(** C7. [validateTaskUpdatePermissions] either returns or throws a
    [TaskPermissionException], and it throws exactly when the caller's role is
    USER and the task's assignee differs from the caller's id or the request
    carries a field other than [status]. For any other role, or none, it
    returns. (The assignee differs from the caller's id unless both are the
    same number: a task without assignee is nobody's own.) *)
Theorem validateTaskUpdatePermissions_iff :
  forall (task : Task.t) (updateRequest : UpdateTaskDto.t)
         (userRole : option string) (currentUserId : option Z),
    (TaskValidationDomain.validateTaskUpdatePermissions
       task updateRequest userRole currentUserId = Ok tt
     \/ exists m,
          TaskValidationDomain.validateTaskUpdatePermissions
            task updateRequest userRole currentUserId
          = Throw (TaskPermissionException m))
    /\ ((exists m,
           TaskValidationDomain.validateTaskUpdatePermissions
             task updateRequest userRole currentUserId
           = Throw (TaskPermissionException m))
        <-> userRole = Some UserRole.USER
            /\ (assigneeDiffers task currentUserId
                \/ exists field,
                     In field (UpdateTaskDto.keys updateRequest)
                     /\ field <> "status")).
Proof.
  intros task dto role caller.
  unfold TaskValidationDomain.validateTaskUpdatePermissions.
  destruct (isRole role UserRole.USER) eqn:Hrole.
  - apply isRole_USER in Hrole.
    destruct (loadedDiffers (Task.assignedUserId task) caller) eqn:Hown; simpl.
    + apply loadedDiffers_true in Hown.
      split; [right; eexists; reflexivity|].
      split.
      * intros _. split; [exact Hrole | now left].
      * intros _. eexists. reflexivity.
    + assert (Hsame : ~ assigneeDiffers task caller)
        by (rewrite <- loadedDiffers_true; congruence).
      destruct (validateUserCanOnlyUpdateStatus_iff dto) as [Htot Hiff].
      split; [exact Htot|].
      rewrite Hiff. split.
      * intros H. split; [exact Hrole | now right].
      * intros [_ [H|H]]; [contradiction | exact H].
  - simpl. split; [now left|].
    split.
    + intros [m Hm]. discriminate.
    + intros [Hr _]. apply isRole_USER in Hr. congruence.
Qed.

(** A USER who sends only [status] for a task of their own passes. *)
Lemma user_may_update_own_status task user status :
  Task.assignedUserId task = Some user ->
  TaskValidationDomain.validateTaskUpdatePermissions task
    {| UpdateTaskDto.title := None; UpdateTaskDto.description := None;
       UpdateTaskDto.startDate := None; UpdateTaskDto.endDate := None;
       UpdateTaskDto.assignedUserId := None;
       UpdateTaskDto.status := Some status |}
    (Some UserRole.USER) (Some user)
  = Ok tt.
Proof.
  intros Hown. unfold TaskValidationDomain.validateTaskUpdatePermissions.
  rewrite Hown. simpl. rewrite Z.eqb_refl. reflexivity.
Qed.

(** ** Validation of creation requests *)

Lemma truthyStr_false s : truthyStr s = false <-> missingStr s.
Proof.
  unfold missingStr. destruct s as [s|]; simpl.
  - rewrite negb_false_iff, String.eqb_eq. split.
    + intros H. right. now subst.
    + intros [H|H]; [discriminate | now inversion H].
  - split; [now left | reflexivity].
Qed.

Lemma truthyNum_false n : truthyNum n = false <-> missingNum n.
Proof.
  unfold missingNum. destruct n as [z|]; simpl.
  - rewrite negb_false_iff, Z.eqb_eq. split.
    + intros H. right. now subst.
    + intros [H|H]; [discriminate | now inversion H].
  - split; [now left | reflexivity].
Qed.

(** *** Trimming *)

Lemma characters_nonempty_upto n :
  forall s, (String.length s <= n)%nat ->
  forall character, In character (characters s) -> character <> "".
Proof.
  induction n as [|n IH]; intros s Hlen character Hin.
  - destruct s; [destruct Hin | simpl in Hlen; lia].
  - destruct s as [|a s1]; [destruct Hin|].
    simpl in Hin, Hlen.
    destruct (byteOf a <? 192).
    { destruct Hin as [<-|Hin]; [discriminate|].
      apply (IH s1); [lia | exact Hin]. }
    destruct s1 as [|b s2]; [destruct Hin as [<-|[]]; discriminate|].
    simpl in Hlen.
    destruct (byteOf a <? 224).
    { destruct Hin as [<-|Hin]; [discriminate|].
      apply (IH s2); [lia | exact Hin]. }
    destruct s2 as [|c s3]; [destruct Hin as [<-|[]]; discriminate|].
    simpl in Hlen.
    destruct (byteOf a <? 240).
    { destruct Hin as [<-|Hin]; [discriminate|].
      apply (IH s3); [lia | exact Hin]. }
    destruct s3 as [|d s4]; [destruct Hin as [<-|[]]; discriminate|].
    simpl in Hlen.
    destruct Hin as [<-|Hin]; [discriminate|].
    apply (IH s4); [lia | exact Hin].
Qed.

Lemma characters_nonempty s character :
  In character (characters s) -> character <> "".
Proof. apply (characters_nonempty_upto (String.length s)). lia. Qed.

Lemma isWhiteSpace_true character :
  isWhiteSpace character = true
  <-> exists c, In c whiteSpaceCodePoints /\ character = utf8 c.
Proof.
  unfold isWhiteSpace. rewrite existsb_exists.
  split; intros [c [Hin H]]; exists c; split; try exact Hin;
    now apply String.eqb_eq.
Qed.

Lemma dropWhile_nil {A} (f : A -> bool) l :
  dropWhile f l = [] <-> forallb f l = true.
Proof.
  induction l as [|x rest IH]; simpl; [tauto|].
  destruct (f x); simpl; [exact IH|]. split; discriminate.
Qed.

Lemma dropWhile_In {A} (f : A -> bool) l x :
  In x (dropWhile f l) -> In x l.
Proof.
  induction l as [|y rest IH]; simpl; [tauto|].
  destruct (f y); simpl; [intros H; right; now apply IH | tauto].
Qed.

Lemma dropWhile_head {A} (f : A -> bool) l x rest :
  dropWhile f l = x :: rest -> f x = false.
Proof.
  induction l as [|y l' IH]; simpl; [discriminate|].
  destruct (f y) eqn:E; [exact IH|].
  intros H. inversion H. now subst.
Qed.

Lemma dropWhile_last {A} (f : A -> bool) l x :
  f x = false -> dropWhile f (l ++ [x]) <> [].
Proof.
  intros Hx. induction l as [|y l' IH]; simpl.
  - rewrite Hx. discriminate.
  - destruct (f y); [exact IH | discriminate].
Qed.

Lemma trim_characters_nil l :
  trimEnd (trimStart l) = [] <-> forallb isWhiteSpace l = true.
Proof.
  unfold trimEnd, trimStart. rewrite <- dropWhile_nil.
  destruct (dropWhile isWhiteSpace l) as [|x rest] eqn:E; [tauto|].
  split; [|discriminate].
  intros H. exfalso.
  apply dropWhile_head in E.
  assert (Hr : dropWhile isWhiteSpace (rev (x :: rest)) = []).
  { destruct (dropWhile isWhiteSpace (rev (x :: rest))); [reflexivity|].
    simpl in H. apply (f_equal (@List.length string)) in H.
    rewrite length_app in H. simpl in H. lia. }
  simpl in Hr. exact (dropWhile_last isWhiteSpace (rev rest) x E Hr).
Qed.

Lemma concat_nil (l : list string) :
  (forall x, In x l -> x <> "") -> String.concat "" l = "" -> l = [].
Proof.
  destruct l as [|x rest]; [reflexivity|]. intros Hne H. exfalso.
  apply (Hne x); [now left|].
  simpl in H. destruct rest; [exact H|].
  destruct x; [reflexivity | discriminate].
Qed.

(** [trim] gives the empty string exactly on the strings made of white
    space only. *)
Lemma trim_empty_iff s : trim s = "" <-> whiteSpaceOnly s.
Proof.
  unfold trim, whiteSpaceOnly. split.
  - intros H character Hin. apply isWhiteSpace_true.
    apply concat_nil in H.
    + apply trim_characters_nil in H.
      rewrite forallb_forall in H. now apply H.
    + intros x Hx. apply (characters_nonempty s).
      unfold trimEnd, trimStart in Hx.
      apply in_rev, dropWhile_In, in_rev, dropWhile_In in Hx. exact Hx.
  - intros H.
    assert (Hall : forallb isWhiteSpace (characters s) = true).
    { apply forallb_forall. intros x Hx. apply isWhiteSpace_true.
      now apply H. }
    apply trim_characters_nil in Hall. now rewrite Hall.
Qed.

Lemma truthyTitle_false createTaskDto :
  truthyStr (option_map trim (CreateTaskDto.title createTaskDto)) = false
  <-> blankTitle createTaskDto.
Proof.
  unfold blankTitle. destruct (CreateTaskDto.title createTaskDto) as [s|]; simpl.
  - rewrite negb_false_iff, String.eqb_eq. apply trim_empty_iff.
  - tauto.
Qed.

Lemma dateGe_true a b :
  dateGe a b = true <-> exists s e, a = Some s /\ b = Some e /\ s >= e.
Proof.
  destruct a as [x|], b as [y|]; simpl; split;
    try discriminate;
    try (intros [s [e [Hs [He _]]]]; discriminate).
  - intros H. exists x, y. repeat split. apply Z.geb_le in H. lia.
  - intros [s [e [Hs [He Hge]]]]. inversion Hs. inversion He. subst.
    apply Z.geb_le. lia.
Qed.

Lemma dateLt_true a y :
  dateLt a (Some y) = true <-> exists s, a = Some s /\ s < y.
Proof.
  destruct a as [x|]; simpl; split; try discriminate.
  - intros H. exists x. split; [reflexivity | now apply Z.ltb_lt].
  - intros [s [Hs Hlt]]. inversion Hs. subst. now apply Z.ltb_lt.
  - intros [s [Hs _]]. discriminate.
Qed.

(** C6, as amended. [validateTaskCreationData] either returns or throws a
    [TaskValidationException], and it throws exactly when the title is
    missing, empty or white space only, or [startDate] is missing or empty, or
    [endDate] is missing or empty, or [assignedUserId] is missing or zero, or
    [startDate >= endDate], or [startDate] is strictly before the current
    instant. *)
Theorem validateTaskCreationData_iff :
  forall (h : Host) (createTaskDto : CreateTaskDto.t),
    (TaskValidationDomain.validateTaskCreationData h createTaskDto = Ok tt
     \/ exists m,
          TaskValidationDomain.validateTaskCreationData h createTaskDto
          = Throw (TaskValidationException m))
    /\ ((exists m,
           TaskValidationDomain.validateTaskCreationData h createTaskDto
           = Throw (TaskValidationException m))
        <-> rejection h createTaskDto).
Proof.
  intros h dto.
  unfold TaskValidationDomain.validateTaskCreationData,
    TaskValidationDomain.validateRequiredFields,
    TaskValidationDomain.validateDateRange, rejection.
  pose proof (truthyTitle_false dto) as Ht.
  pose proof (truthyStr_false (CreateTaskDto.startDate dto)) as Hs.
  pose proof (truthyStr_false (CreateTaskDto.endDate dto)) as He.
  pose proof (truthyNum_false (CreateTaskDto.assignedUserId dto)) as Hu.
  pose proof (dateGe_true (newDate h (CreateTaskDto.startDate dto))
                          (newDate h (CreateTaskDto.endDate dto))) as Hge.
  pose proof (dateLt_true (newDate h (CreateTaskDto.startDate dto)) (now h))
    as Hlt.
  fold (startNotBeforeEnd h dto) in Hge.
  fold (startInPast h dto) in Hlt.
  destruct (truthyStr (option_map trim (CreateTaskDto.title dto))); simpl;
    [|split; [right; eexists; reflexivity
             |split; [intros _; left; now apply Ht
                     |intros _; eexists; reflexivity]]].
  destruct (truthyStr (CreateTaskDto.startDate dto)); simpl;
    [|split; [right; eexists; reflexivity
             |split; [intros _; right; left; now apply Hs
                     |intros _; eexists; reflexivity]]].
  destruct (truthyStr (CreateTaskDto.endDate dto)); simpl;
    [|split; [right; eexists; reflexivity
             |split; [intros _; right; right; left; now apply He
                     |intros _; eexists; reflexivity]]].
  destruct (truthyNum (CreateTaskDto.assignedUserId dto)); simpl;
    [|split; [right; eexists; reflexivity
             |split; [intros _; right; right; right; left; now apply Hu
                     |intros _; eexists; reflexivity]]].
  destruct (dateGe (newDate h (CreateTaskDto.startDate dto))
                   (newDate h (CreateTaskDto.endDate dto)));
    [split; [right; eexists; reflexivity
            |split; [intros _; do 4 right; left; now apply Hge
                    |intros _; eexists; reflexivity]]|].
  destruct (dateLt (newDate h (CreateTaskDto.startDate dto)) (Some (now h)));
    [split; [right; eexists; reflexivity
            |split; [intros _; do 5 right; now apply Hlt
                    |intros _; eexists; reflexivity]]|].
  split; [now left|].
  split; [intros [m Hm]; discriminate|].
  intros [H|[H|[H|[H|[H|H]]]]].
  - apply Ht in H. discriminate.
  - apply Hs in H. discriminate.
  - apply He in H. discriminate.
  - apply Hu in H. discriminate.
  - apply Hge in H. discriminate.
  - apply Hlt in H. discriminate.
Qed.

(** C6 as first stated does not hold. The request [zeroUserDto] names user
    id 0: it carries every field, its window is in order and in the future,
    and it is rejected. *)
Lemma validateTaskCreationData_zero_user_rejected :
  TaskValidationDomain.validateTaskCreationData isoHost zeroUserDto
  = Throw (TaskValidationException "Assigned user is required")
  /\ ~ specifiedRejection isoHost zeroUserDto.
Proof.
  split; [reflexivity|].
  unfold specifiedRejection, blankTitle, startNotBeforeEnd, startInPast.
  simpl newDate. simpl CreateTaskDto.title. simpl CreateTaskDto.startDate.
  simpl CreateTaskDto.endDate. simpl CreateTaskDto.assignedUserId.
  assert (Hs : isoParse "2025-01-10T09:00:00Z" = Some 1736499600000)
    by reflexivity.
  assert (He : isoParse "2025-01-10T17:00:00Z" = Some 1736528400000)
    by reflexivity.
  rewrite Hs, He.
  intros [H|[H|[H|[H|[H|H]]]]]; try discriminate.
  - apply trim_empty_iff in H. vm_compute in H. discriminate H.
  - destruct H as [s [e [H1 [H2 H3]]]]. inversion H1. inversion H2. subst. lia.
  - destruct H as [s [H1 H2]]. inversion H1. subst. simpl in H2. lia.
Qed.

(** Titles made of white space only are rejected, white space outside
    ASCII included: the empty title, blanks with a tab and a line feed, a
    NO-BREAK SPACE, an IDEOGRAPHIC SPACE followed by a LINE SEPARATOR, and
    U+FEFF. *)
Example validateTaskCreationData_white_space_titles :
  forall title,
    In title [""; "   "; String.append " " (String.append (utf8 9) (utf8 10));
              utf8 160; String.append (utf8 12288) (utf8 8232); utf8 65279] ->
    whiteSpaceOnly title
    /\ TaskValidationDomain.validateTaskCreationData isoHost (titledDto title)
       = Throw (TaskValidationException "Task title is required").
Proof.
  intros title Hin. simpl in Hin.
  assert (H : TaskValidationDomain.validateTaskCreationData isoHost
                (titledDto title)
              = Throw (TaskValidationException "Task title is required"))
    by (decompose [or] Hin; try contradiction; subst title;
        vm_compute; reflexivity).
  split; [|exact H].
  apply trim_empty_iff.
  decompose [or] Hin; try contradiction; subst title; vm_compute; reflexivity.
Qed.

(** White space around a title, NO-BREAK SPACE included, is removed by
    [trim] and does not make the title blank; a character that is not white
    space, such as U+0085 or U+200B, is kept. *)
Example trim_examples :
  trim (String.append (utf8 160) (String.append " T " (utf8 12288))) = "T"
  /\ trim (String.append " " (utf8 133)) = utf8 133
  /\ trim (String.append (utf8 8203) " ") = utf8 8203
  /\ TaskValidationDomain.validateTaskCreationData isoHost
       (titledDto (String.append (utf8 160) (String.append "T" (utf8 160))))
     = Ok tt.
Proof. repeat split; vm_compute; reflexivity. Qed.

(** A start date equal to the current instant is accepted. *)
Lemma validateDateRange_now_accepted h startDate endDate e :
  newDate h startDate = Some (now h) ->
  newDate h endDate = Some e ->
  now h < e ->
  TaskValidationDomain.validateDateRange h startDate endDate = Ok tt.
Proof.
  intros Hs He Hlt. unfold TaskValidationDomain.validateDateRange.
  rewrite Hs, He. simpl.
  assert (H1 : (now h >=? e) = false)
    by (rewrite Z.geb_leb; apply Z.leb_gt; lia).
  assert (H2 : (now h <? now h) = false) by apply Z.ltb_irrefl.
  now rewrite H1, H2.
Qed.

(** [startDate >= endDate] is rejected whatever the two instants are. *)
Lemma validateDateRange_start_not_before_end h startDate endDate s e :
  newDate h startDate = Some s ->
  newDate h endDate = Some e ->
  s >= e ->
  TaskValidationDomain.validateDateRange h startDate endDate
  = Throw (TaskValidationException "Start date must be before end date").
Proof.
  intros Hs He Hge. unfold TaskValidationDomain.validateDateRange.
  rewrite Hs, He. simpl.
  assert (H1 : (s >=? e) = true) by (apply Z.geb_le; lia).
  now rewrite H1.
Qed.

(** ** Reassignment: jobs and notification *)

(** C3. Evaluation at a reassignment that changes the assignee: task 1,
    assigned to user 4, is reassigned to user 6, who is free. The operation
    succeeds and the task is now assigned to user 6; a job is enqueued for
    user 6 and none for user 4, the previous assignee. *)
Theorem reassign_omits_previous_assignee_job :
  exists result w',
    TasksService.reassign 1 reassignToFreeUser (Some 2) sampleWorld
    = (Ok result, w')
    /\ find (fun t => Task.id t =? 1) (tasks sampleWorld) = Some T1
    /\ Task.assignedUserId T1 = Some 4
    /\ Task.assignedUserId result = Some 6
    /\ queued (trace w') = [6]
    /\ ~ In 4 (queued (trace w')).
Proof.
  do 2 eexists. split; [vm_compute; reflexivity|].
  repeat split.
  simpl. intros [H|H]; [discriminate | exact H].
Qed.

(** C4. Evaluation at the same reassignment: the operation succeeds, the
    assignee changes from user 4 to user 6, and no notification at all is
    dispatched. *)
Theorem reassign_sends_no_notification :
  exists result w',
    TasksService.reassign 1 reassignToFreeUser (Some 2) sampleWorld
    = (Ok result, w')
    /\ find (fun t => Task.id t =? 1) (tasks sampleWorld) = Some T1
    /\ Task.assignedUserId T1 = Some 4
    /\ Task.assignedUserId result = Some 6
    /\ notified (trace w') = [].
Proof.
  do 2 eexists. split; [vm_compute; reflexivity|].
  repeat split.
Qed.

(** ** Reasoning about computations *)

Lemma bind_inv_ok {A B} (m : M A) (k : A -> M B) w b w' :
  bind m k w = (Ok b, w') ->
  exists a w1, m w = (Ok a, w1) /\ k a w1 = (Ok b, w').
Proof.
  unfold bind. destruct (m w) as [[a|e] w1]; intros H.
  - now exists a, w1.
  - discriminate.
Qed.

Lemma readOnly_eq {A} (m : M A) w r w' :
  readOnly m -> m w = (r, w') -> w' = w.
Proof. intros Hm H. specialize (Hm w). rewrite H in Hm. exact Hm. Qed.

Lemma readOnly_bind {A B} (m : M A) (k : A -> M B) :
  readOnly m -> (forall a, readOnly (k a)) -> readOnly (bind m k).
Proof.
  intros Hm Hk w. unfold bind. specialize (Hm w).
  destruct (m w) as [[a|e] w1]; simpl in *; subst; [apply Hk | reflexivity].
Qed.

Lemma readOnly_ret {A} (a : A) : readOnly (ret a).
Proof. intros w. reflexivity. Qed.

Lemma readOnly_throw {A} e : readOnly (@throw A e).
Proof. intros w. reflexivity. Qed.

Lemma readOnly_liftR {A} (r : Result A) : readOnly (liftR r).
Proof. intros w. reflexivity. Qed.

Lemma readOnly_getTasks : readOnly getTasks.
Proof. intros w. reflexivity. Qed.

Ltac read_only :=
  repeat first
    [ apply readOnly_ret | apply readOnly_throw | apply readOnly_liftR
    | apply readOnly_getTasks
    | apply readOnly_bind; [|intros ?]
    | match goal with
      | |- readOnly (match ?x with _ => _ end) => destruct x
      end ].

Lemma readOnly_findOne id : readOnly (TaskRepositoryService.findOne id).
Proof. unfold TaskRepositoryService.findOne. read_only. Qed.

Lemma readOnly_checkOverlap u s e x :
  readOnly (AvailabilityService.checkOverlap u s e x).
Proof.
  unfold AvailabilityService.checkOverlap,
    TaskRepositoryService.hasOverlappingTasks.
  read_only.
Qed.

Lemma readOnly_prepareTaskCreation h dto :
  readOnly (TaskDomainService.prepareTaskCreation h dto).
Proof.
  unfold TaskDomainService.prepareTaskCreation.
  read_only; apply readOnly_checkOverlap.
Qed.

Lemma readOnly_prepareTaskUpdate h id dto role caller :
  readOnly (TaskDomainService.prepareTaskUpdate h id dto role caller).
Proof.
  unfold TaskDomainService.prepareTaskUpdate.
  read_only; first [apply readOnly_findOne | apply readOnly_checkOverlap].
Qed.

Lemma readOnly_prepareTaskReassignment id dto :
  readOnly (TaskDomainService.prepareTaskReassignment id dto).
Proof.
  unfold TaskDomainService.prepareTaskReassignment.
  read_only; first [apply readOnly_findOne | apply readOnly_checkOverlap].
Qed.

Lemma readOnly_validateTaskDeletion id :
  readOnly (TaskDomainService.validateTaskDeletion id).
Proof.
  unfold TaskDomainService.validateTaskDeletion.
  read_only; apply readOnly_findOne.
Qed.

Section Appends.

Variable P : list Effect -> Prop.
Hypothesis P_nil : P [].
Hypothesis P_app : forall es1 es2, P es1 -> P es2 -> P (es1 ++ es2).

Lemma appends_readOnly {A} (m : M A) : readOnly m -> appends P m.
Proof.
  intros Hm w. exists []. rewrite Hm, app_nil_r. now split.
Qed.

Lemma appends_bind {A B} (m : M A) (k : A -> M B) :
  appends P m -> (forall a, appends P (k a)) -> appends P (bind m k).
Proof.
  intros Hm Hk w. unfold bind.
  destruct (Hm w) as [es1 [Ht1 HP1]].
  destruct (m w) as [[a|e] w1]; simpl in *.
  - destruct (Hk a w1) as [es2 [Ht2 HP2]].
    exists (es1 ++ es2). rewrite Ht2, Ht1, app_assoc. split; auto.
  - exists es1. now split.
Qed.

Lemma appends_ret {A} (a : A) : appends P (ret a).
Proof. apply appends_readOnly, readOnly_ret. Qed.

Lemma appends_throw {A} e : appends P (@throw A e).
Proof. apply appends_readOnly, readOnly_throw. Qed.

Lemma appends_getTasks : appends P getTasks.
Proof. apply appends_readOnly, readOnly_getTasks. Qed.

Lemma appends_getNextId : appends P getNextId.
Proof. intros w. exists []. simpl. rewrite app_nil_r. now split. Qed.

Lemma appends_setTasks ts n : appends P (setTasks ts n).
Proof. intros w. exists []. simpl. rewrite app_nil_r. now split. Qed.

Lemma appends_findOne id : appends P (TaskRepositoryService.findOne id).
Proof. apply appends_readOnly, readOnly_findOne. Qed.

Lemma appends_getUsers : appends P getUsers.
Proof. intros w. exists []. simpl. rewrite app_nil_r. now split. Qed.

Lemma appends_write ts n {A} (a : A) : appends P (setTasks ts n ;;; ret a).
Proof.
  apply appends_bind; [apply appends_setTasks | intros _; apply appends_ret].
Qed.

Lemma appends_create taskData : appends P (TaskRepositoryService.create taskData).
Proof.
  unfold TaskRepositoryService.create.
  apply appends_bind; [apply appends_getTasks | intros rows].
  apply appends_bind; [apply appends_getNextId | intros n].
  apply appends_bind; [apply appends_getUsers | intros userIds].
  destruct (TaskRepositoryService.rowOf n taskData) as [row|];
    [|apply appends_throw].
  destruct (TaskRepositoryService.accepts userIds None row);
    [apply appends_write | apply appends_throw].
Qed.

Lemma appends_save task : appends P (TaskRepositoryService.save task).
Proof.
  unfold TaskRepositoryService.save.
  apply appends_bind; [apply appends_getTasks | intros rows].
  apply appends_bind; [apply appends_getNextId | intros n].
  apply appends_bind; [apply appends_getUsers | intros userIds].
  destruct (find _ rows) as [row|];
    destruct (TaskRepositoryService.accepts userIds _ _);
    first [apply appends_write | apply appends_throw].
Qed.

Lemma appends_delete id : appends P (TaskRepositoryService.delete id).
Proof.
  unfold TaskRepositoryService.delete.
  apply appends_bind; [apply appends_findOne | intros [t|]].
  - apply appends_bind; [apply appends_getTasks | intros rows].
    apply appends_bind; [apply appends_getNextId | intros n].
    apply appends_setTasks.
  - apply appends_ret.
Qed.

Lemma appends_saveAndReloadTask task updates :
  appends P (TasksService.saveAndReloadTask task updates).
Proof.
  unfold TasksService.saveAndReloadTask.
  destruct (TasksService.objectAssign task updates);
    [apply appends_save | apply appends_throw].
Qed.

Lemma appends_reloadTaskWithRelations id op b :
  appends P (TasksService.reloadTaskWithRelations id op b).
Proof.
  unfold TasksService.reloadTaskWithRelations.
  apply appends_bind.
  - destruct b; apply appends_findOne.
  - intros [t|]; [apply appends_ret | apply appends_throw].
Qed.

End Appends.

(** ** Failures of side effects *)

Lemma sameStore_refl w : sameStore w w.
Proof. now split. Qed.

Lemma faultBlind_bind {A B} (m : M A) (k : A -> M B) :
  faultBlind m -> (forall a, faultBlind (k a)) -> faultBlind (bind m k).
Proof.
  intros Hm Hk w1 w2 Hs. unfold bind.
  destruct (Hm w1 w2 Hs) as [Hr Hs'].
  destruct (m w1) as [[a1|e1] v1], (m w2) as [[a2|e2] v2]; simpl in *;
    try discriminate.
  - inversion Hr. subst. now apply Hk.
  - split; [congruence | exact Hs'].
Qed.

Lemma faultBlind_ret {A} (a : A) : faultBlind (ret a).
Proof. intros w1 w2 Hs. now split. Qed.

Lemma faultBlind_throw {A} e : faultBlind (@throw A e).
Proof. intros w1 w2 Hs. now split. Qed.

Lemma faultBlind_liftR {A} (r : Result A) : faultBlind (liftR r).
Proof. intros w1 w2 Hs. now split. Qed.

Lemma faultBlind_getTasks : faultBlind getTasks.
Proof. intros w1 w2 [Ht [Hu Hn]]. simpl. rewrite Ht. now repeat split. Qed.

Lemma faultBlind_getNextId : faultBlind getNextId.
Proof. intros w1 w2 [Ht [Hu Hn]]. simpl. rewrite Hn. now repeat split. Qed.

Lemma faultBlind_getUsers : faultBlind getUsers.
Proof. intros w1 w2 [Ht [Hu Hn]]. simpl. rewrite Hu. now repeat split. Qed.

Lemma faultBlind_setTasks ts n : faultBlind (setTasks ts n).
Proof. intros w1 w2 [Ht [Hu Hn]]. now repeat split. Qed.

(** A computation that always returns normally with the same value and does
    not write to the store is blind to faults, whatever it does with the
    external services. *)
Lemma faultBlind_neutral {A} (m : M A) (a : A) :
  (forall w, fst (m w) = Ok a /\ sameStore (snd (m w)) w) -> faultBlind m.
Proof.
  intros H w1 w2 [Ht [Hu Hn]].
  destruct (H w1) as [Hr1 [Ht1 [Hu1 Hn1]]], (H w2) as [Hr2 [Ht2 [Hu2 Hn2]]].
  split; [congruence|]. repeat split; congruence.
Qed.

Lemma faultBlind_tryNotifyUser u ev task msg :
  faultBlind (TaskNotificationService.tryNotifyUser u ev task msg).
Proof.
  apply faultBlind_neutral with (a := tt). intros w.
  unfold TaskNotificationService.tryNotifyUser, bind, externalCallThrows, emit,
    ret, sameStore.
  destruct (faults w) as [|[|] rest]; simpl; auto.
Qed.

Lemma faultBlind_queueAvailabilityUpdate userId :
  faultBlind (TasksService.queueAvailabilityUpdate userId).
Proof.
  apply faultBlind_neutral with (a := tt). intros w.
  unfold TasksService.queueAvailabilityUpdate, bind, externalCallThrows, emit,
    ret, sameStore.
  destruct userId as [u|]; simpl; auto.
  destruct (u =? 0); simpl; auto.
  destruct (faults w) as [|[|] rest]; simpl; auto.
Qed.

Ltac blind :=
  repeat first
    [ apply faultBlind_ret | apply faultBlind_throw | apply faultBlind_liftR
    | apply faultBlind_getTasks | apply faultBlind_getNextId
    | apply faultBlind_getUsers
    | apply faultBlind_setTasks | apply faultBlind_tryNotifyUser
    | apply faultBlind_queueAvailabilityUpdate
    | apply faultBlind_bind; [|intros ?]
    | match goal with
      | |- faultBlind (match ?x with _ => _ end) => destruct x
      end ].

Lemma faultBlind_findOne id : faultBlind (TaskRepositoryService.findOne id).
Proof. unfold TaskRepositoryService.findOne. blind. Qed.

Lemma faultBlind_checkOverlap u s e x :
  faultBlind (AvailabilityService.checkOverlap u s e x).
Proof.
  unfold AvailabilityService.checkOverlap,
    TaskRepositoryService.hasOverlappingTasks.
  blind.
Qed.

Lemma faultBlind_saveAndReloadTask task updates :
  faultBlind (TasksService.saveAndReloadTask task updates).
Proof.
  unfold TasksService.saveAndReloadTask, TaskRepositoryService.save. blind.
Qed.

Lemma faultBlind_reloadTaskWithRelations id op b :
  faultBlind (TasksService.reloadTaskWithRelations id op b).
Proof.
  unfold TasksService.reloadTaskWithRelations,
    TaskRepositoryService.findOneWithAllRelations.
  blind; apply faultBlind_findOne.
Qed.

Lemma faultBlind_create h dto caller :
  faultBlind (TasksService.create h dto caller).
Proof.
  unfold TasksService.create, TaskBusinessLogicService.validateTaskCreation,
    TaskDomainService.prepareTaskCreation, TaskRepositoryService.create,
    TaskNotificationService.notifyTaskCreated.
  blind;
    first [apply faultBlind_checkOverlap
          | apply faultBlind_reloadTaskWithRelations].
Qed.

Lemma faultBlind_update h id dto caller role :
  faultBlind (TasksService.update h id dto caller role).
Proof.
  unfold TasksService.update, TasksService.prepareTaskUpdate,
    TasksService.executeTaskUpdate, TasksService.handleTaskUpdateSideEffects,
    TasksService.handleAvailabilityUpdates,
    TasksService.handleUpdateNotifications,
    TaskBusinessLogicService.validateTaskUpdate,
    TaskDomainService.prepareTaskUpdate,
    TaskNotificationService.notifyTaskCompleted.
  blind;
    first [apply faultBlind_findOne | apply faultBlind_checkOverlap
          | apply faultBlind_saveAndReloadTask
          | apply faultBlind_reloadTaskWithRelations].
Qed.

Lemma faultBlind_reassign id dto caller :
  faultBlind (TasksService.reassign id dto caller).
Proof.
  unfold TasksService.reassign,
    TaskBusinessLogicService.validateTaskReassignment,
    TaskDomainService.prepareTaskReassignment,
    TaskNotificationService.notifyTaskReassigned.
  blind;
    first [apply faultBlind_findOne | apply faultBlind_checkOverlap
          | apply faultBlind_saveAndReloadTask
          | apply faultBlind_reloadTaskWithRelations].
Qed.

Lemma faultBlind_remove id : faultBlind (TasksService.remove id).
Proof.
  unfold TasksService.remove, TaskBusinessLogicService.validateTaskDeletion,
    TaskDomainService.validateTaskDeletion, TaskRepositoryService.delete,
    TaskNotificationService.notifyTaskDeleted.
  blind; apply faultBlind_findOne.
Qed.

Lemma failuresLogged_nil : failuresLogged [].
Proof. reflexivity. Qed.

Lemma failuresLogged_app es1 es2 :
  failuresLogged es1 -> failuresLogged es2 -> failuresLogged (es1 ++ es2).
Proof.
  unfold failuresLogged, failedCalls, loggedErrors. intros H1 H2.
  rewrite !filter_app, !length_app. congruence.
Qed.

Lemma quiet_nil : quiet [].
Proof. reflexivity. Qed.

Lemma quiet_app es1 es2 : quiet es1 -> quiet es2 -> quiet (es1 ++ es2).
Proof.
  unfold quiet, notified. intros H1 H2.
  now rewrite flat_map_app, H1, H2.
Qed.

Create HintDb trace_props.
#[local] Hint Resolve failuresLogged_nil failuresLogged_app quiet_nil quiet_app
  : trace_props.

Lemma appends_liftR P {A} (r : Result A) : P [] -> appends P (liftR r).
Proof. intros HP. apply appends_readOnly; [exact HP | apply readOnly_liftR]. Qed.

Lemma appends_checkOverlap P u s e x :
  P [] -> appends P (AvailabilityService.checkOverlap u s e x).
Proof.
  intros HP. apply appends_readOnly; [exact HP | apply readOnly_checkOverlap].
Qed.

Lemma failuresLogged_tryNotifyUser u ev task msg :
  appends failuresLogged (TaskNotificationService.tryNotifyUser u ev task msg).
Proof.
  intros w.
  unfold TaskNotificationService.tryNotifyUser, bind, externalCallThrows, emit,
    ret.
  destruct (faults w) as [|[|] rest]; simpl;
    eexists; (split; [try rewrite <- app_assoc; reflexivity | reflexivity]).
Qed.

Lemma failuresLogged_queueAvailabilityUpdate userId :
  appends failuresLogged (TasksService.queueAvailabilityUpdate userId).
Proof.
  intros w.
  unfold TasksService.queueAvailabilityUpdate, bind, externalCallThrows, emit,
    ret.
  destruct userId as [u|]; simpl;
    [|exists []; rewrite app_nil_r; now split].
  destruct (u =? 0); simpl; [exists []; rewrite app_nil_r; now split|].
  destruct (faults w) as [|[|] rest]; simpl;
    eexists; (split; [try rewrite <- app_assoc; reflexivity | reflexivity]).
Qed.

Lemma quiet_queueAvailabilityUpdate userId :
  appends quiet (TasksService.queueAvailabilityUpdate userId).
Proof.
  intros w.
  unfold TasksService.queueAvailabilityUpdate, bind, externalCallThrows, emit,
    ret.
  destruct userId as [u|]; simpl;
    [|exists []; rewrite app_nil_r; now split].
  destruct (u =? 0); simpl; [exists []; rewrite app_nil_r; now split|].
  destruct (faults w) as [|[|] rest]; simpl;
    eexists; (split; [try rewrite <- app_assoc; reflexivity | reflexivity]).
Qed.

Ltac appending :=
  repeat first
    [ apply appends_ret; solve [auto with trace_props]
    | apply appends_throw; solve [auto with trace_props]
    | apply appends_liftR; solve [auto with trace_props]
    | apply appends_getTasks; solve [auto with trace_props]
    | apply appends_findOne; solve [auto with trace_props]
    | apply appends_checkOverlap; solve [auto with trace_props]
    | apply appends_create; solve [auto with trace_props]
    | apply appends_delete; solve [auto with trace_props]
    | apply appends_saveAndReloadTask; solve [auto with trace_props]
    | apply appends_reloadTaskWithRelations; solve [auto with trace_props]
    | apply failuresLogged_tryNotifyUser
    | apply failuresLogged_queueAvailabilityUpdate
    | apply quiet_queueAvailabilityUpdate
    | apply appends_bind; [solve [auto with trace_props] | | intros ?]
    | match goal with
      | |- appends _ (match ?x with _ => _ end) => destruct x
      end ].

Lemma failuresLogged_create h dto caller :
  appends failuresLogged (TasksService.create h dto caller).
Proof.
  unfold TasksService.create, TaskBusinessLogicService.validateTaskCreation,
    TaskDomainService.prepareTaskCreation,
    TaskNotificationService.notifyTaskCreated.
  appending.
Qed.

Lemma failuresLogged_update h id dto caller role :
  appends failuresLogged (TasksService.update h id dto caller role).
Proof.
  unfold TasksService.update, TasksService.prepareTaskUpdate,
    TasksService.executeTaskUpdate, TasksService.handleTaskUpdateSideEffects,
    TasksService.handleAvailabilityUpdates,
    TasksService.handleUpdateNotifications,
    TaskBusinessLogicService.validateTaskUpdate,
    TaskDomainService.prepareTaskUpdate,
    TaskNotificationService.notifyTaskCompleted.
  appending.
Qed.

Lemma failuresLogged_reassign id dto caller :
  appends failuresLogged (TasksService.reassign id dto caller).
Proof.
  unfold TasksService.reassign,
    TaskBusinessLogicService.validateTaskReassignment,
    TaskDomainService.prepareTaskReassignment,
    TaskNotificationService.notifyTaskReassigned.
  appending.
Qed.

Lemma failuresLogged_remove id :
  appends failuresLogged (TasksService.remove id).
Proof.
  unfold TasksService.remove, TaskBusinessLogicService.validateTaskDeletion,
    TaskDomainService.validateTaskDeletion,
    TaskNotificationService.notifyTaskDeleted.
  appending.
Qed.

Lemma toleratesFaults_intro {A} (op : M A) :
  faultBlind op -> appends failuresLogged op -> toleratesFaults op.
Proof.
  intros Hb Ha w fs.
  destruct (Hb (withFaults fs w) (withFaults [] w)) as [Hr [Ht _]];
    [now split|].
  split; [exact Hr|]. split; [exact Ht|].
  exact (Ha (withFaults fs w)).
Qed.

(** C9. Each of the four operations returns the same result and stores the
    same data whatever the outcomes of its calls to the job queue and to the
    notification gateway: a failure of such a call is caught, written to the
    error log, and leaves the result of the operation as it is when every
    call succeeds. *)
Theorem side_effect_failures_are_swallowed :
  forall (h : Host),
    (forall dto caller, toleratesFaults (TasksService.create h dto caller))
    /\ (forall id dto caller role,
          toleratesFaults (TasksService.update h id dto caller role))
    /\ (forall id dto caller,
          toleratesFaults (TasksService.reassign id dto caller))
    /\ (forall id, toleratesFaults (TasksService.remove id)).
Proof.
  intros h. repeat split; intros; apply toleratesFaults_intro;
    first [ apply faultBlind_create | apply faultBlind_update
          | apply faultBlind_reassign | apply faultBlind_remove
          | apply failuresLogged_create | apply failuresLogged_update
          | apply failuresLogged_reassign | apply failuresLogged_remove ].
Qed.

(** A creation during which both the queue and the gateway throw: the task
    is created and returned, and both failures are in the log. *)
Example create_with_failing_side_effects :
  exists result w',
    TasksService.create isoHost sampleCreateDto (Some 2)
      (withFaults [true; true] emptyWorld)
    = (Ok result, w')
    /\ tasks w' = [result]
    /\ List.length (failedCalls (trace w')) = 2%nat
    /\ List.length (loggedErrors (trace w')) = 2%nat.
Proof.
  do 2 eexists. split; [vm_compute; reflexivity|]. repeat split.
Qed.

(** ** Notifications of an update *)

Lemma appends_eq {A} P (m : M A) w r w' :
  appends P m -> m w = (r, w') -> exists es, trace w' = trace w ++ es /\ P es.
Proof. intros Hm H. specialize (Hm w). now rewrite H in Hm. Qed.

Lemma tryNotifyUser_notified u ev task msg w :
  exists es,
    trace (snd (TaskNotificationService.tryNotifyUser u ev task msg w))
    = trace w ++ es
    /\ notified es = [(u, ev)].
Proof.
  unfold TaskNotificationService.tryNotifyUser, bind, externalCallThrows, emit,
    ret.
  destruct (faults w) as [|[|] rest]; simpl;
    eexists; (split; [try rewrite <- app_assoc; reflexivity | reflexivity]).
Qed.

Lemma notifyTaskCompleted_notified task w :
  exists es,
    trace (snd (TaskNotificationService.notifyTaskCompleted task w))
    = trace w ++ es
    /\ notified es = completionRecipients task.
Proof.
  unfold TaskNotificationService.notifyTaskCompleted, completionRecipients.
  destruct (Task.assignedById task) as [u|]; simpl;
    [|exists []; rewrite app_nil_r; now split].
  destruct (u =? 0); simpl; [exists []; rewrite app_nil_r; now split|].
  apply tryNotifyUser_notified.
Qed.

Lemma handleUpdateNotifications_notified task dto old w :
  exists es,
    trace (snd (TasksService.handleUpdateNotifications task dto old w))
    = trace w ++ es
    /\ forall u ev,
         In (u, ev) (notified es)
         <-> ev = "task:completed"
             /\ UpdateTaskDto.status dto = Some COMPLETED
             /\ old <> COMPLETED
             /\ Task.assignedById task = Some u
             /\ u <> 0.
Proof.
  unfold TasksService.handleUpdateNotifications.
  destruct (UpdateTaskDto.status dto) as [[|]|] eqn:Hs, old eqn:Ho; simpl;
    try (exists []; rewrite app_nil_r; split; [reflexivity|];
         intros u ev; simpl; split; [tauto|];
         intros [_ [H1 [H2 _]]]; congruence).
  destruct (notifyTaskCompleted_notified task w) as [es [Ht Hn]].
  exists es. split; [exact Ht|].
  intros u ev. rewrite Hn. unfold completionRecipients.
  destruct (Task.assignedById task) as [a|].
  - destruct (a =? 0) eqn:Ha.
    + apply Z.eqb_eq in Ha. subst. simpl. split; [tauto|].
      intros [_ [_ [_ [H Hz]]]]. inversion H. congruence.
    + apply Z.eqb_neq in Ha. simpl. split.
      * intros [H|[]]. inversion H. subst.
        repeat split; [discriminate | exact Ha].
      * intros [He [_ [_ [H _]]]]. inversion H. subst. now left.
  - simpl. split; [tauto|]. intros [_ [_ [_ [H _]]]]. discriminate.
Qed.

Lemma domain_prepareTaskUpdate_ok h id dto role caller w task updates req w1 :
  TaskDomainService.prepareTaskUpdate h id dto role caller w
  = (Ok (task, updates, req), w1) ->
  find (fun t => Task.id t =? id) (tasks w) = Some task /\ w1 = w.
Proof.
  intros H. split.
  - unfold TaskDomainService.prepareTaskUpdate in H.
    apply bind_inv_ok in H. destruct H as [found [w0 [Hf H]]].
    unfold TaskRepositoryService.findOne, bind, getTasks, ret in Hf.
    inversion Hf. subst. clear Hf.
    destruct (find _ (tasks w0)) as [t|]; [|discriminate].
    apply bind_inv_ok in H. destruct H as [[] [w2 [_ H]]].
    apply bind_inv_ok in H. destruct H as [[] [w3 [_ H]]].
    unfold ret in H. now inversion H.
  - eapply readOnly_eq; [apply readOnly_prepareTaskUpdate | exact H].
Qed.

Lemma prepareTaskUpdate_ok h id dto caller role w ctx w1 :
  TasksService.prepareTaskUpdate h id dto caller role w = (Ok ctx, w1) ->
  w1 = w
  /\ exists prior,
       find (fun t => Task.id t =? id) (tasks w) = Some prior
       /\ TasksService.oldStatus ctx = Task.status prior
       /\ TasksService.oldAssignedUserId ctx = Task.assignedUserId prior
       /\ TasksService.task ctx
          = fst (TaskBusinessLogicService.buildTaskEntityForUpdate
                   h prior dto caller)
       /\ TasksService.updates ctx
          = snd (TaskBusinessLogicService.buildTaskEntityForUpdate
                   h prior dto caller).
Proof.
  intros H. unfold TasksService.prepareTaskUpdate in H.
  apply bind_inv_ok in H. destruct H as [t [w2 [Hv H]]].
  unfold TaskBusinessLogicService.validateTaskUpdate in Hv.
  apply bind_inv_ok in Hv. destruct Hv as [[[t' u'] r'] [w3 [Hd Hv]]].
  apply domain_prepareTaskUpdate_ok in Hd. destruct Hd as [Hfind ->].
  unfold ret in Hv. simpl in Hv. inversion Hv. subst t w2. clear Hv.
  destruct (TaskBusinessLogicService.buildTaskEntityForUpdate h t' dto caller)
    as [t'' u''] eqn:Hb.
  unfold ret in H. inversion H. subst. simpl.
  split; [reflexivity|]. exists t'.
  unfold TaskBusinessLogicService.buildTaskEntityForUpdate in Hb.
  inversion Hb. now repeat split.
Qed.

Lemma quiet_executeTaskUpdate ctx :
  appends quiet (TasksService.executeTaskUpdate ctx).
Proof. unfold TasksService.executeTaskUpdate. appending. Qed.

Lemma quiet_handleAvailabilityUpdates dto old new :
  appends quiet (TasksService.handleAvailabilityUpdates dto old new).
Proof. unfold TasksService.handleAvailabilityUpdates. appending. Qed.

(** The notifications of a successful update: a [task:completed]
    notification to the assigner of the updated task when the request sets
    the status to COMPLETED, the status before the update was not COMPLETED,
    and the updated task has an assigner (present and not zero); nothing in
    any other case. *)
Lemma update_notifications_iff :
  forall (h : Host) (w : World) (id : Z) (dto : UpdateTaskDto.t)
         (caller : option Z) (role : option string)
         (prior result : Task.t) (w' : World),
    find (fun t => Task.id t =? id) (tasks w) = Some prior ->
    TasksService.update h id dto caller role w = (Ok result, w') ->
    exists es,
      trace w' = trace w ++ es
      /\ forall u ev,
           In (u, ev) (notified es)
           <-> ev = "task:completed"
               /\ UpdateTaskDto.status dto = Some COMPLETED
               /\ Task.status prior <> COMPLETED
               /\ Task.assignedById result = Some u
               /\ u <> 0.
Proof.
  intros h w id dto caller role prior result w' Hfind H.
  unfold TasksService.update in H.
  apply bind_inv_ok in H. destruct H as [ctx [w1 [Hp H]]].
  apply prepareTaskUpdate_ok in Hp.
  destruct Hp as [-> [prior' [Hfind' [Hold _]]]].
  rewrite Hfind in Hfind'. inversion Hfind'. subst prior'. clear Hfind'.
  apply bind_inv_ok in H. destruct H as [updated [w2 [He H]]].
  apply bind_inv_ok in H. destruct H as [[] [w3 [Hs H]]].
  unfold ret in H. inversion H. subst. clear H.
  destruct (appends_eq quiet _ _ _ _ (quiet_executeTaskUpdate ctx) He)
    as [es1 [Ht1 Hq1]].
  unfold TasksService.handleTaskUpdateSideEffects in Hs.
  apply bind_inv_ok in Hs. destruct Hs as [[] [w4 [Ha Hn]]].
  destruct (appends_eq quiet _ _ _ _
              (quiet_handleAvailabilityUpdates _ _ _) Ha) as [es2 [Ht2 Hq2]].
  destruct (handleUpdateNotifications_notified
              result dto (TasksService.oldStatus ctx) w4) as [es3 [Ht3 Hn3]].
  rewrite Hn in Ht3. simpl in Ht3.
  exists (es1 ++ es2 ++ es3). split.
  - rewrite Ht3, Ht2, Ht1, <- !app_assoc. reflexivity.
  - intros u ev. unfold notified. rewrite !flat_map_app.
    fold (notified es1) (notified es2) (notified es3).
    unfold quiet in Hq1, Hq2. rewrite Hq1, Hq2. simpl.
    rewrite Hn3, Hold. reflexivity.
Qed.

(** ** The no-overlap invariant *)

Lemma noOverlap_sampleWorld : noOverlap (tasks sampleWorld).
Proof.
  intros u x t1 t2 H1 H2 [Hu1 Hs1] [Hu2 Hs2] _ _.
  simpl in H1, H2.
  destruct H1 as [<-|[<-|[<-|[]]]], H2 as [<-|[<-|[<-|[]]]];
    try reflexivity; simpl in *; congruence.
Qed.

(** C2. Evaluation at an update that reopens a completed task. In
    [sampleWorld] the invariant holds: user 4 has [T1] in progress and [T2]
    completed over the same window. A manager sets the status of [T2] back to
    IN_PROGRESS; the request touches neither the assignee nor the window, so
    no overlap check is made; the update succeeds and user 4 now has two
    non-completed tasks over the same window. *)
Theorem update_reopen_breaks_noOverlap :
  noOverlap (tasks sampleWorld)
  /\ exists result w',
       TasksService.update isoHost 2 (statusOnly IN_PROGRESS) (Some 2)
         (Some UserRole.MANAGER) sampleWorld
       = (Ok result, w')
       /\ tasks w' = [T1; reopenedT2; T3]
       /\ ~ noOverlap (tasks w').
Proof.
  split; [exact noOverlap_sampleWorld|].
  do 2 eexists. split; [vm_compute; reflexivity|].
  split; [reflexivity|].
  intros Hno.
  assert (Heq : T1 = reopenedT2).
  { apply (Hno 4 1736499600000).
    - left. reflexivity.
    - right. left. reflexivity.
    - split; [reflexivity | discriminate].
    - split; [reflexivity | discriminate].
    - unfold covers. simpl. lia.
    - unfold covers. simpl. lia. }
  discriminate Heq.
Qed.

(** ** What creation persists *)

(** C10. Evaluation at a request whose title carries surrounding blanks.
    The request passes validation and the overlap check and a task is
    created; the row written is the one built by [buildTaskEntityForCreation],
    with the title as given, while [prepareTaskForCreation] yields the trimmed
    title: the persisted fields are not its output. *)
Theorem create_persists_untrimmed_title :
  exists result w' prepared,
    TasksService.create isoHost paddedDto (Some 2) emptyWorld = (Ok result, w')
    /\ tasks w' = [result]
    /\ TaskDataPreparationDomain.prepareTaskForCreation
         isoHost paddedDto (Some 2) = Ok prepared
    /\ TaskRepositoryService.rowOf (Task.id result)
         (TaskBusinessLogicService.buildTaskEntityForCreation
            isoHost paddedDto (Some 2))
       = Some result
    /\ Task.title result = " T "
    /\ PartialTask.title prepared = Some "T"
    /\ TaskRepositoryService.rowOf (Task.id result) prepared <> Some result.
Proof.
  do 3 eexists. split; [vm_compute; reflexivity|].
  split; [reflexivity|].
  split; [vm_compute; reflexivity|].
  split; [vm_compute; reflexivity|].
  split; [reflexivity|].
  split; [reflexivity|].
  vm_compute. discriminate.
Qed.

(** ** Writing and reloading a row *)

Lemma find_some_id (rows : list Task.t) i t :
  find (fun r => Task.id r =? i) rows = Some t -> Task.id t = i /\ In t rows.
Proof.
  intros H. apply find_some in H. destruct H as [Hin Hid].
  apply Z.eqb_eq in Hid. now split.
Qed.

Lemma find_merged rows i e :
  find (fun r => Task.id r =? i)
       (map (fun r => if Task.id r =? i
                      then TaskRepositoryService.mergeRow r e else r) rows)
  = option_map (fun r => TaskRepositoryService.mergeRow r e)
               (find (fun r => Task.id r =? i) rows).
Proof.
  induction rows as [|r rows IH]; [reflexivity|].
  simpl. destruct (Task.id r =? i) eqn:E.
  - simpl. now rewrite E.
  - rewrite E. exact IH.
Qed.

(** [save] on an entity whose row exists: the row is overwritten when the
    database accepts the columns that change, and nothing is written
    otherwise. *)
Lemma save_found task prior w :
  find (fun r => Task.id r =? Task.id task) (tasks w) = Some prior ->
  TaskRepositoryService.save task w
  = if TaskRepositoryService.accepts (users w) (Some prior)
         (TaskRepositoryService.mergeRow prior task)
    then (Ok task,
          {| tasks := map (fun r => if Task.id r =? Task.id task
                                    then TaskRepositoryService.mergeRow r task
                                    else r) (tasks w);
             users := users w; nextId := nextId w; faults := faults w;
             trace := trace w |})
    else (Throw (TaskInfrastructureException "TaskRepository" "save task"), w).
Proof.
  intros Hfind.
  unfold TaskRepositoryService.save, bind, getTasks, getNextId, getUsers,
    setTasks, ret, throw.
  rewrite Hfind. now destruct (TaskRepositoryService.accepts _ _ _).
Qed.

Lemma save_existing task prior w :
  find (fun r => Task.id r =? Task.id task) (tasks w) = Some prior ->
  TaskRepositoryService.accepts (users w) (Some prior)
    (TaskRepositoryService.mergeRow prior task) = true ->
  TaskRepositoryService.save task w
  = (Ok task,
     {| tasks := map (fun r => if Task.id r =? Task.id task
                               then TaskRepositoryService.mergeRow r task
                               else r) (tasks w);
        users := users w; nextId := nextId w; faults := faults w;
        trace := trace w |}).
Proof. intros Hfind Hacc. now rewrite (save_found task prior w Hfind), Hacc. Qed.

(** What a successful insert has done. *)
Lemma repository_create_ok taskData w row w2 :
  TaskRepositoryService.create taskData w = (Ok row, w2) ->
  TaskRepositoryService.rowOf (nextId w) taskData = Some row
  /\ TaskRepositoryService.accepts (users w) None row = true
  /\ w2 = {| tasks := tasks w ++ [row]; users := users w;
             nextId := nextId w + 1; faults := faults w; trace := trace w |}.
Proof.
  unfold TaskRepositoryService.create, bind, getTasks, getNextId, getUsers,
    setTasks, ret, throw.
  destruct (TaskRepositoryService.rowOf (nextId w) taskData) as [r|];
    [|discriminate].
  destruct (TaskRepositoryService.accepts (users w) None r) eqn:Hacc;
    [|discriminate].
  intros H. inversion H. subst. now repeat split.
Qed.

Lemma queueAvailabilityUpdate_effects userId w :
  fst (TasksService.queueAvailabilityUpdate userId w) = Ok tt
  /\ tasks (snd (TasksService.queueAvailabilityUpdate userId w)) = tasks w
  /\ nextId (snd (TasksService.queueAvailabilityUpdate userId w)) = nextId w
  /\ exists es,
       trace (snd (TasksService.queueAvailabilityUpdate userId w))
       = trace w ++ es
       /\ notified es = []
       /\ forall u, In u (queued es) -> userId = Some u /\ u <> 0.
Proof.
  assert (Hnone : forall w0 : World, exists es,
             trace w0 = trace w0 ++ es /\ notified es = []
             /\ forall u, In u (queued es) -> userId = Some u /\ u <> 0).
  { intros w0. exists []. rewrite app_nil_r. repeat split; destruct H. }
  unfold TasksService.queueAvailabilityUpdate, bind, externalCallThrows, emit,
    ret.
  destruct userId as [v|]; simpl; [|split; [|split; [|split]]; auto].
  destruct (v =? 0) eqn:E; simpl; [split; [|split; [|split]]; auto|].
  apply Z.eqb_neq in E.
  destruct (faults w) as [|[|] rest]; simpl;
    (split; [|split; [|split]]; [reflexivity..|]).
  - exists [QueueAdd "update-availability" v true].
    repeat split; simpl in H; destruct H as [<-|[]]; auto.
  - exists [QueueAdd "update-availability" v false;
            LogError "TasksService" "Failed to queue availability update"].
    rewrite <- app_assoc. repeat split; destruct H.
  - exists [QueueAdd "update-availability" v true].
    repeat split; simpl in H; destruct H as [<-|[]]; auto.
Qed.

(** ** Reassignment, in general *)

Lemma validateTaskReassignment_ok id dto w task w1 :
  TaskBusinessLogicService.validateTaskReassignment id dto w = (Ok task, w1) ->
  w1 = w
  /\ exists prior,
       find (fun r => Task.id r =? id) (tasks w) = Some prior
       /\ truthyNum (ReassignTaskDto.assignedUserId dto) = true
       /\ AvailabilityService.checkOverlap
            (ReassignTaskDto.assignedUserId dto)
            (Some (Task.startDate prior)) (Some (Task.endDate prior))
            (Some id) w
          = (Ok false, w)
       /\ task = TaskDataPreparationDomain.applyTaskReassignment prior dto None.
Proof.
  intros H. unfold TaskBusinessLogicService.validateTaskReassignment in H.
  apply bind_inv_ok in H. destruct H as [[t r] [w2 [Hd H]]].
  unfold ret in H. simpl in H. inversion H. subst t w2. clear H.
  assert (Hw : w1 = w)
    by (eapply readOnly_eq; [apply readOnly_prepareTaskReassignment | exact Hd]).
  subst w1. split; [reflexivity|].
  unfold TaskDomainService.prepareTaskReassignment in Hd.
  apply bind_inv_ok in Hd. destruct Hd as [found [w0 [Hf Hd]]].
  unfold TaskRepositoryService.findOne, bind, getTasks, ret in Hf.
  inversion Hf. subst found w0. clear Hf.
  destruct (find _ (tasks w)) as [prior|] eqn:Hfind; [|discriminate].
  exists prior. split; [reflexivity|].
  apply bind_inv_ok in Hd. destruct Hd as [[] [w2 [Hv Hd]]].
  unfold liftR, TaskValidationDomain.validateTaskReassignmentData in Hv.
  destruct (truthyNum (ReassignTaskDto.assignedUserId dto)); simpl in Hv;
    [|discriminate].
  inversion Hv. subst w2. clear Hv.
  split; [reflexivity|].
  apply bind_inv_ok in Hd. destruct Hd as [b [w2 [Hc Hd]]].
  assert (Hw : w2 = w)
    by (eapply readOnly_eq; [apply readOnly_checkOverlap | exact Hc]).
  subst w2. destruct b; [discriminate|].
  split; [exact Hc|].
  unfold ret in Hd. now inversion Hd.
Qed.

(** Whenever [reassign] succeeds: the task existed, the requested assignee
    passed the overlap check, the row of the task now carries the requested
    assignee; no notification is dispatched, and the only availability job
    that can have been enqueued is the one of the requested assignee. *)
Lemma reassign_ok id dto caller w result w' :
  TasksService.reassign id dto caller w = (Ok result, w') ->
  exists prior target es,
    find (fun r => Task.id r =? id) (tasks w) = Some prior
    /\ ReassignTaskDto.assignedUserId dto = Some target
    /\ AvailabilityService.checkOverlap
         (Some target) (Some (Task.startDate prior))
         (Some (Task.endDate prior)) (Some id) w
       = (Ok false, w)
    /\ tasks w'
       = map (fun r =>
                if Task.id r =? id
                then TaskRepositoryService.mergeRow r
                       (TaskDataPreparationDomain.applyTaskReassignment
                          prior dto caller)
                else r) (tasks w)
    /\ trace w' = trace w ++ es
    /\ notified es = []
    /\ forall u, In u (queued es) -> u = target.
Proof.
  intros H. unfold TasksService.reassign in H.
  apply bind_inv_ok in H. destruct H as [task [w1 [Hv H]]].
  apply validateTaskReassignment_ok in Hv.
  destruct Hv as [-> [prior [Hfind [Htruthy [Hchk ->]]]]].
  destruct (ReassignTaskDto.assignedUserId dto) as [target|] eqn:Hdto;
    [|discriminate].
  destruct (find_some_id _ _ _ Hfind) as [Hid _].
  apply bind_inv_ok in H. destruct H as [saved [w2 [Hs H]]].
  unfold TasksService.saveAndReloadTask, TasksService.objectAssign in Hs.
  simpl in Hs. rewrite Hdto in Hs. simpl in Hs.
  rewrite (save_found _ prior) in Hs by (simpl; now rewrite Hid).
  match type of Hs with
  | context [TaskRepositoryService.accepts ?a ?b ?c] =>
      destruct (TaskRepositoryService.accepts a b c) eqn:Hacc; [|discriminate]
  end.
  inversion Hs. subst saved. clear Hs.
  cbn -[TasksService.queueAvailabilityUpdate
        TasksService.reloadTaskWithRelations
        TaskNotificationService.notifyTaskReassigned bind ret] in H.
  rewrite Hdto in H.
  cbn -[TasksService.queueAvailabilityUpdate
        TasksService.reloadTaskWithRelations
        TaskNotificationService.notifyTaskReassigned bind ret] in H.
  rewrite Z.eqb_refl, andb_false_r in H.
  apply bind_inv_ok in H. destruct H as [[] [w3 [Hq H]]].
  apply bind_inv_ok in H. destruct H as [[] [w4 [Hr H]]].
  unfold ret in Hr. inversion Hr. subst w4. clear Hr.
  apply bind_inv_ok in H. destruct H as [reloaded [w4 [Hl H]]].
  destruct (queueAvailabilityUpdate_effects (Some target) w2)
    as [_ [Htasks [_ [es [Htrace [Hquiet Hq']]]]]].
  rewrite Hq in Htasks, Htrace. simpl in Htasks, Htrace.
  unfold TasksService.reloadTaskWithRelations in Hl.
  apply bind_inv_ok in Hl. destruct Hl as [found [w5 [Hf Hl]]].
  unfold TaskRepositoryService.findOne, bind, getTasks, ret in Hf.
  inversion Hf. subst found w5. clear Hf.
  rewrite Htasks in Hl. subst w2. simpl in Hl.
  rewrite Hid, find_merged, Hfind in Hl. simpl in Hl.
  unfold ret in Hl. inversion Hl. subst reloaded w4. clear Hl.
  apply bind_inv_ok in H. destruct H as [[] [w4 [Hn H]]].
  unfold ret in H. inversion H. subst result w4. clear H.
  unfold TaskNotificationService.notifyTaskReassigned in Hn. simpl in Hn.
  rewrite Z.eqb_refl, orb_true_r in Hn.
  unfold ret in Hn. inversion Hn. subst w'.
  exists prior, target, es. simpl in Htrace, Htasks.
  split; [exact Hfind|]. split; [reflexivity|]. split; [exact Hchk|].
  split.
  - rewrite Htasks.
    unfold TaskDataPreparationDomain.applyTaskReassignment.
    rewrite Hdto, Hid.
    destruct caller; reflexivity.
  - split; [exact Htrace|]. split; [exact Hquiet|].
    intros u Hu. apply Hq' in Hu. destruct Hu as [Hu _]. now inversion Hu.
Qed.

(** X26. Whenever [reassign] succeeds, whoever the previous assignee was:
    it dispatches no notification, and it enqueues no availability job for
    anyone but the requested assignee. *)
Lemma reassign_effects id dto caller w result w' :
  TasksService.reassign id dto caller w = (Ok result, w') ->
  exists es,
    trace w' = trace w ++ es
    /\ notified es = []
    /\ forall u, In u (queued es) -> ReassignTaskDto.assignedUserId dto = Some u.
Proof.
  intros H. apply reassign_ok in H.
  destruct H as [prior [target [es [_ [Hdto [_ [_ [Ht [Hn Hq]]]]]]]]].
  exists es. split; [exact Ht|]. split; [exact Hn|].
  intros u Hu. apply Hq in Hu. now subst.
Qed.

(** ** Creation, in general *)

Lemma tryNotifyUser_store u ev task msg w :
  fst (TaskNotificationService.tryNotifyUser u ev task msg w) = Ok tt
  /\ tasks (snd (TaskNotificationService.tryNotifyUser u ev task msg w))
     = tasks w.
Proof.
  unfold TaskNotificationService.tryNotifyUser, bind, externalCallThrows, emit,
    ret.
  destruct (faults w) as [|[|] rest]; simpl; auto.
Qed.

Lemma notifyTaskCreated_store task w :
  fst (TaskNotificationService.notifyTaskCreated task w) = Ok tt
  /\ tasks (snd (TaskNotificationService.notifyTaskCreated task w)) = tasks w.
Proof.
  unfold TaskNotificationService.notifyTaskCreated.
  destruct (Task.assignedUserId task) as [u|]; [|now split].
  destruct (negb (truthyNum (Some u))); [now split|].
  apply tryNotifyUser_store.
Qed.


Lemma notifyTaskDeleted_store task w :
  fst (TaskNotificationService.notifyTaskDeleted task w) = Ok tt
  /\ tasks (snd (TaskNotificationService.notifyTaskDeleted task w)) = tasks w.
Proof.
  unfold TaskNotificationService.notifyTaskDeleted.
  destruct (Task.assignedUserId task) as [u|]; [|now split].
  destruct (negb (truthyNum (Some u))); [now split|].
  apply tryNotifyUser_store.
Qed.

Lemma store_eq {A} (m : M A) w r w' :
  tasks (snd (m w)) = tasks w -> m w = (r, w') -> tasks w' = tasks w.
Proof. intros Hm H. now rewrite H in Hm. Qed.

Lemma reloadTaskWithRelations_ok id op b w result w' :
  TasksService.reloadTaskWithRelations id op b w = (Ok result, w') ->
  w' = w /\ find (fun r => Task.id r =? id) (tasks w) = Some result.
Proof.
  intros H. unfold TasksService.reloadTaskWithRelations in H.
  apply bind_inv_ok in H. destruct H as [found [w1 [Hf H]]].
  assert (Hfound : found = find (fun r => Task.id r =? id) (tasks w) /\ w1 = w).
  { destruct b;
      unfold TaskRepositoryService.findOneWithAllRelations,
        TaskRepositoryService.findOne, bind, getTasks, ret in Hf;
      inversion Hf; now split. }
  destruct Hfound as [-> ->].
  destruct (find _ (tasks w)) as [t|]; [|discriminate].
  unfold ret in H. inversion H. now split.
Qed.

Lemma prepareTaskCreation_ok h dto w r w1 :
  TaskDomainService.prepareTaskCreation h dto w = (Ok r, w1) ->
  w1 = w
  /\ TaskValidationDomain.validateTaskCreationData h dto = Ok tt
  /\ AvailabilityService.checkOverlap
       (CreateTaskDto.assignedUserId dto)
       (newDate h (CreateTaskDto.startDate dto))
       (newDate h (CreateTaskDto.endDate dto)) None w
     = (Ok false, w).
Proof.
  intros H.
  assert (Hw : w1 = w)
    by (eapply readOnly_eq; [apply readOnly_prepareTaskCreation | exact H]).
  subst w1. split; [reflexivity|].
  unfold TaskDomainService.prepareTaskCreation in H.
  apply bind_inv_ok in H. destruct H as [[] [w2 [Hv H]]].
  unfold liftR in Hv. inversion Hv. subst w2.
  split; [reflexivity|].
  apply bind_inv_ok in H. destruct H as [b [w2 [Hc H]]].
  assert (Hw : w2 = w)
    by (eapply readOnly_eq; [apply readOnly_checkOverlap | exact Hc]).
  subst w2. destruct b; [discriminate | exact Hc].
Qed.

(** Whenever [create] succeeds: the request passed validation and the
    overlap check, and the table has one more row, built by
    [buildTaskEntityForCreation] under the next generated key. *)
Lemma create_ok h dto caller w result w' :
  TasksService.create h dto caller w = (Ok result, w') ->
  exists row,
    TaskValidationDomain.validateTaskCreationData h dto = Ok tt
    /\ AvailabilityService.checkOverlap
         (CreateTaskDto.assignedUserId dto)
         (newDate h (CreateTaskDto.startDate dto))
         (newDate h (CreateTaskDto.endDate dto)) None w
       = (Ok false, w)
    /\ TaskRepositoryService.rowOf (nextId w)
         (TaskBusinessLogicService.buildTaskEntityForCreation h dto caller)
       = Some row
    /\ tasks w' = tasks w ++ [row]
    /\ nextId w' = nextId w + 1.
Proof.
  intros H. unfold TasksService.create in H.
  apply bind_inv_ok in H. destruct H as [[] [w1 [Hv H]]].
  unfold TaskBusinessLogicService.validateTaskCreation in Hv.
  apply bind_inv_ok in Hv. destruct Hv as [r [w2 [Hd Hv]]].
  unfold ret in Hv. inversion Hv. subst w2. clear Hv.
  apply prepareTaskCreation_ok in Hd. destruct Hd as [-> [Hval Hchk]].
  apply bind_inv_ok in H. destruct H as [row [w2 [Hc H]]].
  apply repository_create_ok in Hc. destruct Hc as [Hrow [_ H2]].
  symmetry in H2.
  exists row. do 3 (split; [assumption || reflexivity|]).
  apply bind_inv_ok in H. destruct H as [[] [w3 [Hq H]]].
  apply bind_inv_ok in H. destruct H as [reloaded [w4 [Hl H]]].
  apply reloadTaskWithRelations_ok in Hl. destruct Hl as [-> _].
  apply bind_inv_ok in H. destruct H as [[] [w4 [Hn H]]].
  unfold ret in H. inversion H. subst w4. clear H.
  destruct (queueAvailabilityUpdate_effects (Task.assignedUserId row) w2)
    as [_ [Ht [Hn' _]]].
  rewrite Hq in Ht, Hn'. simpl in Ht, Hn'.
  pose proof (store_eq _ _ _ _ (proj2 (notifyTaskCreated_store reloaded w3)) Hn)
    as Ht'.
  assert (Hid : nextId w' = nextId w3).
  { clear - Hn. unfold TaskNotificationService.notifyTaskCreated in Hn.
    destruct (Task.assignedUserId reloaded) as [u|];
      [|unfold ret in Hn; now inversion Hn].
    destruct (negb (truthyNum (Some u)));
      [unfold ret in Hn; now inversion Hn|].
    unfold TaskNotificationService.tryNotifyUser, bind, externalCallThrows,
      emit, ret in Hn.
    destruct (faults w3) as [|[|] rest]; simpl in Hn; now inversion Hn. }
  rewrite Ht', Ht, Hid, Hn', <- H2. now split.
Qed.

(** The fields [prepareTaskForCreation] computes are those of
    [buildTaskEntityForCreation] with the title and the description
    trimmed. *)
Lemma prepareTaskForCreation_trims_built h dto caller title :
  CreateTaskDto.title dto = Some title ->
  let built :=
    TaskBusinessLogicService.buildTaskEntityForCreation h dto caller in
  TaskDataPreparationDomain.prepareTaskForCreation h dto caller
  = Ok {| PartialTask.title := option_map trim (PartialTask.title built);
          PartialTask.description :=
            option_map trim (PartialTask.description built);
          PartialTask.assignedUserId := PartialTask.assignedUserId built;
          PartialTask.assignedById := PartialTask.assignedById built;
          PartialTask.status := PartialTask.status built;
          PartialTask.startDate := PartialTask.startDate built;
          PartialTask.endDate := PartialTask.endDate built |}.
Proof.
  intros Ht. unfold TaskDataPreparationDomain.prepareTaskForCreation.
  rewrite Ht. simpl. now rewrite Ht.
Qed.

(** ** Operations that keep the no-overlap invariant *)

Lemma checkOverlap_false_no_conflict w userId startDate endDate excludeTaskId :
  AvailabilityService.checkOverlap
    (Some userId) (Some startDate) (Some endDate) excludeTaskId w
  = (Ok false, w) ->
  forall task,
    In task (tasks w) ->
    ~ conflicting userId startDate endDate excludeTaskId task.
Proof.
  intros Hchk task Hin Hc.
  unfold AvailabilityService.checkOverlap in Hchk.
  rewrite (hasOverlappingTasks_conflict w _ _ _ _ task Hin Hc) in Hchk.
  discriminate.
Qed.

Lemma covers_windowsConflict task startDate endDate x :
  covers task x -> startDate <= x <= endDate ->
  windowsConflict task startDate endDate.
Proof. unfold covers, windowsConflict. lia. Qed.

Lemma rowOf_some id taskData row :
  TaskRepositoryService.rowOf id taskData = Some row ->
  Task.id row = id
  /\ Task.assignedUserId row = PartialTask.assignedUserId taskData
  /\ PartialTask.startDate taskData = Some (Some (Task.startDate row))
  /\ PartialTask.endDate taskData = Some (Some (Task.endDate row)).
Proof.
  unfold TaskRepositoryService.rowOf.
  destruct (PartialTask.title taskData) as [ti|]; [|discriminate].
  destruct (PartialTask.startDate taskData) as [[s|]|]; try discriminate.
  destruct (PartialTask.endDate taskData) as [[e|]|]; try discriminate.
  intros H. inversion H. simpl. now repeat split.
Qed.


Lemma uniqueIds_eq rows r1 r2 :
  uniqueIds rows -> In r1 rows -> In r2 rows -> Task.id r1 = Task.id r2 ->
  r1 = r2.
Proof.
  unfold uniqueIds. induction rows as [|r rows IH]; intros Hnd H1 H2 Hid.
  - destruct H1.
  - simpl in Hnd. inversion Hnd as [|? ? Hnotin Hnd']. subst.
    destruct H1 as [<-|H1], H2 as [<-|H2].
    + reflexivity.
    + exfalso. apply Hnotin. rewrite Hid. now apply in_map.
    + exfalso. apply Hnotin. rewrite <- Hid. now apply in_map.
    + now apply IH.
Qed.

(** Replacing the row of key [i] by [new] keeps the invariant when [new]
    does not share an instant with the committed time of the same user held
    by another row. *)
Lemma noOverlap_replace rows i prior e :
  uniqueIds rows ->
  noOverlap rows ->
  find (fun r => Task.id r =? i) rows = Some prior ->
  (forall v x other,
      In other rows -> Task.id other <> i ->
      committedTo v other ->
      committedTo v (TaskRepositoryService.mergeRow prior e) ->
      covers other x ->
      covers (TaskRepositoryService.mergeRow prior e) x ->
      False) ->
  noOverlap
    (map (fun r => if Task.id r =? i
                   then TaskRepositoryService.mergeRow r e else r) rows).
Proof.
  intros Hu Hinv Hfind Hclash.
  destruct (find_some_id _ _ _ Hfind) as [Hid Hin].
  assert (Hrow : forall t,
             In t (map (fun r => if Task.id r =? i
                                 then TaskRepositoryService.mergeRow r e
                                 else r) rows) ->
             t = TaskRepositoryService.mergeRow prior e
             \/ (In t rows /\ Task.id t <> i)).
  { intros t Ht. apply in_map_iff in Ht. destruct Ht as [r [<- Hr]].
    destruct (Task.id r =? i) eqn:E.
    - left. apply Z.eqb_eq in E.
      assert (r = prior) by (apply (uniqueIds_eq rows); congruence).
      now subst.
    - right. apply Z.eqb_neq in E. now split. }
  intros v x t1 t2 H1 H2 C1 C2 V1 V2.
  apply Hrow in H1. apply Hrow in H2.
  destruct H1 as [->|[H1 N1]], H2 as [->|[H2 N2]].
  - reflexivity.
  - exfalso. now apply (Hclash v x t2).
  - exfalso. now apply (Hclash v x t1).
  - now apply (Hinv v x).
Qed.

(** A successful reassignment keeps the invariant. *)
Lemma reassign_preserves_noOverlap id dto caller w result w' :
  uniqueIds (tasks w) ->
  noOverlap (tasks w) ->
  TasksService.reassign id dto caller w = (Ok result, w') ->
  noOverlap (tasks w').
Proof.
  intros Hu Hinv H. apply reassign_ok in H.
  destruct H as [prior [target [es [Hfind [Hdto [Hchk [Htasks _]]]]]]].
  rewrite Htasks. apply noOverlap_replace with (prior := prior); try assumption.
  intros v x other Hin Hne [Ho1 Ho2] [Hn1 Hn2] Hx1 Hx2.
  unfold TaskRepositoryService.mergeRow,
    TaskDataPreparationDomain.applyTaskReassignment in Hn1, Hx2.
  unfold covers in Hx2. simpl in Hn1, Hx2. rewrite Hdto in Hn1. simpl in Hn1.
  inversion Hn1. subst v.
  apply (checkOverlap_false_no_conflict _ _ _ _ _ Hchk other Hin).
  split; [now split|]. split.
  - intros y Hy. inversion Hy. now subst.
  - now apply covers_windowsConflict with (x := x).
Qed.

Lemma remove_ok id w w' :
  TasksService.remove id w = (Ok tt, w') ->
  tasks w' = filter (fun r => negb (Task.id r =? id)) (tasks w).
Proof.
  intros H. unfold TasksService.remove in H.
  apply bind_inv_ok in H. destruct H as [task [w1 [Hv H]]].
  assert (Hw : w1 = w)
    by (eapply readOnly_eq; [apply readOnly_validateTaskDeletion | exact Hv]).
  subst w1.
  unfold TaskBusinessLogicService.validateTaskDeletion,
    TaskDomainService.validateTaskDeletion in Hv.
  apply bind_inv_ok in Hv. destruct Hv as [found [w1 [Hf Hv]]].
  unfold TaskRepositoryService.findOne, bind, getTasks, ret in Hf.
  inversion Hf. subst found w1. clear Hf.
  destruct (find _ (tasks w)) as [t|] eqn:Hfind; [|discriminate].
  unfold ret in Hv. inversion Hv. subst t. clear Hv.
  apply bind_inv_ok in H. destruct H as [[] [w2 [Hd H]]].
  unfold TaskRepositoryService.delete, TaskRepositoryService.findOne, bind,
    getTasks, getNextId, setTasks, ret in Hd.
  rewrite Hfind in Hd. inversion Hd. subst w2. clear Hd.
  apply bind_inv_ok in H. destruct H as [[] [w3 [Hq H]]].
  pose proof (queueAvailabilityUpdate_effects (Task.assignedUserId task)
    {| tasks := filter (fun r => negb (Task.id r =? id)) (tasks w);
       users := users w;
       nextId := nextId w; faults := faults w; trace := trace w |})
    as [_ [Ht _]].
  rewrite Hq in Ht. simpl in Ht.
  rewrite (store_eq _ _ _ _ (proj2 (notifyTaskDeleted_store task w3)) H).
  exact Ht.
Qed.

(** A successful deletion keeps the invariant. *)
Lemma remove_preserves_noOverlap id w w' :
  noOverlap (tasks w) ->
  TasksService.remove id w = (Ok tt, w') ->
  noOverlap (tasks w').
Proof.
  intros Hinv H. apply remove_ok in H. rewrite H.
  intros v x t1 t2 H1 H2. apply filter_In in H1. apply filter_In in H2.
  apply (Hinv v x); tauto.
Qed.

(** ** Update, in general *)







Lemma objectAssign_some task updates entity :
  TasksService.objectAssign task updates = Some entity ->
  Task.id entity = Task.id task
  /\ Task.assignedUserId entity
     = TaskRepositoryService.orElse (PartialTask.assignedUserId updates)
                                    (Task.assignedUserId task)
  /\ Task.status entity
     = orStatus (PartialTask.status updates) (Task.status task)
  /\ PartialTask.startDate updates <> Some None
  /\ PartialTask.endDate updates <> Some None
  /\ Task.startDate entity
     = match PartialTask.startDate updates with
       | Some (Some d) => d
       | _ => Task.startDate task
       end
  /\ Task.endDate entity
     = match PartialTask.endDate updates with
       | Some (Some d) => d
       | _ => Task.endDate task
       end.
Proof.
  unfold TasksService.objectAssign.
  destruct (PartialTask.startDate updates) as [[s|]|];
    destruct (PartialTask.endDate updates) as [[e|]|];
    try discriminate; intros H; inversion H; simpl;
    repeat split; discriminate.
Qed.


(** The task a successful update returns is the row it has written. *)
Lemma update_result h id dto caller role w result w' prior :
  find (fun r => Task.id r =? id) (tasks w) = Some prior ->
  TasksService.update h id dto caller role w = (Ok result, w') ->
  exists saved,
    TasksService.objectAssign
      (fst (TaskBusinessLogicService.buildTaskEntityForUpdate
              h prior dto caller))
      (snd (TaskBusinessLogicService.buildTaskEntityForUpdate
              h prior dto caller))
    = Some saved
    /\ TaskRepositoryService.accepts (users w) (Some prior)
         (TaskRepositoryService.mergeRow prior saved) = true
    /\ result = TaskRepositoryService.mergeRow prior saved.
Proof.
  intros Hfind H. unfold TasksService.update in H.
  apply bind_inv_ok in H. destruct H as [ctx [w1 [Hp H]]].
  apply prepareTaskUpdate_ok in Hp.
  destruct Hp as [-> [prior' [Hfind' [_ [_ [Htask Hupd]]]]]].
  rewrite Hfind in Hfind'. inversion Hfind'. subst prior'. clear Hfind'.
  apply bind_inv_ok in H. destruct H as [updated [w2 [He H]]].
  apply bind_inv_ok in H. destruct H as [[] [w3 [Hs H]]].
  unfold ret in H. inversion H. subst updated w3. clear H Hs.
  unfold TasksService.executeTaskUpdate in He.
  apply bind_inv_ok in He. destruct He as [saved [w3 [Hsave Hl]]].
  apply reloadTaskWithRelations_ok in Hl. destruct Hl as [-> Hl].
  unfold TasksService.saveAndReloadTask in Hsave.
  rewrite Htask, Hupd in Hsave.
  destruct (TasksService.objectAssign _ _) as [entity|] eqn:Hassign;
    [|discriminate].
  assert (Hid : Task.id entity = id).
  { destruct (find_some_id _ _ _ Hfind) as [Hid _].
    destruct (objectAssign_some _ _ _ Hassign) as [-> _].
    unfold TaskBusinessLogicService.buildTaskEntityForUpdate. simpl.
    destruct (_ && _); exact Hid. }
  rewrite (save_found _ prior) in Hsave by now rewrite Hid.
  destruct (TaskRepositoryService.accepts (users w) (Some prior)
              (TaskRepositoryService.mergeRow prior entity)) eqn:Hacc;
    [|discriminate].
  inversion Hsave as [[Hsaved Hw]]. subst saved. clear Hsave.
  exists entity. split; [reflexivity|]. split; [exact Hacc|].
  rewrite <- Hw in Hl. simpl in Hl.
  rewrite Hid, find_merged, Hfind in Hl. simpl in Hl.
  now inversion Hl.
Qed.


Lemma effective_date h s d0 :
  TaskDataPreparationDomain.dateUpdate h s <> Some None ->
  (if truthyStr s then newDate h s else Some d0)
  = Some match TaskDataPreparationDomain.dateUpdate h s with
         | Some (Some d) => d
         | _ => d0
         end.
Proof.
  unfold TaskDataPreparationDomain.dateUpdate.
  destruct (truthyStr s); [|reflexivity].
  destruct (newDate h s); intros H; [reflexivity|].
  exfalso. now apply H.
Qed.

(** The entity that [update] saves, in terms of the request: its assignee is
    the effective assignee, its window the effective window, its status the
    requested one when there is one. *)
Lemma saved_entity h prior dto caller saved :
  TasksService.objectAssign
    (fst (TaskBusinessLogicService.buildTaskEntityForUpdate h prior dto caller))
    (snd (TaskBusinessLogicService.buildTaskEntityForUpdate h prior dto caller))
  = Some saved ->
  Task.assignedUserId (TaskRepositoryService.mergeRow prior saved)
  = orNum (UpdateTaskDto.assignedUserId dto) (Task.assignedUserId prior)
  /\ Task.status (TaskRepositoryService.mergeRow prior saved)
     = orStatus (UpdateTaskDto.status dto) (Task.status prior)
  /\ TaskDataPreparationDomain.calculateEffectiveDateRange h prior dto
     = (Some (Task.startDate (TaskRepositoryService.mergeRow prior saved)),
        Some (Task.endDate (TaskRepositoryService.mergeRow prior saved))).
Proof.
  intros H. apply objectAssign_some in H.
  destruct H as [_ [Hu [Hst [Hs [He [Hsd Hed]]]]]].
  unfold TaskRepositoryService.mergeRow. simpl.
  unfold TaskBusinessLogicService.buildTaskEntityForUpdate in *.
  simpl in Hu, Hst, Hs, He, Hsd, Hed.
  unfold orNum, TaskDataPreparationDomain.calculateEffectiveDateRange.
  rewrite (effective_date h _ (Task.startDate prior) Hs),
    (effective_date h _ (Task.endDate prior) He).
  rewrite Hu, Hst, Hsd, Hed. clear Hu Hst Hsd Hed.
  destruct (truthyNum (UpdateTaskDto.assignedUserId dto)) eqn:Ht;
    destruct (optZ_eqb (UpdateTaskDto.assignedUserId dto)
                       (Task.assignedUserId prior)) eqn:Heq;
    simpl; (split; [|split; reflexivity]).
  - apply optZ_eqb_eq in Heq. rewrite <- Heq.
    now destruct (UpdateTaskDto.assignedUserId dto).
  - destruct (UpdateTaskDto.assignedUserId dto); [reflexivity|discriminate].
  - now destruct (Task.assignedUserId prior).
  - now destruct (Task.assignedUserId prior).
Qed.


(** ** Well-formed stores *)

Lemma wellFormed_idsPositive w : wellFormed w -> idsPositive (tasks w).
Proof.
  intros [_ [_ H]]. unfold idsPositive. rewrite Forall_forall in *.
  intros t Ht. apply H in Ht. lia.
Qed.


Lemma map_id_merged rows i e :
  map Task.id
      (map (fun r => if Task.id r =? i
                     then TaskRepositoryService.mergeRow r e else r) rows)
  = map Task.id rows.
Proof.
  rewrite map_map. apply map_ext. intros r.
  now destruct (Task.id r =? i).
Qed.

Lemma wellFormed_merged w w' i e :
  wellFormed w ->
  nextId w' = nextId w ->
  tasks w' = map (fun r => if Task.id r =? i
                           then TaskRepositoryService.mergeRow r e else r)
                 (tasks w) ->
  wellFormed w'.
Proof.
  intros [Hu [Hn Hf]] Hnext Htasks. unfold wellFormed.
  rewrite Htasks, Hnext. split; [|split; [exact Hn|]].
  - unfold uniqueIds. now rewrite map_id_merged.
  - rewrite Forall_forall in *. intros t Ht.
    apply in_map_iff in Ht. destruct Ht as [r [<- Hr]].
    destruct (Task.id r =? i); simpl; now apply Hf.
Qed.

Lemma keepsNextId_eq {A} (m : M A) w r w' :
  keepsNextId m -> m w = (r, w') -> nextId w' = nextId w.
Proof. intros Hm H. specialize (Hm w). now rewrite H in Hm. Qed.

Lemma keepsNextId_bind {A B} (m : M A) (k : A -> M B) :
  keepsNextId m -> (forall a, keepsNextId (k a)) -> keepsNextId (bind m k).
Proof.
  intros Hm Hk w. unfold bind. specialize (Hm w).
  destruct (m w) as [[a|e] w1]; simpl in *; [|exact Hm].
  now rewrite Hk.
Qed.

Lemma keepsNextId_readOnly {A} (m : M A) : readOnly m -> keepsNextId m.
Proof. intros Hm w. now rewrite Hm. Qed.

Lemma keepsNextId_queueAvailabilityUpdate userId :
  keepsNextId (TasksService.queueAvailabilityUpdate userId).
Proof. intros w. apply queueAvailabilityUpdate_effects. Qed.

Lemma keepsNextId_tryNotifyUser u ev task msg :
  keepsNextId (TaskNotificationService.tryNotifyUser u ev task msg).
Proof.
  intros w.
  unfold TaskNotificationService.tryNotifyUser, bind, externalCallThrows, emit,
    ret.
  destruct (faults w) as [|[|] rest]; reflexivity.
Qed.

Lemma keepsNextId_save task : keepsNextId (TaskRepositoryService.save task).
Proof.
  intros w.
  unfold TaskRepositoryService.save, bind, getTasks, getNextId, getUsers,
    setTasks, ret, throw.
  destruct (find _ (tasks w));
    destruct (TaskRepositoryService.accepts _ _ _); reflexivity.
Qed.

Lemma keepsNextId_delete id : keepsNextId (TaskRepositoryService.delete id).
Proof.
  intros w.
  unfold TaskRepositoryService.delete, TaskRepositoryService.findOne, bind,
    getTasks, getNextId, setTasks, ret.
  destruct (find _ (tasks w)); reflexivity.
Qed.

Ltac keeps_next_id :=
  repeat first
    [ apply keepsNextId_queueAvailabilityUpdate
    | apply keepsNextId_tryNotifyUser
    | apply keepsNextId_save
    | apply keepsNextId_delete
    | apply keepsNextId_readOnly; solve [read_only; auto using readOnly_findOne,
        readOnly_checkOverlap, readOnly_prepareTaskUpdate,
        readOnly_prepareTaskReassignment, readOnly_validateTaskDeletion]
    | apply keepsNextId_bind; [|intros ?]
    | match goal with
      | |- keepsNextId (match ?x with _ => _ end) => destruct x
      end ].


Lemma keepsNextId_reassign id dto caller :
  keepsNextId (TasksService.reassign id dto caller).
Proof.
  unfold TasksService.reassign, TasksService.saveAndReloadTask,
    TasksService.reloadTaskWithRelations,
    TaskBusinessLogicService.validateTaskReassignment,
    TaskNotificationService.notifyTaskReassigned.
  keeps_next_id.
Qed.

Lemma keepsNextId_remove id : keepsNextId (TasksService.remove id).
Proof.
  unfold TasksService.remove, TaskBusinessLogicService.validateTaskDeletion,
    TaskNotificationService.notifyTaskDeleted.
  keeps_next_id.
Qed.



Lemma reassign_preserves_wellFormed id dto caller w result w' :
  wellFormed w ->
  TasksService.reassign id dto caller w = (Ok result, w') ->
  wellFormed w'.
Proof.
  intros Hwf H.
  pose proof (keepsNextId_eq _ _ _ _ (keepsNextId_reassign id dto caller) H)
    as Hnext.
  apply reassign_ok in H.
  destruct H as [prior [target [es [_ [_ [_ [Htasks _]]]]]]].
  now apply (wellFormed_merged w w' id
               (TaskDataPreparationDomain.applyTaskReassignment prior dto caller)).
Qed.

Lemma uniqueIds_filter (f : Task.t -> bool) rows :
  uniqueIds rows -> uniqueIds (filter f rows).
Proof.
  unfold uniqueIds. induction rows as [|r rows IH]; intros Hu; [constructor|].
  simpl in Hu. inversion Hu as [|? ? Hnotin Hnd]. subst. simpl.
  destruct (f r); simpl; [|now apply IH].
  constructor; [|now apply IH].
  intros Hin. apply Hnotin. apply in_map_iff in Hin.
  destruct Hin as [t [Ht Hin]]. apply filter_In in Hin.
  apply in_map_iff. exists t. tauto.
Qed.

Lemma remove_preserves_wellFormed id w w' :
  wellFormed w ->
  TasksService.remove id w = (Ok tt, w') ->
  wellFormed w'.
Proof.
  intros [Hu [Hn Hf]] H.
  pose proof (keepsNextId_eq _ _ _ _ (keepsNextId_remove id) H) as Hnext.
  apply remove_ok in H. unfold wellFormed. rewrite H, Hnext.
  split; [|split; [exact Hn|]].
  - now apply uniqueIds_filter.
  - rewrite Forall_forall in *. intros t Ht. apply filter_In in Ht.
    now apply Hf.
Qed.

(** ** The overlap check on the sample store *)

(** A window that starts at the instant [T1] ends conflicts with it. *)
Example checkOverlap_touching_windows :
  AvailabilityService.checkOverlap
    (Some 4) (Some (Task.endDate T1)) (Some (Task.endDate T1 + 7200000)) None
    sampleWorld
  = (Ok true, sampleWorld).
Proof. reflexivity. Qed.

(** With [T1] excluded, user 4 is free over the window of [T1]: the only
    other task over it is [T2], which is completed. *)
Example checkOverlap_excluded_and_completed :
  AvailabilityService.checkOverlap
    (Some 4) (Some (Task.startDate T1)) (Some (Task.endDate T1)) (Some 1)
    sampleWorld
  = (Ok false, sampleWorld).
Proof. reflexivity. Qed.

(** Excluding another task does not hide [T1]. *)
Example checkOverlap_excludes_one_task_only :
  AvailabilityService.checkOverlap
    (Some 4) (Some (Task.startDate T1)) (Some (Task.endDate T1)) (Some 2)
    sampleWorld
  = (Ok true, sampleWorld).
Proof. reflexivity. Qed.

(** * Further properties of the operations *)

(** ** Failures that leave the world as it is *)

Lemma findOne_eq id w :
  TaskRepositoryService.findOne id w
  = (Ok (find (fun t => Task.id t =? id) (tasks w)), w).
Proof. reflexivity. Qed.

Lemma checkOverlap_eq userId startDate endDate excludeTaskId w :
  AvailabilityService.checkOverlap userId startDate endDate excludeTaskId w
  = (Ok (0 <? Z.of_nat
                (List.length
                   (TaskRepositoryService.overlappingTasks
                      (tasks w) userId startDate endDate excludeTaskId))),
     w).
Proof. reflexivity. Qed.

(** X1. Updating, reassigning or deleting a task that is not in the table
    fails with [TaskNotFoundException] for that id and leaves the world as it
    is: nothing is written, enqueued or dispatched. *)
Theorem missing_task_is_not_found :
  forall (h : Host) (w : World) (id : Z) (updateTaskDto : UpdateTaskDto.t)
         (reassignTaskDto : ReassignTaskDto.t) (currentUserId : option Z)
         (currentUserRole : option string),
    find (fun t => Task.id t =? id) (tasks w) = None ->
    TasksService.update h id updateTaskDto currentUserId currentUserRole w
    = (Throw (TaskNotFoundException id), w)
    /\ TasksService.reassign id reassignTaskDto currentUserId w
       = (Throw (TaskNotFoundException id), w)
    /\ TasksService.remove id w = (Throw (TaskNotFoundException id), w).
Proof.
  intros h w id upd rdto caller role Hfind.
  split; [|split].
  - unfold TasksService.update. apply bind_throw.
    unfold TasksService.prepareTaskUpdate. apply bind_throw.
    unfold TaskBusinessLogicService.validateTaskUpdate. apply bind_throw.
    unfold TaskDomainService.prepareTaskUpdate.
    rewrite (bind_ok _ _ _ _ _ (findOne_eq id w)), Hfind. reflexivity.
  - unfold TasksService.reassign. apply bind_throw.
    unfold TaskBusinessLogicService.validateTaskReassignment. apply bind_throw.
    unfold TaskDomainService.prepareTaskReassignment.
    rewrite (bind_ok _ _ _ _ _ (findOne_eq id w)), Hfind. reflexivity.
  - unfold TasksService.remove. apply bind_throw.
    unfold TaskBusinessLogicService.validateTaskDeletion,
      TaskDomainService.validateTaskDeletion.
    rewrite (bind_ok _ _ _ _ _ (findOne_eq id w)), Hfind. reflexivity.
Qed.

(** X1 at id 9 in [sampleWorld]. *)
Lemma missing_task_is_not_found_witness :
  TasksService.update isoHost 9 (statusOnly COMPLETED) (Some 2)
    (Some UserRole.ADMIN) sampleWorld
  = (Throw (TaskNotFoundException 9), sampleWorld)
  /\ TasksService.reassign 9 reassignToFreeUser (Some 2) sampleWorld
     = (Throw (TaskNotFoundException 9), sampleWorld)
  /\ TasksService.remove 9 sampleWorld
     = (Throw (TaskNotFoundException 9), sampleWorld).
Proof.
  apply (missing_task_is_not_found isoHost sampleWorld 9 (statusOnly COMPLETED)
           reassignToFreeUser (Some 2) (Some UserRole.ADMIN)).
  reflexivity.
Defined.

(** X2. A creation request that passes validation, with dates that parse,
    for a user who has a non-completed task whose window meets the requested
    one (bounds included), fails with the overlap error and leaves the world
    as it is. *)
Theorem create_conflict_fails_unchanged :
  forall (h : Host) (w : World) (createTaskDto : CreateTaskDto.t)
         (currentUserId : option Z) (userId startDate endDate : Z)
         (other : Task.t),
    TaskValidationDomain.validateTaskCreationData h createTaskDto = Ok tt ->
    CreateTaskDto.assignedUserId createTaskDto = Some userId ->
    newDate h (CreateTaskDto.startDate createTaskDto) = Some startDate ->
    newDate h (CreateTaskDto.endDate createTaskDto) = Some endDate ->
    In other (tasks w) ->
    conflicting userId startDate endDate None other ->
    TasksService.create h createTaskDto currentUserId w
    = (Throw (TaskValidationException overlapMessage), w).
Proof.
  intros h w dto caller u s e other Hval Hu Hs He Hin Hc.
  unfold TasksService.create. apply bind_throw.
  unfold TaskBusinessLogicService.validateTaskCreation. apply bind_throw.
  unfold TaskDomainService.prepareTaskCreation.
  unfold bind at 1, liftR. rewrite Hval.
  unfold bind at 1, AvailabilityService.checkOverlap.
  rewrite Hu, Hs, He.
  rewrite (hasOverlappingTasks_conflict w u s e None other Hin Hc).
  reflexivity.
Qed.

(** X2 at a request for user 4 over the window of [T1]. *)
Lemma create_conflict_fails_unchanged_witness :
  TasksService.create isoHost sampleCreateDto (Some 2) sampleWorld
  = (Throw (TaskValidationException overlapMessage), sampleWorld).
Proof.
  apply (create_conflict_fails_unchanged isoHost sampleWorld sampleCreateDto
           (Some 2) 4 1736499600000 1736528400000 T1).
  - reflexivity.
  - reflexivity.
  - reflexivity.
  - reflexivity.
  - simpl. tauto.
  - unfold conflicting, committedTo, windowsConflict. simpl.
    repeat split; try discriminate; lia.
Defined.

(** X3. An update that touches the assignee or the window, on an existing
    task and by a caller allowed to make it, fails with the overlap error and
    leaves the world as it is when the effective assignee has another
    non-completed task whose window meets the effective window. *)
Theorem update_conflict_fails_unchanged :
  forall (h : Host) (w : World) (id : Z) (updateTaskDto : UpdateTaskDto.t)
         (currentUserId : option Z) (currentUserRole : option string)
         (prior other : Task.t) (userId startDate endDate : Z),
    find (fun t => Task.id t =? id) (tasks w) = Some prior ->
    TaskValidationDomain.validateTaskUpdatePermissions
      prior updateTaskDto currentUserRole currentUserId = Ok tt ->
    TaskDataPreparationDomain.requiresOverlapValidation updateTaskDto = true ->
    orNum (UpdateTaskDto.assignedUserId updateTaskDto)
          (Task.assignedUserId prior) = Some userId ->
    TaskDataPreparationDomain.calculateEffectiveDateRange h prior updateTaskDto
    = (Some startDate, Some endDate) ->
    In other (tasks w) ->
    conflicting userId startDate endDate (Some id) other ->
    TasksService.update h id updateTaskDto currentUserId currentUserRole w
    = (Throw (TaskValidationException overlapMessage), w).
Proof.
  intros h w id dto caller role prior other u s e
    Hfind Hperm Hreq Hu Heff Hin Hc.
  unfold TasksService.update. apply bind_throw.
  unfold TasksService.prepareTaskUpdate. apply bind_throw.
  unfold TaskBusinessLogicService.validateTaskUpdate. apply bind_throw.
  unfold TaskDomainService.prepareTaskUpdate.
  rewrite (bind_ok _ _ _ _ _ (findOne_eq id w)), Hfind.
  unfold bind at 1, liftR. rewrite Hperm.
  rewrite Hreq, Heff, Hu.
  unfold bind at 1. unfold bind at 1, AvailabilityService.checkOverlap.
  rewrite (hasOverlappingTasks_conflict w u s e (Some id) other Hin Hc).
  reflexivity.
Qed.

(** X3 at moving [T3] to user 4, who holds [T1] over a window that meets
    the one of [T3]. *)
Lemma update_conflict_fails_unchanged_witness :
  TasksService.update isoHost 3
    {| UpdateTaskDto.title := None; UpdateTaskDto.description := None;
       UpdateTaskDto.startDate := None; UpdateTaskDto.endDate := None;
       UpdateTaskDto.assignedUserId := Some 4; UpdateTaskDto.status := None |}
    (Some 2) (Some UserRole.MANAGER) sampleWorld
  = (Throw (TaskValidationException overlapMessage), sampleWorld).
Proof.
  apply (update_conflict_fails_unchanged isoHost sampleWorld 3 _ (Some 2)
           (Some UserRole.MANAGER) T3 T1 4 1736524800000 1736532000000).
  - reflexivity.
  - reflexivity.
  - reflexivity.
  - reflexivity.
  - reflexivity.
  - simpl. tauto.
  - unfold conflicting, committedTo, windowsConflict. simpl.
    repeat split; try discriminate; try lia.
    intros x Hx. inversion Hx. lia.
Defined.

(** X4. An update by a caller of role USER on a task whose assignee differs
    from the caller's id fails with [TaskPermissionException] and leaves the
    world as it is, whatever the request holds. *)
Theorem update_foreign_task_forbidden :
  forall (h : Host) (w : World) (id : Z) (updateTaskDto : UpdateTaskDto.t)
         (currentUserId : option Z) (prior : Task.t),
    find (fun t => Task.id t =? id) (tasks w) = Some prior ->
    assigneeDiffers prior currentUserId ->
    TasksService.update h id updateTaskDto currentUserId (Some UserRole.USER) w
    = (Throw (TaskPermissionException "You can only update your own tasks"), w).
Proof.
  intros h w id dto caller prior Hfind Hdiff.
  unfold TasksService.update. apply bind_throw.
  unfold TasksService.prepareTaskUpdate. apply bind_throw.
  unfold TaskBusinessLogicService.validateTaskUpdate. apply bind_throw.
  unfold TaskDomainService.prepareTaskUpdate.
  rewrite (bind_ok _ _ _ _ _ (findOne_eq id w)), Hfind.
  unfold bind at 1, liftR,
    TaskValidationDomain.validateTaskUpdatePermissions.
  apply loadedDiffers_true in Hdiff. rewrite Hdiff. reflexivity.
Qed.

(** X4 at user 5 completing [T1], a task of user 4. *)
Lemma update_foreign_task_forbidden_witness :
  TasksService.update isoHost 1 (statusOnly COMPLETED) (Some 5)
    (Some UserRole.USER) sampleWorld
  = (Throw (TaskPermissionException "You can only update your own tasks"),
     sampleWorld).
Proof.
  apply (update_foreign_task_forbidden isoHost sampleWorld 1
           (statusOnly COMPLETED) (Some 5) T1).
  - reflexivity.
  - intros [u [Ha Hb]]. simpl in Ha. inversion Ha. inversion Hb. lia.
Defined.

(** X5. Reassigning an existing task without an assignee id, or to id 0,
    fails with a [TaskValidationException] and leaves the world as it is. *)
Theorem reassign_without_assignee_fails :
  forall (w : World) (id : Z) (reassignTaskDto : ReassignTaskDto.t)
         (currentUserId : option Z) (prior : Task.t),
    find (fun t => Task.id t =? id) (tasks w) = Some prior ->
    missingNum (ReassignTaskDto.assignedUserId reassignTaskDto) ->
    TasksService.reassign id reassignTaskDto currentUserId w
    = (Throw (TaskValidationException
                "Assigned user ID is required for reassignment"), w).
Proof.
  intros w id dto caller prior Hfind Hmiss.
  unfold TasksService.reassign. apply bind_throw.
  unfold TaskBusinessLogicService.validateTaskReassignment. apply bind_throw.
  unfold TaskDomainService.prepareTaskReassignment.
  rewrite (bind_ok _ _ _ _ _ (findOne_eq id w)), Hfind.
  unfold bind at 1, liftR, TaskValidationDomain.validateTaskReassignmentData.
  apply truthyNum_false in Hmiss. rewrite Hmiss. reflexivity.
Qed.

(** X5 at a reassignment of [T1] to id 0. *)
Lemma reassign_without_assignee_fails_witness :
  TasksService.reassign 1 {| ReassignTaskDto.assignedUserId := Some 0 |}
    (Some 2) sampleWorld
  = (Throw (TaskValidationException
              "Assigned user ID is required for reassignment"), sampleWorld).
Proof.
  apply (reassign_without_assignee_fails sampleWorld 1
           {| ReassignTaskDto.assignedUserId := Some 0 |} (Some 2) T1).
  - reflexivity.
  - right. reflexivity.
Defined.

(** ** Side effects, as total runs *)

Lemma queueAvailabilityUpdate_run userId w :
  exists w' es,
    TasksService.queueAvailabilityUpdate userId w = (Ok tt, w')
    /\ tasks w' = tasks w
    /\ nextId w' = nextId w
    /\ trace w' = trace w ++ es
    /\ notified es = []
    /\ enqueueAttempts es = jobFor userId.
Proof.
  unfold TasksService.queueAvailabilityUpdate, bind, externalCallThrows, emit,
    ret, jobFor.
  destruct userId as [u|]; simpl;
    [|exists w, []; rewrite app_nil_r; now repeat split].
  destruct (u =? 0); simpl;
    [exists w, []; rewrite app_nil_r; now repeat split|].
  destruct (faults w) as [|[|] rest]; simpl; do 2 eexists;
    (split; [reflexivity|]); simpl;
    (split; [reflexivity|]); (split; [reflexivity|]);
    (split; [try rewrite <- app_assoc; reflexivity|]); now split.
Qed.

Lemma tryNotifyUser_run u ev task msg w :
  exists w' es,
    TaskNotificationService.tryNotifyUser u ev task msg w = (Ok tt, w')
    /\ tasks w' = tasks w
    /\ nextId w' = nextId w
    /\ trace w' = trace w ++ es
    /\ notified es = [(u, ev)]
    /\ enqueueAttempts es = [].
Proof.
  unfold TaskNotificationService.tryNotifyUser, bind, externalCallThrows, emit,
    ret.
  destruct (faults w) as [|[|] rest]; simpl; do 2 eexists;
    (split; [reflexivity|]); simpl;
    (split; [reflexivity|]); (split; [reflexivity|]);
    (split; [try rewrite <- app_assoc; reflexivity|]); now split.
Qed.

Lemma notifyTaskCreated_run task w :
  exists w' es,
    TaskNotificationService.notifyTaskCreated task w = (Ok tt, w')
    /\ tasks w' = tasks w
    /\ nextId w' = nextId w
    /\ trace w' = trace w ++ es
    /\ notified es = notificationTo (Task.assignedUserId task) "task:created"
    /\ enqueueAttempts es = [].
Proof.
  unfold TaskNotificationService.notifyTaskCreated, notificationTo.
  destruct (Task.assignedUserId task) as [u|]; simpl;
    [|exists w, []; rewrite app_nil_r; now repeat split].
  destruct (u =? 0); simpl;
    [exists w, []; rewrite app_nil_r; now repeat split|].
  apply tryNotifyUser_run.
Qed.

Lemma notifyTaskDeleted_run task w :
  exists w' es,
    TaskNotificationService.notifyTaskDeleted task w = (Ok tt, w')
    /\ tasks w' = tasks w
    /\ nextId w' = nextId w
    /\ trace w' = trace w ++ es
    /\ notified es = notificationTo (Task.assignedUserId task) "task:deleted"
    /\ enqueueAttempts es = [].
Proof.
  unfold TaskNotificationService.notifyTaskDeleted, notificationTo.
  destruct (Task.assignedUserId task) as [u|]; simpl;
    [|exists w, []; rewrite app_nil_r; now repeat split].
  destruct (u =? 0); simpl;
    [exists w, []; rewrite app_nil_r; now repeat split|].
  apply tryNotifyUser_run.
Qed.

Lemma notified_app es1 es2 : notified (es1 ++ es2) = notified es1 ++ notified es2.
Proof. unfold notified. apply flat_map_app. Qed.

Lemma enqueueAttempts_app es1 es2 :
  enqueueAttempts (es1 ++ es2) = enqueueAttempts es1 ++ enqueueAttempts es2.
Proof. unfold enqueueAttempts. apply flat_map_app. Qed.

(** ** Creation, run forward *)

Lemma validateTaskCreationData_ok h dto :
  TaskValidationDomain.validateTaskCreationData h dto = Ok tt ->
  truthyStr (option_map trim (CreateTaskDto.title dto)) = true
  /\ truthyStr (CreateTaskDto.startDate dto) = true
  /\ truthyStr (CreateTaskDto.endDate dto) = true
  /\ truthyNum (CreateTaskDto.assignedUserId dto) = true
  /\ dateGe (newDate h (CreateTaskDto.startDate dto))
            (newDate h (CreateTaskDto.endDate dto)) = false
  /\ dateLt (newDate h (CreateTaskDto.startDate dto)) (Some (now h)) = false.
Proof.
  unfold TaskValidationDomain.validateTaskCreationData,
    TaskValidationDomain.validateRequiredFields,
    TaskValidationDomain.validateDateRange.
  destruct (truthyStr (option_map trim (CreateTaskDto.title dto)));
    [|discriminate].
  destruct (truthyStr (CreateTaskDto.startDate dto)); [|discriminate].
  destruct (truthyStr (CreateTaskDto.endDate dto)); [|discriminate].
  destruct (truthyNum (CreateTaskDto.assignedUserId dto)); [|discriminate].
  simpl.
  destruct (dateGe _ _); [discriminate|].
  destruct (dateLt _ _); [discriminate|].
  now repeat split.
Qed.

Lemma checkOverlap_free w userId startDate endDate excludeTaskId :
  idsPositive (tasks w) ->
  (forall task,
      In task (tasks w) ->
      ~ conflicting userId startDate endDate excludeTaskId task) ->
  AvailabilityService.checkOverlap
    (Some userId) (Some startDate) (Some endDate) excludeTaskId w
  = (Ok false, w).
Proof.
  intros Hpos Hfree. rewrite checkOverlap_eq. f_equal. f_equal.
  destruct (0 <? _) eqn:E; [|reflexivity].
  apply (overlappingTasks_nonempty userId startDate endDate excludeTaskId
           (tasks w) Hpos) in E.
  destruct E as [task [Hin Hc]]. exfalso. now apply (Hfree task).
Qed.

Lemma find_fresh (rows : list Task.t) row :
  (forall t, In t rows -> Task.id t <> Task.id row) ->
  find (fun t => Task.id t =? Task.id row) (rows ++ [row]) = Some row.
Proof.
  induction rows as [|r rows IH]; intros Hfresh; simpl.
  - now rewrite Z.eqb_refl.
  - destruct (Task.id r =? Task.id row) eqn:E.
    + apply Z.eqb_eq in E. exfalso. apply (Hfresh r); [now left | exact E].
    + apply IH. intros t Ht. apply Hfresh. now right.
Qed.

Lemma refersToUser_exists w userId :
  userExists w userId ->
  TaskRepositoryService.refersToUser (users w) userId = true.
Proof.
  unfold userExists. destruct userId as [u|]; [|reflexivity].
  intros H. simpl. apply existsb_exists. exists u.
  split; [now apply H | apply Z.eqb_refl].
Qed.

Lemma refersToUser_in w u :
  In u (users w) ->
  TaskRepositoryService.refersToUser (users w) (Some u) = true.
Proof.
  intros H. apply refersToUser_exists. intros v Hv. now inversion Hv; subst.
Qed.

Lemma titleFits_fits title t :
  fitsTitle title -> title = Some t -> TaskRepositoryService.titleFits t = true.
Proof.
  intros H Ht. unfold TaskRepositoryService.titleFits.
  apply Z.leb_le. now apply H.
Qed.

Lemma descriptionFits_fits description :
  fitsDescription description ->
  TaskRepositoryService.descriptionFits description = true.
Proof.
  unfold fitsDescription. destruct description as [d|]; [|reflexivity].
  intros H. simpl. apply Z.leb_le. now apply H.
Qed.

(** A valid request for a free user, one that the table can hold, run on a
    well-formed store. *)
Lemma create_run h dto caller w userId startDate endDate :
  wellFormed w ->
  TaskValidationDomain.validateTaskCreationData h dto = Ok tt ->
  CreateTaskDto.assignedUserId dto = Some userId ->
  newDate h (CreateTaskDto.startDate dto) = Some startDate ->
  newDate h (CreateTaskDto.endDate dto) = Some endDate ->
  (forall task,
      In task (tasks w) -> ~ conflicting userId startDate endDate None task) ->
  fitsTitle (CreateTaskDto.title dto) ->
  fitsDescription (CreateTaskDto.description dto) ->
  In userId (users w) ->
  userExists w caller ->
  exists row w' es,
    TasksService.create h dto caller w = (Ok row, w')
    /\ TaskRepositoryService.rowOf (nextId w)
         (TaskBusinessLogicService.buildTaskEntityForCreation h dto caller)
       = Some row
    /\ tasks w' = tasks w ++ [row]
    /\ nextId w' = nextId w + 1
    /\ trace w' = trace w ++ es
    /\ notified es = [(userId, "task:created")]
    /\ enqueueAttempts es = [userId].
Proof.
  intros Hwf Hval Hu Hs He Hfree Hft Hfd Huser Hcaller.
  pose proof (validateTaskCreationData_ok h dto Hval)
    as [Htitle [_ [_ [Htruthy _]]]].
  destruct (CreateTaskDto.title dto) as [ti|] eqn:Hti; [|discriminate].
  rewrite Hu in Htruthy. simpl in Htruthy.
  apply negb_true_iff in Htruthy.
  assert (Hchk := checkOverlap_free w userId startDate endDate None
                    (wellFormed_idsPositive w Hwf) Hfree).
  assert (Hvalid :
    TaskBusinessLogicService.validateTaskCreation h dto w = (Ok tt, w)).
  { unfold TaskBusinessLogicService.validateTaskCreation,
      TaskDomainService.prepareTaskCreation.
    unfold bind at 1. unfold bind at 1. unfold liftR at 1. rewrite Hval.
    unfold bind at 1. rewrite Hu, Hs, He, Hchk.
    unfold bind at 1, liftR,
      TaskDataPreparationDomain.prepareTaskForCreation.
    rewrite Hti. reflexivity. }
  set (row :=
    {| Task.id := nextId w;
       Task.title := ti;
       Task.description := CreateTaskDto.description dto;
       Task.assignedUserId := Some userId;
       Task.assignedById := caller;
       Task.status := orStatus (CreateTaskDto.status dto) IN_PROGRESS;
       Task.startDate := startDate;
       Task.endDate := endDate |}).
  assert (Hrow :
    TaskRepositoryService.rowOf (nextId w)
      (TaskBusinessLogicService.buildTaskEntityForCreation h dto caller)
    = Some row).
  { unfold TaskRepositoryService.rowOf,
      TaskBusinessLogicService.buildTaskEntityForCreation. simpl.
    now rewrite Hti, Hs, He, Hu. }
  set (w2 := {| tasks := tasks w ++ [row]; users := users w;
                nextId := nextId w + 1;
                faults := faults w; trace := trace w |}).
  assert (Hcreate :
    TaskRepositoryService.create
      (TaskBusinessLogicService.buildTaskEntityForCreation h dto caller) w
    = (Ok row, w2)).
  { assert (Hacc : TaskRepositoryService.accepts (users w) None row = true).
    { unfold TaskRepositoryService.accepts, row. cbn [Task.title
        Task.description Task.assignedUserId Task.assignedById].
      now rewrite (titleFits_fits _ ti Hft eq_refl), (descriptionFits_fits _ Hfd),
        (refersToUser_in w userId Huser),
        (refersToUser_exists w caller Hcaller). }
    unfold TaskRepositoryService.create, bind, getTasks, getNextId, getUsers.
    rewrite Hrow, Hacc. reflexivity. }
  destruct (queueAvailabilityUpdate_run (Task.assignedUserId row) w2)
    as [w3 [es1 [Hq [Ht3 [Hn3 [Htr3 [Hno3 Hat3]]]]]]].
  assert (Hreload :
    TasksService.reloadTaskWithRelations (Task.id row) "created" true w3
    = (Ok row, w3)).
  { unfold TasksService.reloadTaskWithRelations,
      TaskRepositoryService.findOneWithAllRelations.
    rewrite (bind_ok _ _ _ _ _ (findOne_eq _ w3)), Ht3.
    unfold w2. cbn [tasks].
    rewrite find_fresh; [reflexivity|].
    destruct Hwf as [_ [_ Hlt]]. rewrite Forall_forall in Hlt.
    intros t Hin. apply Hlt in Hin. simpl. lia. }
  destruct (notifyTaskCreated_run row w3)
    as [w4 [es2 [Hnot [Ht4 [Hn4 [Htr4 [Hno4 Hat4]]]]]]].
  exists row, w4, (es1 ++ es2).
  split.
  - unfold TasksService.create.
    rewrite (bind_ok _ _ _ _ _ Hvalid), (bind_ok _ _ _ _ _ Hcreate),
      (bind_ok _ _ _ _ _ Hq), (bind_ok _ _ _ _ _ Hreload),
      (bind_ok _ _ _ _ _ Hnot).
    reflexivity.
  - split; [exact Hrow|].
    split; [now rewrite Ht4, Ht3|].
    split; [now rewrite Hn4, Hn3|].
    split; [rewrite Htr4, Htr3, app_assoc; reflexivity|].
    rewrite notified_app, enqueueAttempts_app, Hno3, Hno4, Hat3, Hat4.
    simpl. unfold notificationTo, jobFor. rewrite Htruthy. now split.
Qed.



(** X7. On a well-formed store, a valid creation request that the table
    can hold (existing assignee and creator, title of at most 255 characters,
    description of at most 65535 bytes), for a user with no conflicting task,
    calls the availability queue once, for the assignee, and dispatches one
    notification, [task:created], to the assignee, whether or not those calls
    throw. *)
Theorem create_notifies_and_enqueues_for_assignee :
  forall (h : Host) (w : World) (createTaskDto : CreateTaskDto.t)
         (currentUserId : option Z) (userId startDate endDate : Z),
    wellFormed w ->
    TaskValidationDomain.validateTaskCreationData h createTaskDto = Ok tt ->
    CreateTaskDto.assignedUserId createTaskDto = Some userId ->
    newDate h (CreateTaskDto.startDate createTaskDto) = Some startDate ->
    newDate h (CreateTaskDto.endDate createTaskDto) = Some endDate ->
    (forall task,
        In task (tasks w) ->
        ~ conflicting userId startDate endDate None task) ->
    fitsTitle (CreateTaskDto.title createTaskDto) ->
    fitsDescription (CreateTaskDto.description createTaskDto) ->
    In userId (users w) ->
    userExists w currentUserId ->
    exists result w' es,
      TasksService.create h createTaskDto currentUserId w = (Ok result, w')
      /\ trace w' = trace w ++ es
      /\ notified es = [(userId, "task:created")]
      /\ enqueueAttempts es = [userId].
Proof.
  intros h w dto caller u s e Hwf Hval Hu Hs He Hfree Hft Hfd Huser Hcaller.
  destruct (create_run h dto caller w u s e Hwf Hval Hu Hs He Hfree
              Hft Hfd Huser Hcaller)
    as [row [w' [es [Hrun [_ [_ [_ [Htr [Hno Hat]]]]]]]]].
  now exists row, w', es.
Qed.

(** X7 at a creation during which both external calls throw. *)
Lemma create_notifies_and_enqueues_for_assignee_witness :
  exists result w' es,
    TasksService.create isoHost sampleCreateDto (Some 2)
      (withFaults [true; true] emptyWorld)
    = (Ok result, w')
    /\ trace w' = trace (withFaults [true; true] emptyWorld) ++ es
    /\ notified es = [(4, "task:created")]
    /\ enqueueAttempts es = [4].
Proof.
  apply (create_notifies_and_enqueues_for_assignee isoHost
           (withFaults [true; true] emptyWorld) sampleCreateDto (Some 2)
           4 1736499600000 1736528400000).
  - split; [constructor|]. split; [reflexivity | constructor].
  - reflexivity.
  - reflexivity.
  - reflexivity.
  - reflexivity.
  - intros task [].
  - intros t Ht. inversion Ht. subst t. vm_compute. discriminate.
  - intros d Hd. discriminate Hd.
  - simpl. tauto.
  - intros c Hc. inversion Hc. subst c. simpl. tauto.
Defined.




(** ** Deletion, run forward *)

Lemma remove_run id w task :
  find (fun t => Task.id t =? id) (tasks w) = Some task ->
  exists w' es,
    TasksService.remove id w = (Ok tt, w')
    /\ tasks w' = filter (fun r => negb (Task.id r =? id)) (tasks w)
    /\ nextId w' = nextId w
    /\ trace w' = trace w ++ es
    /\ notified es = notificationTo (Task.assignedUserId task) "task:deleted"
    /\ enqueueAttempts es = jobFor (Task.assignedUserId task).
Proof.
  intros Hfind.
  assert (Hval :
    TaskBusinessLogicService.validateTaskDeletion id w = (Ok task, w)).
  { unfold TaskBusinessLogicService.validateTaskDeletion,
      TaskDomainService.validateTaskDeletion.
    now rewrite (bind_ok _ _ _ _ _ (findOne_eq id w)), Hfind. }
  set (w2 := {| tasks := filter (fun r => negb (Task.id r =? id)) (tasks w);
                users := users w;
                nextId := nextId w; faults := faults w; trace := trace w |}).
  assert (Hdel : TaskRepositoryService.delete id w = (Ok tt, w2)).
  { unfold TaskRepositoryService.delete.
    rewrite (bind_ok _ _ _ _ _ (findOne_eq id w)), Hfind. reflexivity. }
  destruct (queueAvailabilityUpdate_run (Task.assignedUserId task) w2)
    as [w3 [es1 [Hq [Ht3 [Hn3 [Htr3 [Hno3 Hat3]]]]]]].
  destruct (notifyTaskDeleted_run task w3)
    as [w4 [es2 [Hnot [Ht4 [Hn4 [Htr4 [Hno4 Hat4]]]]]]].
  exists w4, (es1 ++ es2). split.
  - unfold TasksService.remove.
    now rewrite (bind_ok _ _ _ _ _ Hval), (bind_ok _ _ _ _ _ Hdel),
      (bind_ok _ _ _ _ _ Hq).
  - split; [now rewrite Ht4, Ht3|].
    split; [now rewrite Hn4, Hn3|].
    split; [rewrite Htr4, Htr3, app_assoc; reflexivity|].
    rewrite notified_app, enqueueAttempts_app, Hno3, Hno4, Hat3, Hat4.
    now rewrite app_nil_r.
Qed.

(** X9. Deleting a stored task succeeds; afterwards the key is not found
    any more and the table holds exactly the other rows. *)
Theorem remove_deletes_the_task_only :
  forall (w : World) (id : Z) (task : Task.t),
    find (fun t => Task.id t =? id) (tasks w) = Some task ->
    exists w',
      TasksService.remove id w = (Ok tt, w')
      /\ TasksService.findOne id w' = (Ok None, w')
      /\ forall t, In t (tasks w') <-> In t (tasks w) /\ Task.id t <> id.
Proof.
  intros w id task Hfind.
  destruct (remove_run id w task Hfind) as [w' [es [Hrun [Ht _]]]].
  exists w'. split; [exact Hrun|].
  assert (Hin : forall t, In t (tasks w') <-> In t (tasks w) /\ Task.id t <> id).
  { intros t. rewrite Ht, filter_In, negb_true_iff, Z.eqb_neq. tauto. }
  split; [|exact Hin].
  unfold TasksService.findOne. rewrite findOne_eq.
  destruct (find _ (tasks w')) as [t|] eqn:E; [|reflexivity].
  apply find_some_id in E. destruct E as [Hid Hint].
  apply Hin in Hint. tauto.
Qed.

(** X9 at the deletion of [T1]. *)
Lemma remove_deletes_the_task_only_witness :
  exists w',
    TasksService.remove 1 sampleWorld = (Ok tt, w')
    /\ TasksService.findOne 1 w' = (Ok None, w')
    /\ forall t, In t (tasks w') <-> In t (tasks sampleWorld) /\ Task.id t <> 1.
Proof.
  apply (remove_deletes_the_task_only sampleWorld 1 T1). reflexivity.
Defined.

(** X10. Deleting a stored task calls the availability queue for the
    assignee the task had and dispatches [task:deleted] to that assignee,
    and nothing else; for a task without assignee it does neither. *)
Theorem remove_notifies_the_assignee :
  forall (w : World) (id : Z) (task : Task.t),
    find (fun t => Task.id t =? id) (tasks w) = Some task ->
    exists w' es,
      TasksService.remove id w = (Ok tt, w')
      /\ trace w' = trace w ++ es
      /\ notified es = notificationTo (Task.assignedUserId task) "task:deleted"
      /\ enqueueAttempts es = jobFor (Task.assignedUserId task).
Proof.
  intros w id task Hfind.
  destruct (remove_run id w task Hfind)
    as [w' [es [Hrun [_ [_ [Htr [Hno Hat]]]]]]].
  now exists w', es.
Qed.

(** X10 at the deletion of [T1], a task of user 4. *)
Lemma remove_notifies_the_assignee_witness :
  exists w' es,
    TasksService.remove 1 sampleWorld = (Ok tt, w')
    /\ trace w' = trace sampleWorld ++ es
    /\ notified es = notificationTo (Task.assignedUserId T1) "task:deleted"
    /\ enqueueAttempts es = jobFor (Task.assignedUserId T1).
Proof.
  apply (remove_notifies_the_assignee sampleWorld 1 T1). reflexivity.
Defined.

(** ** Update, run forward *)

Lemma jobFor_falsy userId : truthyNum userId = false -> jobFor userId = [].
Proof.
  unfold truthyNum, jobFor. destruct userId as [u|]; [|reflexivity].
  destruct (u =? 0); [reflexivity | discriminate].
Qed.

Lemma queueIf_run (c : bool) userId w :
  exists w' es,
    (if c then TasksService.queueAvailabilityUpdate userId else ret tt) w
    = (Ok tt, w')
    /\ tasks w' = tasks w
    /\ nextId w' = nextId w
    /\ trace w' = trace w ++ es
    /\ notified es = []
    /\ enqueueAttempts es = if c then jobFor userId else [].
Proof.
  destruct c; [apply queueAvailabilityUpdate_run|].
  exists w, []. rewrite app_nil_r. now repeat split.
Qed.

Lemma handleAvailabilityUpdates_run dto oldAssignedUserId newAssignedUserId w :
  exists w' es,
    TasksService.handleAvailabilityUpdates
      dto oldAssignedUserId newAssignedUserId w
    = (Ok tt, w')
    /\ tasks w' = tasks w
    /\ nextId w' = nextId w
    /\ trace w' = trace w ++ es
    /\ notified es = []
    /\ enqueueAttempts es
       = availabilityJobs dto oldAssignedUserId newAssignedUserId.
Proof.
  unfold TasksService.handleAvailabilityUpdates.
  destruct (queueIf_run
              (truthyNum newAssignedUserId
               && (truthyStr (UpdateTaskDto.startDate dto)
                   || truthyStr (UpdateTaskDto.endDate dto)
                   || truthyNum (UpdateTaskDto.assignedUserId dto)))
              newAssignedUserId w)
    as [w1 [es1 [H1 [Ht1 [Hn1 [Htr1 [Hno1 Hat1]]]]]]].
  destruct (queueIf_run
              (truthyNum (UpdateTaskDto.assignedUserId dto)
               && truthyNum oldAssignedUserId
               && negb (optZ_eqb oldAssignedUserId newAssignedUserId))
              oldAssignedUserId w1)
    as [w2 [es2 [H2 [Ht2 [Hn2 [Htr2 [Hno2 Hat2]]]]]]].
  exists w2, (es1 ++ es2).
  split; [now rewrite (bind_ok _ _ _ _ _ H1)|].
  split; [now rewrite Ht2, Ht1|].
  split; [now rewrite Hn2, Hn1|].
  split; [rewrite Htr2, Htr1, app_assoc; reflexivity|].
  rewrite notified_app, enqueueAttempts_app, Hno1, Hno2, Hat1, Hat2.
  split; [reflexivity|].
  unfold availabilityJobs.
  destruct (truthyNum newAssignedUserId) eqn:En;
    destruct (truthyNum oldAssignedUserId) eqn:Eo;
    try rewrite (jobFor_falsy _ En); try rewrite (jobFor_falsy _ Eo);
    destruct (truthyStr (UpdateTaskDto.startDate dto)
              || truthyStr (UpdateTaskDto.endDate dto)
              || truthyNum (UpdateTaskDto.assignedUserId dto));
    destruct (truthyNum (UpdateTaskDto.assignedUserId dto));
    destruct (negb (optZ_eqb oldAssignedUserId newAssignedUserId));
    reflexivity.
Qed.

Lemma notifyTaskCompleted_run task w :
  exists w' es,
    TaskNotificationService.notifyTaskCompleted task w = (Ok tt, w')
    /\ tasks w' = tasks w
    /\ nextId w' = nextId w
    /\ trace w' = trace w ++ es
    /\ notified es = notificationTo (Task.assignedById task) "task:completed"
    /\ enqueueAttempts es = [].
Proof.
  unfold TaskNotificationService.notifyTaskCompleted, notificationTo.
  destruct (Task.assignedById task) as [u|]; simpl;
    [|exists w, []; rewrite app_nil_r; now repeat split].
  destruct (u =? 0); simpl;
    [exists w, []; rewrite app_nil_r; now repeat split|].
  apply tryNotifyUser_run.
Qed.

Lemma handleUpdateNotifications_run task dto oldStatus w :
  exists w' es,
    TasksService.handleUpdateNotifications task dto oldStatus w = (Ok tt, w')
    /\ tasks w' = tasks w
    /\ nextId w' = nextId w
    /\ trace w' = trace w ++ es
    /\ notified es = completionNotice dto oldStatus task
    /\ enqueueAttempts es = [].
Proof.
  unfold TasksService.handleUpdateNotifications, completionNotice.
  destruct (UpdateTaskDto.status dto) as [s|];
    [|exists w, []; rewrite app_nil_r; now repeat split].
  destruct (TaskStatus_eqb s COMPLETED && negb (TaskStatus_eqb oldStatus COMPLETED));
    [apply notifyTaskCompleted_run|].
  exists w, []. rewrite app_nil_r. now repeat split.
Qed.

(** A permitted update whose overlap check passes, whose dates parse and
    whose changes the database accepts, run on a stored task. *)
Lemma update_run h id dto caller role w prior saved :
  find (fun r => Task.id r =? id) (tasks w) = Some prior ->
  TaskValidationDomain.validateTaskUpdatePermissions prior dto role caller
  = Ok tt ->
  (TaskDataPreparationDomain.requiresOverlapValidation dto = true ->
   AvailabilityService.checkOverlap
     (orNum (UpdateTaskDto.assignedUserId dto) (Task.assignedUserId prior))
     (fst (TaskDataPreparationDomain.calculateEffectiveDateRange h prior dto))
     (snd (TaskDataPreparationDomain.calculateEffectiveDateRange h prior dto))
     (Some id) w
   = (Ok false, w)) ->
  TasksService.objectAssign
    (fst (TaskBusinessLogicService.buildTaskEntityForUpdate h prior dto caller))
    (snd (TaskBusinessLogicService.buildTaskEntityForUpdate h prior dto caller))
  = Some saved ->
  TaskRepositoryService.accepts (users w) (Some prior)
    (TaskRepositoryService.mergeRow prior saved) = true ->
  exists w' es,
    TasksService.update h id dto caller role w
    = (Ok (TaskRepositoryService.mergeRow prior saved), w')
    /\ tasks w' = replaceRow id saved (tasks w)
    /\ nextId w' = nextId w
    /\ trace w' = trace w ++ es
    /\ notified es
       = completionNotice dto (Task.status prior)
           (TaskRepositoryService.mergeRow prior saved)
    /\ enqueueAttempts es
       = availabilityJobs dto (Task.assignedUserId prior)
           (Task.assignedUserId (TaskRepositoryService.mergeRow prior saved)).
Proof.
  intros Hfind Hperm Hchk Hassign Hacc.
  pose proof (find_some_id _ _ _ Hfind) as [Hid _].
  assert (Hsid : Task.id saved = id).
  { apply objectAssign_some in Hassign. destruct Hassign as [Hs _].
    rewrite Hs.
    unfold TaskBusinessLogicService.buildTaskEntityForUpdate. simpl.
    now destruct (_ && _). }
  assert (Hdom :
    TaskDomainService.prepareTaskUpdate h id dto role caller w
    = (Ok (prior,
           TaskDataPreparationDomain.prepareTaskForUpdate h prior dto,
           TaskDataPreparationDomain.requiresOverlapValidation dto), w)).
  { unfold TaskDomainService.prepareTaskUpdate.
    rewrite (bind_ok _ _ _ _ _ (findOne_eq id w)), Hfind.
    unfold bind at 1. unfold liftR at 1. rewrite Hperm.
    destruct (TaskDataPreparationDomain.requiresOverlapValidation dto) eqn:Er;
      [|reflexivity].
    specialize (Hchk eq_refl).
    destruct (TaskDataPreparationDomain.calculateEffectiveDateRange h prior dto)
      as [s e].
    simpl in Hchk. unfold bind at 1. unfold bind at 1. rewrite Hchk.
    reflexivity. }
  assert (Hctx :
    TasksService.prepareTaskUpdate h id dto caller role w
    = (Ok {| TasksService.task :=
               fst (TaskBusinessLogicService.buildTaskEntityForUpdate
                      h prior dto caller);
             TasksService.updates :=
               snd (TaskBusinessLogicService.buildTaskEntityForUpdate
                      h prior dto caller);
             TasksService.oldAssignedUserId := Task.assignedUserId prior;
             TasksService.oldStatus := Task.status prior |}, w)).
  { unfold TasksService.prepareTaskUpdate,
      TaskBusinessLogicService.validateTaskUpdate.
    unfold bind at 1. unfold bind at 1. rewrite Hdom. reflexivity. }
  set (w2 := {| tasks := replaceRow id saved (tasks w); users := users w;
                nextId := nextId w; faults := faults w; trace := trace w |}).
  assert (Hexec :
    TasksService.executeTaskUpdate
      {| TasksService.task :=
           fst (TaskBusinessLogicService.buildTaskEntityForUpdate
                  h prior dto caller);
         TasksService.updates :=
           snd (TaskBusinessLogicService.buildTaskEntityForUpdate
                  h prior dto caller);
         TasksService.oldAssignedUserId := Task.assignedUserId prior;
         TasksService.oldStatus := Task.status prior |} w
    = (Ok (TaskRepositoryService.mergeRow prior saved), w2)).
  { unfold TasksService.executeTaskUpdate, TasksService.saveAndReloadTask.
    cbn [TasksService.task TasksService.updates].
    rewrite Hassign.
    assert (Hf : find (fun r => Task.id r =? Task.id saved) (tasks w)
                 = Some prior) by now rewrite Hsid.
    rewrite (bind_ok _ _ _ _ _ (save_existing saved prior w Hf Hacc)).
    unfold TasksService.reloadTaskWithRelations,
      TaskRepositoryService.findOneWithAllRelations.
    rewrite (bind_ok _ _ _ _ _ (findOne_eq _ _)).
    cbn [tasks]. rewrite find_merged, Hf. rewrite Hsid. reflexivity. }
  destruct (handleAvailabilityUpdates_run dto (Task.assignedUserId prior)
              (Task.assignedUserId (TaskRepositoryService.mergeRow prior saved))
              w2)
    as [w3 [es1 [H1 [Ht1 [Hn1 [Htr1 [Hno1 Hat1]]]]]]].
  destruct (handleUpdateNotifications_run
              (TaskRepositoryService.mergeRow prior saved) dto
              (Task.status prior) w3)
    as [w4 [es2 [H2 [Ht2 [Hn2 [Htr2 [Hno2 Hat2]]]]]]].
  exists w4, (es1 ++ es2).
  split.
  - unfold TasksService.update.
    rewrite (bind_ok _ _ _ _ _ Hctx), (bind_ok _ _ _ _ _ Hexec).
    unfold TasksService.handleTaskUpdateSideEffects.
    cbn [TasksService.oldAssignedUserId TasksService.oldStatus].
    unfold bind at 1. unfold bind at 1. rewrite H1, H2. reflexivity.
  - split; [now rewrite Ht2, Ht1|].
    split; [now rewrite Hn2, Hn1|].
    split; [rewrite Htr2, Htr1, app_assoc; reflexivity|].
    rewrite notified_app, enqueueAttempts_app, Hno1, Hno2, Hat1, Hat2.
    now rewrite app_nil_r.
Qed.

Lemma replaceRow_others id entity rows t :
  Task.id t <> id ->
  In t (replaceRow id entity rows) <-> In t rows.
Proof.
  intros Hne. unfold replaceRow. rewrite in_map_iff. split.
  - intros [r [Hr Hin]]. destruct (Task.id r =? id) eqn:E.
    + apply Z.eqb_eq in E. subst t. simpl in Hne. contradiction.
    + now subst t.
  - intros Hin. exists t. split; [|exact Hin].
    apply Z.eqb_neq in Hne. now rewrite Hne.
Qed.

Lemma find_replaceRow id entity rows prior :
  find (fun r => Task.id r =? id) rows = Some prior ->
  find (fun r => Task.id r =? id) (replaceRow id entity rows)
  = Some (TaskRepositoryService.mergeRow prior entity).
Proof. intros H. unfold replaceRow. now rewrite find_merged, H. Qed.

(** The entity an update saves exists when the dates of the request parse;
    the fields of the row written from it. *)
Lemma objectAssign_defined h prior dto caller :
  (truthyStr (UpdateTaskDto.startDate dto) = true ->
   newDate h (UpdateTaskDto.startDate dto) <> None) ->
  (truthyStr (UpdateTaskDto.endDate dto) = true ->
   newDate h (UpdateTaskDto.endDate dto) <> None) ->
  exists saved,
    TasksService.objectAssign
      (fst (TaskBusinessLogicService.buildTaskEntityForUpdate h prior dto caller))
      (snd (TaskBusinessLogicService.buildTaskEntityForUpdate h prior dto caller))
    = Some saved
    /\ Task.title (TaskRepositoryService.mergeRow prior saved)
       = match UpdateTaskDto.title dto with
         | Some ti => ti
         | None => Task.title prior
         end
    /\ Task.description (TaskRepositoryService.mergeRow prior saved)
       = TaskRepositoryService.orElse (UpdateTaskDto.description dto)
                                      (Task.description prior)
    /\ Task.assignedById (TaskRepositoryService.mergeRow prior saved)
       = if truthyNum (UpdateTaskDto.assignedUserId dto)
            && negb (optZ_eqb (UpdateTaskDto.assignedUserId dto)
                              (Task.assignedUserId prior))
         then TaskRepositoryService.orElse caller (Task.assignedById prior)
         else Task.assignedById prior.
Proof.
  intros Hs He.
  unfold TasksService.objectAssign,
    TaskBusinessLogicService.buildTaskEntityForUpdate,
    TaskDataPreparationDomain.dateUpdate.
  cbn [fst snd PartialTask.startDate PartialTask.endDate].
  destruct (truthyStr (UpdateTaskDto.startDate dto));
    [destruct (newDate h (UpdateTaskDto.startDate dto));
       [|exfalso; now apply Hs]|];
    (destruct (truthyStr (UpdateTaskDto.endDate dto));
       [destruct (newDate h (UpdateTaskDto.endDate dto));
          [|exfalso; now apply He]|]);
    (eexists; split; [reflexivity|]);
    unfold TaskRepositoryService.mergeRow; simpl;
    destruct (truthyNum (UpdateTaskDto.assignedUserId dto)
              && negb (optZ_eqb (UpdateTaskDto.assignedUserId dto)
                                (Task.assignedUserId prior)));
    simpl;
    destruct (UpdateTaskDto.title dto), (UpdateTaskDto.description dto),
      (Task.description prior), (Task.assignedById prior);
    now repeat split.
Qed.

(** The title, the description and the assigner of the row an update
    writes, in terms of the request. *)
Lemma merged_fields h prior dto caller saved :
  TasksService.objectAssign
    (fst (TaskBusinessLogicService.buildTaskEntityForUpdate h prior dto caller))
    (snd (TaskBusinessLogicService.buildTaskEntityForUpdate h prior dto caller))
  = Some saved ->
  Task.title (TaskRepositoryService.mergeRow prior saved)
  = match UpdateTaskDto.title dto with
    | Some ti => ti
    | None => Task.title prior
    end
  /\ Task.description (TaskRepositoryService.mergeRow prior saved)
     = TaskRepositoryService.orElse (UpdateTaskDto.description dto)
                                    (Task.description prior)
  /\ Task.assignedById (TaskRepositoryService.mergeRow prior saved)
     = if truthyNum (UpdateTaskDto.assignedUserId dto)
          && negb (optZ_eqb (UpdateTaskDto.assignedUserId dto)
                            (Task.assignedUserId prior))
       then TaskRepositoryService.orElse caller (Task.assignedById prior)
       else Task.assignedById prior.
Proof.
  unfold TasksService.objectAssign,
    TaskBusinessLogicService.buildTaskEntityForUpdate.
  cbn [fst snd PartialTask.startDate PartialTask.endDate].
  destruct (TaskDataPreparationDomain.dateUpdate h
              (UpdateTaskDto.startDate dto)) as [[s|]|];
    destruct (TaskDataPreparationDomain.dateUpdate h
                (UpdateTaskDto.endDate dto)) as [[e|]|];
    try discriminate;
    intros H; inversion H; clear H;
    unfold TaskRepositoryService.mergeRow; simpl;
    destruct (truthyNum (UpdateTaskDto.assignedUserId dto)
              && negb (optZ_eqb (UpdateTaskDto.assignedUserId dto)
                                (Task.assignedUserId prior)));
    simpl;
    destruct (UpdateTaskDto.title dto), (UpdateTaskDto.description dto),
      (Task.description prior), (Task.assignedById prior);
    now repeat split.
Qed.

Lemma optString_eqb_refl a : optString_eqb a a = true.
Proof. destruct a as [x|]; [apply String.eqb_refl | reflexivity]. Qed.

(** The database accepts the changes of an update when what the request
    brings fits the columns and the users it brings in exist. *)
Lemma update_accepts h w prior dto caller saved :
  TasksService.objectAssign
    (fst (TaskBusinessLogicService.buildTaskEntityForUpdate h prior dto caller))
    (snd (TaskBusinessLogicService.buildTaskEntityForUpdate h prior dto caller))
  = Some saved ->
  fitsTitle (UpdateTaskDto.title dto) ->
  fitsDescription (UpdateTaskDto.description dto) ->
  (truthyNum (UpdateTaskDto.assignedUserId dto) = true ->
   userExists w (UpdateTaskDto.assignedUserId dto)) ->
  (truthyNum (UpdateTaskDto.assignedUserId dto) = true ->
   userExists w caller) ->
  TaskRepositoryService.accepts (users w) (Some prior)
    (TaskRepositoryService.mergeRow prior saved) = true.
Proof.
  intros Hassign Hft Hfd Huser Hcaller.
  destruct (saved_entity h prior dto caller saved Hassign) as [Hu _].
  pose proof (merged_fields h prior dto caller saved Hassign) as Hfields.
  destruct Hfields as [Hti [Hde Hby]].
  unfold TaskRepositoryService.accepts. rewrite Hti, Hde, Hu, Hby.
  apply andb_true_intro. split; [apply andb_true_intro; split;
    [apply andb_true_intro; split|]|].
  - destruct (UpdateTaskDto.title dto) as [t|] eqn:Et.
    + rewrite (titleFits_fits _ t Hft eq_refl). apply orb_true_r.
    + now rewrite String.eqb_refl.
  - destruct (UpdateTaskDto.description dto) as [d|] eqn:Ed; simpl.
    + pose proof (descriptionFits_fits _ Hfd) as Hd. simpl in Hd.
      rewrite Hd. apply orb_true_r.
    + now rewrite optString_eqb_refl.
  - unfold orNum.
    destruct (truthyNum (UpdateTaskDto.assignedUserId dto)) eqn:Et.
    + rewrite (refersToUser_exists w _ (Huser eq_refl)). apply orb_true_r.
    + now rewrite optZ_eqb_refl.
  - destruct (truthyNum (UpdateTaskDto.assignedUserId dto)) eqn:Et;
      [|now rewrite optZ_eqb_refl].
    destruct (negb (optZ_eqb (UpdateTaskDto.assignedUserId dto)
                             (Task.assignedUserId prior)));
      [|now rewrite optZ_eqb_refl].
    destruct caller as [c|]; simpl; [|now rewrite optZ_eqb_refl].
    pose proof (refersToUser_exists w (Some c) (Hcaller eq_refl)) as Hc.
    simpl in Hc. rewrite Hc. apply orb_true_r.
Qed.

(** A request of a status alone changes no constrained column. *)
Lemma statusOnly_accepts h w prior status caller saved :
  TasksService.objectAssign
    (fst (TaskBusinessLogicService.buildTaskEntityForUpdate
            h prior (statusOnly status) caller))
    (snd (TaskBusinessLogicService.buildTaskEntityForUpdate
            h prior (statusOnly status) caller))
  = Some saved ->
  TaskRepositoryService.accepts (users w) (Some prior)
    (TaskRepositoryService.mergeRow prior saved) = true.
Proof.
  intros Hassign.
  apply (update_accepts h w prior (statusOnly status) caller saved Hassign).
  - intros t Ht. discriminate Ht.
  - intros d Hd. discriminate Hd.
  - intros H. discriminate H.
  - intros H. discriminate H.
Qed.

(** C8, as amended. When an update of a stored task succeeds, the
    notifications it dispatches are these: a [task:completed] notification to
    the assigner of the updated task when the request sets the status to
    COMPLETED, the status before the update was not COMPLETED, and the
    updated task has an assigner (present and not zero); nothing in any other
    case. The assigner of the updated task is the assigner the task had
    before the update, unless the same request changes the assignee: then it
    is the caller who makes the update, or the previous assigner when the
    caller has no id. *)
Theorem update_notifies_assigner_on_completion :
  forall (h : Host) (w : World) (id : Z) (dto : UpdateTaskDto.t)
         (caller : option Z) (role : option string)
         (prior result : Task.t) (w' : World),
    find (fun t => Task.id t =? id) (tasks w) = Some prior ->
    TasksService.update h id dto caller role w = (Ok result, w') ->
    exists es,
      trace w' = trace w ++ es
      /\ (forall u ev,
             In (u, ev) (notified es)
             <-> ev = "task:completed"
                 /\ UpdateTaskDto.status dto = Some COMPLETED
                 /\ Task.status prior <> COMPLETED
                 /\ Task.assignedById result = Some u
                 /\ u <> 0)
      /\ Task.assignedById result
         = (if truthyNum (UpdateTaskDto.assignedUserId dto)
               && negb (optZ_eqb (UpdateTaskDto.assignedUserId dto)
                                 (Task.assignedUserId prior))
            then TaskRepositoryService.orElse caller (Task.assignedById prior)
            else Task.assignedById prior).
Proof.
  intros h w id dto caller role prior result w' Hfind H.
  destruct (update_notifications_iff h w id dto caller role prior result w'
              Hfind H) as [es [Htr Hiff]].
  exists es. split; [exact Htr|]. split; [exact Hiff|].
  destruct (update_result h id dto caller role w result w' prior Hfind H)
    as [saved [Hassign [_ ->]]].
  now destruct (merged_fields h prior dto caller saved Hassign) as [_ [_ Hby]].
Qed.

(** C8 at the completion of [T1] by its assignee, user 4: the assigner,
    user 2, is notified. *)
Lemma update_notifies_assigner_on_completion_witness :
  exists es,
    trace completedWorld = trace sampleWorld ++ es
    /\ (forall u ev,
           In (u, ev) (notified es)
           <-> ev = "task:completed"
               /\ UpdateTaskDto.status (statusOnly COMPLETED) = Some COMPLETED
               /\ Task.status T1 <> COMPLETED
               /\ Task.assignedById completedT1 = Some u
               /\ u <> 0)
    /\ Task.assignedById completedT1
       = (if truthyNum (UpdateTaskDto.assignedUserId (statusOnly COMPLETED))
             && negb (optZ_eqb
                        (UpdateTaskDto.assignedUserId (statusOnly COMPLETED))
                        (Task.assignedUserId T1))
          then TaskRepositoryService.orElse (Some 4) (Task.assignedById T1)
          else Task.assignedById T1).
Proof.
  apply (update_notifies_assigner_on_completion isoHost sampleWorld 1
           (statusOnly COMPLETED) (Some 4) (Some UserRole.USER)
           T1 completedT1 completedWorld).
  - reflexivity.
  - vm_compute. reflexivity.
Defined.

(** C8 as first stated does not hold, on two counts. An administrator
    completes [T3], which is in progress and has no assigner: the update
    succeeds and nothing is dispatched. And manager 3 moves [T1], which
    manager 2 assigned, to user 6 and completes it in the same request: the
    notification goes to manager 3, who made the update, and none goes to
    the previous assigner, manager 2. *)
Lemma update_completion_counterexamples :
  (exists result w',
      TasksService.update isoHost 3 (statusOnly COMPLETED) (Some 1)
        (Some UserRole.ADMIN) sampleWorld
      = (Ok result, w')
      /\ find (fun t => Task.id t =? 3) (tasks sampleWorld) = Some T3
      /\ UpdateTaskDto.status (statusOnly COMPLETED) = Some COMPLETED
      /\ Task.status T3 <> COMPLETED
      /\ Task.status result = COMPLETED
      /\ notified (trace w') = [])
  /\ (exists result w',
        TasksService.update isoHost 1 reassignAndComplete (Some 3)
          (Some UserRole.MANAGER) sampleWorld
        = (Ok result, w')
        /\ find (fun t => Task.id t =? 1) (tasks sampleWorld) = Some T1
        /\ Task.assignedById T1 = Some 2
        /\ Task.status T1 <> COMPLETED
        /\ Task.status result = COMPLETED
        /\ notified (trace w') = [(3, "task:completed")]).
Proof.
  split.
  - do 2 eexists. split; [vm_compute; reflexivity|].
    repeat split. discriminate.
  - do 2 eexists. split; [vm_compute; reflexivity|].
    repeat split. discriminate.
Qed.



(** X12. A permitted update that moves a task from one user to another,
    existing, user (both ids non-zero), made by an existing caller, with a
    title and a description that fit their columns where the request gives
    them, calls the availability queue twice: for the new assignee, then for
    the previous one. *)
Theorem update_reassign_enqueues_both_assignees :
  forall (h : Host) (w : World) (id : Z) (updateTaskDto : UpdateTaskDto.t)
         (currentUserId : option Z) (currentUserRole : option string)
         (prior : Task.t) (previous target : Z),
    find (fun t => Task.id t =? id) (tasks w) = Some prior ->
    Task.assignedUserId prior = Some previous ->
    UpdateTaskDto.assignedUserId updateTaskDto = Some target ->
    previous <> 0 ->
    target <> 0 ->
    target <> previous ->
    TaskValidationDomain.validateTaskUpdatePermissions
      prior updateTaskDto currentUserRole currentUserId = Ok tt ->
    (truthyStr (UpdateTaskDto.startDate updateTaskDto) = true ->
     newDate h (UpdateTaskDto.startDate updateTaskDto) <> None) ->
    (truthyStr (UpdateTaskDto.endDate updateTaskDto) = true ->
     newDate h (UpdateTaskDto.endDate updateTaskDto) <> None) ->
    AvailabilityService.checkOverlap
      (Some target)
      (fst (TaskDataPreparationDomain.calculateEffectiveDateRange
              h prior updateTaskDto))
      (snd (TaskDataPreparationDomain.calculateEffectiveDateRange
              h prior updateTaskDto))
      (Some id) w
    = (Ok false, w) ->
    fitsTitle (UpdateTaskDto.title updateTaskDto) ->
    fitsDescription (UpdateTaskDto.description updateTaskDto) ->
    In target (users w) ->
    userExists w currentUserId ->
    exists result w' es,
      TasksService.update h id updateTaskDto currentUserId currentUserRole w
      = (Ok result, w')
      /\ Task.assignedUserId result = Some target
      /\ trace w' = trace w ++ es
      /\ enqueueAttempts es = [target; previous].
Proof.
  intros h w id dto caller role prior a b Hfind Hprev Hdto Ha Hb Hab
    Hperm Hs He Hchk Hft Hfd Huser Hcaller.
  assert (Htb : truthyNum (Some b) = true).
  { simpl. apply negb_true_iff, Z.eqb_neq. exact Hb. }
  assert (Hor : orNum (UpdateTaskDto.assignedUserId dto)
                      (Task.assignedUserId prior) = Some b).
  { unfold orNum. now rewrite Hdto, Htb. }
  destruct (objectAssign_defined h prior dto caller Hs He)
    as [saved [Hassign _]].
  assert (Hchk' :
    TaskDataPreparationDomain.requiresOverlapValidation dto = true ->
    AvailabilityService.checkOverlap
      (orNum (UpdateTaskDto.assignedUserId dto) (Task.assignedUserId prior))
      (fst (TaskDataPreparationDomain.calculateEffectiveDateRange h prior dto))
      (snd (TaskDataPreparationDomain.calculateEffectiveDateRange h prior dto))
      (Some id) w
    = (Ok false, w)).
  { intros _. rewrite Hor. exact Hchk. }
  assert (Huser' : truthyNum (UpdateTaskDto.assignedUserId dto) = true ->
                   userExists w (UpdateTaskDto.assignedUserId dto)).
  { intros _ u Hu. rewrite Hdto in Hu. inversion Hu. now subst. }
  destruct (update_run h id dto caller role w prior saved
              Hfind Hperm Hchk' Hassign
              (update_accepts h w prior dto caller saved Hassign
                 Hft Hfd Huser' (fun _ => Hcaller)))
    as [w' [es [Hrun [_ [_ [Htr [_ Hat]]]]]]].
  destruct (saved_entity h prior dto caller saved Hassign) as [Hu _].
  exists (TaskRepositoryService.mergeRow prior saved), w', es.
  split; [exact Hrun|].
  split; [now rewrite Hu|].
  split; [exact Htr|].
  rewrite Hat, Hu, Hor, Hprev. unfold availabilityJobs.
  rewrite Hdto, Htb, !orb_true_r. simpl.
  apply Z.eqb_neq in Ha, Hb. rewrite Ha, Hb.
  assert (Hne : (a =? b) = false) by (apply Z.eqb_neq; congruence).
  now rewrite Hne.
Qed.

(** X12 at a manager moving [T1] from user 4 to user 6. *)
Lemma update_reassign_enqueues_both_assignees_witness :
  exists result w' es,
    TasksService.update isoHost 1
      {| UpdateTaskDto.title := None; UpdateTaskDto.description := None;
         UpdateTaskDto.startDate := None; UpdateTaskDto.endDate := None;
         UpdateTaskDto.assignedUserId := Some 6;
         UpdateTaskDto.status := None |}
      (Some 2) (Some UserRole.MANAGER) sampleWorld
    = (Ok result, w')
    /\ Task.assignedUserId result = Some 6
    /\ trace w' = trace sampleWorld ++ es
    /\ enqueueAttempts es = [6; 4].
Proof.
  refine (update_reassign_enqueues_both_assignees isoHost sampleWorld 1
            {| UpdateTaskDto.title := None; UpdateTaskDto.description := None;
               UpdateTaskDto.startDate := None; UpdateTaskDto.endDate := None;
               UpdateTaskDto.assignedUserId := Some 6;
               UpdateTaskDto.status := None |}
            (Some 2) (Some UserRole.MANAGER) T1 4 6
            _ _ _ _ _ _ _ _ _ _ _ _ _ _).
  - reflexivity.
  - reflexivity.
  - reflexivity.
  - lia.
  - lia.
  - lia.
  - reflexivity.
  - intros H. discriminate H.
  - intros H. discriminate H.
  - reflexivity.
  - intros t Ht. discriminate Ht.
  - intros d Hd. discriminate Hd.
  - simpl. tauto.
  - intros c Hc. inversion Hc. subst c. simpl. tauto.
Defined.

(** X13. A request that carries a status and nothing else, made by a caller
    permitted to update the task, always succeeds: no overlap check is made
    and no date is parsed. The task returned is the stored one with the new
    status, it is what the key reads back, no other row changes, and the
    availability queue is not called. *)
Theorem update_status_only_changes_status :
  forall (h : Host) (w : World) (id : Z) (status : TaskStatus)
         (currentUserId : option Z) (currentUserRole : option string)
         (prior : Task.t),
    find (fun t => Task.id t =? id) (tasks w) = Some prior ->
    TaskValidationDomain.validateTaskUpdatePermissions
      prior (statusOnly status) currentUserRole currentUserId = Ok tt ->
    exists result w' es,
      TasksService.update h id (statusOnly status) currentUserId
        currentUserRole w
      = (Ok result, w')
      /\ result = {| Task.id := Task.id prior;
                     Task.title := Task.title prior;
                     Task.description := Task.description prior;
                     Task.assignedUserId := Task.assignedUserId prior;
                     Task.assignedById := Task.assignedById prior;
                     Task.status := status;
                     Task.startDate := Task.startDate prior;
                     Task.endDate := Task.endDate prior |}
      /\ TasksService.findOne id w' = (Ok (Some result), w')
      /\ (forall t, Task.id t <> id -> In t (tasks w') <-> In t (tasks w))
      /\ trace w' = trace w ++ es
      /\ enqueueAttempts es = [].
Proof.
  intros h w id status caller role prior Hfind Hperm.
  assert (Hchk :
    TaskDataPreparationDomain.requiresOverlapValidation (statusOnly status)
    = true ->
    AvailabilityService.checkOverlap
      (orNum (UpdateTaskDto.assignedUserId (statusOnly status))
             (Task.assignedUserId prior))
      (fst (TaskDataPreparationDomain.calculateEffectiveDateRange
              h prior (statusOnly status)))
      (snd (TaskDataPreparationDomain.calculateEffectiveDateRange
              h prior (statusOnly status)))
      (Some id) w
    = (Ok false, w)) by (intros H; discriminate H).
  destruct (update_run h id (statusOnly status) caller role w prior _
              Hfind Hperm Hchk eq_refl
              (statusOnly_accepts h w prior status caller _ eq_refl))
    as [w' [es [Hrun [Ht [_ [Htr [_ Hat]]]]]]].
  do 3 eexists. split; [exact Hrun|].
  split.
  - unfold TaskRepositoryService.mergeRow. simpl.
    now destruct (Task.description prior), (Task.assignedUserId prior),
      (Task.assignedById prior).
  - split.
    + unfold TasksService.findOne. rewrite findOne_eq, Ht.
      now rewrite (find_replaceRow id _ (tasks w) prior Hfind).
    + split; [intros t Hne; rewrite Ht; now apply replaceRow_others|].
      split; [exact Htr|].
      rewrite Hat. reflexivity.
Qed.

(** X13 at user 4 completing their own task [T1]. *)
Lemma update_status_only_changes_status_witness :
  exists result w' es,
    TasksService.update isoHost 1 (statusOnly COMPLETED) (Some 4)
      (Some UserRole.USER) sampleWorld
    = (Ok result, w')
    /\ result = {| Task.id := Task.id T1;
                   Task.title := Task.title T1;
                   Task.description := Task.description T1;
                   Task.assignedUserId := Task.assignedUserId T1;
                   Task.assignedById := Task.assignedById T1;
                   Task.status := COMPLETED;
                   Task.startDate := Task.startDate T1;
                   Task.endDate := Task.endDate T1 |}
    /\ TasksService.findOne 1 w' = (Ok (Some result), w')
    /\ (forall t, Task.id t <> 1 -> In t (tasks w') <-> In t (tasks sampleWorld))
    /\ trace w' = trace sampleWorld ++ es
    /\ enqueueAttempts es = [].
Proof.
  apply (update_status_only_changes_status isoHost sampleWorld 1 COMPLETED
           (Some 4) (Some UserRole.USER) T1).
  - reflexivity.
  - reflexivity.
Defined.

Lemma overlappingTasks_after_completion id saved rows userId startDate endDate :
  id <> 0 ->
  Task.status saved = COMPLETED ->
  List.length
    (TaskRepositoryService.overlappingTasks
       (replaceRow id saved rows) userId startDate endDate None)
  = List.length
      (TaskRepositoryService.overlappingTasks
         rows userId startDate endDate (Some id)).
Proof.
  intros Hid Hst. apply Z.eqb_neq in Hid.
  unfold TaskRepositoryService.overlappingTasks, replaceRow.
  induction rows as [|r rows IH]; [reflexivity|].
  simpl. destruct (Task.id r =? id) eqn:E.
  - assert (H1 : TaskRepositoryService.overlapRow userId startDate endDate None
                   (TaskRepositoryService.mergeRow r saved) = false).
    { unfold TaskRepositoryService.overlapRow, TaskRepositoryService.mergeRow.
      simpl. rewrite Hst. simpl. now rewrite andb_false_r. }
    assert (H2 : TaskRepositoryService.overlapRow userId startDate endDate
                   (Some id) r = false).
    { unfold TaskRepositoryService.overlapRow. simpl.
      rewrite Hid, E. simpl. now rewrite andb_false_r. }
    rewrite H1, H2. exact IH.
  - assert (H : TaskRepositoryService.overlapRow userId startDate endDate None r
                = TaskRepositoryService.overlapRow userId startDate endDate
                    (Some id) r).
    { unfold TaskRepositoryService.overlapRow. simpl.
      now rewrite Hid, E. }
    rewrite H.
    destruct (TaskRepositoryService.overlapRow _ _ _ (Some id) r);
      simpl; now rewrite IH.
Qed.

(** X14. Completing a task releases its window: after a stored task with a
    non-zero key has been updated to COMPLETED by a status-only request, the
    overlap check for any user and window, with no task excluded, answers what
    the check that excludes this task answered before. *)
Theorem completed_task_releases_its_window :
  forall (h : Host) (w : World) (id : Z)
         (currentUserId : option Z) (currentUserRole : option string)
         (prior : Task.t),
    id <> 0 ->
    find (fun t => Task.id t =? id) (tasks w) = Some prior ->
    TaskValidationDomain.validateTaskUpdatePermissions
      prior (statusOnly COMPLETED) currentUserRole currentUserId = Ok tt ->
    exists result w',
      TasksService.update h id (statusOnly COMPLETED) currentUserId
        currentUserRole w
      = (Ok result, w')
      /\ forall (userId : option Z) (startDate endDate : JsDate),
           fst (AvailabilityService.checkOverlap
                  userId startDate endDate None w')
           = fst (AvailabilityService.checkOverlap
                    userId startDate endDate (Some id) w).
Proof.
  intros h w id caller role prior Hid Hfind Hperm.
  assert (Hchk :
    TaskDataPreparationDomain.requiresOverlapValidation (statusOnly COMPLETED)
    = true ->
    AvailabilityService.checkOverlap
      (orNum (UpdateTaskDto.assignedUserId (statusOnly COMPLETED))
             (Task.assignedUserId prior))
      (fst (TaskDataPreparationDomain.calculateEffectiveDateRange
              h prior (statusOnly COMPLETED)))
      (snd (TaskDataPreparationDomain.calculateEffectiveDateRange
              h prior (statusOnly COMPLETED)))
      (Some id) w
    = (Ok false, w)) by (intros H; discriminate H).
  destruct (update_run h id (statusOnly COMPLETED) caller role w prior _
              Hfind Hperm Hchk eq_refl
              (statusOnly_accepts h w prior COMPLETED caller _ eq_refl))
    as [w' [es [Hrun [Ht _]]]].
  do 2 eexists. split; [exact Hrun|].
  intros userId startDate endDate.
  rewrite !checkOverlap_eq. simpl. rewrite Ht.
  now rewrite overlappingTasks_after_completion.
Qed.

(** X14 at user 4 completing [T1]. *)
Lemma completed_task_releases_its_window_witness :
  exists result w',
    TasksService.update isoHost 1 (statusOnly COMPLETED) (Some 4)
      (Some UserRole.USER) sampleWorld
    = (Ok result, w')
    /\ forall (userId : option Z) (startDate endDate : JsDate),
         fst (AvailabilityService.checkOverlap
                userId startDate endDate None w')
         = fst (AvailabilityService.checkOverlap
                  userId startDate endDate (Some 1) sampleWorld).
Proof.
  apply (completed_task_releases_its_window isoHost sampleWorld 1 (Some 4)
           (Some UserRole.USER) T1).
  - lia.
  - reflexivity.
  - reflexivity.
Defined.

(** ** Reassignment, run forward *)

Lemma notifyTaskReassigned_same task w :
  TaskNotificationService.notifyTaskReassigned
    task (Task.assignedUserId task) w
  = (Ok tt, w).
Proof.
  unfold TaskNotificationService.notifyTaskReassigned.
  destruct (Task.assignedUserId task) as [u|]; [|reflexivity].
  simpl. now rewrite Z.eqb_refl, orb_true_r.
Qed.

(** The database accepts a reassignment to an existing user by an
    existing caller. *)
Lemma reassign_accepts w prior dto caller target :
  ReassignTaskDto.assignedUserId dto = Some target ->
  In target (users w) ->
  userExists w caller ->
  TaskRepositoryService.accepts (users w) (Some prior)
    (TaskRepositoryService.mergeRow prior
       (TaskDataPreparationDomain.applyTaskReassignment prior dto caller))
  = true.
Proof.
  intros Hdto Huser Hcaller.
  unfold TaskRepositoryService.accepts, TaskRepositoryService.mergeRow,
    TaskDataPreparationDomain.applyTaskReassignment.
  cbn [Task.title Task.description Task.assignedUserId Task.assignedById].
  rewrite Hdto, String.eqb_refl.
  cbn [TaskRepositoryService.orElse orb andb].
  rewrite (refersToUser_in w target Huser), orb_true_r.
  assert (Hd : optString_eqb (Task.description prior)
                 (TaskRepositoryService.orElse (Task.description prior)
                                               (Task.description prior))
               = true).
  { destruct (Task.description prior); apply optString_eqb_refl. }
  rewrite Hd. cbn [orb andb].
  destruct caller as [c|]; simpl.
  - pose proof (refersToUser_exists w (Some c) Hcaller) as Hc. simpl in Hc.
    rewrite Hc. apply orb_true_r.
  - now rewrite optZ_eqb_refl.
Qed.

Lemma reassign_run id dto caller w prior target :
  find (fun r => Task.id r =? id) (tasks w) = Some prior ->
  ReassignTaskDto.assignedUserId dto = Some target ->
  target <> 0 ->
  AvailabilityService.checkOverlap
    (Some target) (Some (Task.startDate prior)) (Some (Task.endDate prior))
    (Some id) w
  = (Ok false, w) ->
  TaskRepositoryService.accepts (users w) (Some prior)
    (TaskRepositoryService.mergeRow prior
       (TaskDataPreparationDomain.applyTaskReassignment prior dto caller))
  = true ->
  exists w' es,
    TasksService.reassign id dto caller w
    = (Ok (TaskRepositoryService.mergeRow prior
             (TaskDataPreparationDomain.applyTaskReassignment prior dto caller)),
       w')
    /\ tasks w'
       = replaceRow id
           (TaskDataPreparationDomain.applyTaskReassignment prior dto caller)
           (tasks w)
    /\ nextId w' = nextId w
    /\ trace w' = trace w ++ es
    /\ notified es = []
    /\ enqueueAttempts es = [target].
Proof.
  intros Hfind Hdto Hnz Hchk Hacc.
  pose proof (find_some_id _ _ _ Hfind) as [Hid _].
  assert (Htruthy : truthyNum (Some target) = true).
  { simpl. apply negb_true_iff, Z.eqb_neq. exact Hnz. }
  assert (Hval :
    TaskBusinessLogicService.validateTaskReassignment id dto w
    = (Ok (TaskDataPreparationDomain.applyTaskReassignment prior dto None), w)).
  { unfold TaskBusinessLogicService.validateTaskReassignment,
      TaskDomainService.prepareTaskReassignment.
    unfold bind at 1.
    rewrite (bind_ok _ _ _ _ _ (findOne_eq id w)), Hfind.
    unfold bind at 1. unfold liftR at 1.
    unfold TaskValidationDomain.validateTaskReassignmentData.
    rewrite Hdto, Htruthy. cbn [negb].
    unfold bind at 1. rewrite Hchk. reflexivity. }
  set (saved := TaskDataPreparationDomain.applyTaskReassignment prior dto caller).
  assert (Hassign :
    TasksService.objectAssign
      (TaskDataPreparationDomain.applyTaskReassignment prior dto None)
      (TaskBusinessLogicService.buildTaskEntityForReassignment
         (TaskDataPreparationDomain.applyTaskReassignment prior dto None)
         dto caller)
    = Some saved).
  { unfold TasksService.objectAssign, saved,
      TaskDataPreparationDomain.applyTaskReassignment. simpl.
    rewrite Hdto. now destruct caller. }
  assert (Hf : find (fun r => Task.id r =? Task.id saved) (tasks w) = Some prior).
  { unfold saved. simpl. now rewrite Hid. }
  set (w2 := {| tasks := replaceRow id saved (tasks w); users := users w;
                nextId := nextId w; faults := faults w; trace := trace w |}).
  assert (Hsave :
    TasksService.saveAndReloadTask
      (TaskDataPreparationDomain.applyTaskReassignment prior dto None)
      (TaskBusinessLogicService.buildTaskEntityForReassignment
         (TaskDataPreparationDomain.applyTaskReassignment prior dto None)
         dto caller) w
    = (Ok saved, w2)).
  { unfold TasksService.saveAndReloadTask. rewrite Hassign.
    rewrite (save_existing saved prior w Hf Hacc).
    unfold w2, replaceRow. simpl. now rewrite Hid. }
  destruct (queueAvailabilityUpdate_run (Task.assignedUserId saved) w2)
    as [w3 [es [Hq [Ht3 [Hn3 [Htr3 [Hno3 Hat3]]]]]]].
  assert (Hreload :
    TasksService.reloadTaskWithRelations (Task.id saved) "reassigned" false w3
    = (Ok (TaskRepositoryService.mergeRow prior saved), w3)).
  { unfold TasksService.reloadTaskWithRelations.
    rewrite (bind_ok _ _ _ _ _ (findOne_eq _ w3)), Ht3.
    unfold w2. cbn [tasks].
    assert (Hsid : Task.id saved = id) by (unfold saved; simpl; exact Hid).
    rewrite Hsid.
    now rewrite (find_replaceRow id saved (tasks w) prior Hfind). }
  assert (Hsame :
    Task.assignedUserId (TaskRepositoryService.mergeRow prior saved)
    = Task.assignedUserId
        (TaskDataPreparationDomain.applyTaskReassignment prior dto None)).
  { unfold saved. simpl. now rewrite Hdto. }
  exists w3, es. split.
  - unfold TasksService.reassign.
    rewrite (bind_ok _ _ _ _ _ Hval), (bind_ok _ _ _ _ _ Hsave),
      (bind_ok _ _ _ _ _ Hq).
    assert (Hold :
      truthyNum (Task.assignedUserId
                   (TaskDataPreparationDomain.applyTaskReassignment
                      prior dto None))
      && negb (optZ_eqb
                 (Task.assignedUserId
                    (TaskDataPreparationDomain.applyTaskReassignment
                       prior dto None))
                 (Task.assignedUserId saved))
      = false).
    { unfold saved. simpl. rewrite Hdto. simpl.
      now rewrite Z.eqb_refl, andb_false_r. }
    rewrite Hold. unfold bind at 1. unfold ret at 1.
    rewrite (bind_ok _ _ _ _ _ Hreload).
    unfold bind. rewrite <- Hsame.
    now rewrite notifyTaskReassigned_same.
  - split; [exact Ht3|]. split; [exact Hn3|]. split; [exact Htr3|].
    split; [exact Hno3|].
    rewrite Hat3. unfold saved. simpl. rewrite Hdto. unfold jobFor.
    apply Z.eqb_neq in Hnz. now rewrite Hnz.
Qed.

(** X15. Reassigning a stored task to an existing user (non-zero id) for
    whom no other stored task conflicts with the task's window, by an existing
    caller (or by none), succeeds, on a store with positive keys. The task
    returned has the requested assignee, the
    caller as assigner when the caller is known and the previous assigner
    otherwise, and the title, description, status and window it had; it is
    what the key reads back, and no other row changes. *)
Theorem reassign_moves_task_to_free_user :
  forall (w : World) (id : Z) (reassignTaskDto : ReassignTaskDto.t)
         (currentUserId : option Z) (prior : Task.t) (target : Z),
    idsPositive (tasks w) ->
    find (fun t => Task.id t =? id) (tasks w) = Some prior ->
    ReassignTaskDto.assignedUserId reassignTaskDto = Some target ->
    target <> 0 ->
    (forall other,
        In other (tasks w) ->
        ~ conflicting target (Task.startDate prior) (Task.endDate prior)
            (Some id) other) ->
    In target (users w) ->
    userExists w currentUserId ->
    exists result w',
      TasksService.reassign id reassignTaskDto currentUserId w
      = (Ok result, w')
      /\ result = {| Task.id := id;
                     Task.title := Task.title prior;
                     Task.description := Task.description prior;
                     Task.assignedUserId := Some target;
                     Task.assignedById :=
                       TaskRepositoryService.orElse currentUserId
                         (Task.assignedById prior);
                     Task.status := Task.status prior;
                     Task.startDate := Task.startDate prior;
                     Task.endDate := Task.endDate prior |}
      /\ TasksService.findOne id w' = (Ok (Some result), w')
      /\ (forall t, Task.id t <> id -> In t (tasks w') <-> In t (tasks w)).
Proof.
  intros w id dto caller prior target Hpos Hfind Hdto Hnz Hfree Huser Hcaller.
  pose proof (find_some_id _ _ _ Hfind) as [Hid _].
  assert (Hchk := checkOverlap_free w target (Task.startDate prior)
                    (Task.endDate prior) (Some id) Hpos Hfree).
  destruct (reassign_run id dto caller w prior target Hfind Hdto Hnz Hchk
              (reassign_accepts w prior dto caller target Hdto Huser Hcaller))
    as [w' [es [Hrun [Ht _]]]].
  do 2 eexists. split; [exact Hrun|].
  split.
  - unfold TaskRepositoryService.mergeRow,
      TaskDataPreparationDomain.applyTaskReassignment. simpl.
    rewrite Hdto, Hid. now destruct (Task.description prior).
  - split.
    + unfold TasksService.findOne. rewrite findOne_eq, Ht.
      now rewrite (find_replaceRow id _ (tasks w) prior Hfind).
    + intros t Hne. rewrite Ht. now apply replaceRow_others.
Qed.

(** X15 at the reassignment of [T1] to user 6 by manager 2. *)
Lemma reassign_moves_task_to_free_user_witness :
  exists result w',
    TasksService.reassign 1 reassignToFreeUser (Some 2) sampleWorld
    = (Ok result, w')
    /\ result = {| Task.id := 1;
                   Task.title := Task.title T1;
                   Task.description := Task.description T1;
                   Task.assignedUserId := Some 6;
                   Task.assignedById :=
                     TaskRepositoryService.orElse (Some 2)
                       (Task.assignedById T1);
                   Task.status := Task.status T1;
                   Task.startDate := Task.startDate T1;
                   Task.endDate := Task.endDate T1 |}
    /\ TasksService.findOne 1 w' = (Ok (Some result), w')
    /\ (forall t, Task.id t <> 1 -> In t (tasks w') <-> In t (tasks sampleWorld)).
Proof.
  apply (reassign_moves_task_to_free_user sampleWorld 1 reassignToFreeUser
           (Some 2) T1 6).
  - repeat constructor.
  - reflexivity.
  - reflexivity.
  - lia.
  - intros other Hin [[Hu _] _].
    destruct Hin as [<-|[<-|[<-|[]]]]; discriminate Hu.
  - simpl. tauto.
  - intros c Hc. inversion Hc. subst c. simpl. tauto.
Defined.

(** ** Failed operations *)







Lemma readOnly_validateTaskCreation h dto :
  readOnly (TaskBusinessLogicService.validateTaskCreation h dto).
Proof.
  unfold TaskBusinessLogicService.validateTaskCreation.
  apply readOnly_bind; [apply readOnly_prepareTaskCreation|].
  intros a. apply readOnly_ret.
Qed.








(** ** The store invariants, operation by operation *)

Lemma wellFormed_sampleWorld : wellFormed sampleWorld.
Proof.
  split; [|split; [reflexivity|]].
  - unfold uniqueIds. simpl.
    repeat constructor; simpl; intuition discriminate.
  - repeat constructor.
Qed.





(** X19. A successful [reassign] keeps the store well formed and free of
    overlap. *)
Theorem reassign_keeps_store_invariants :
  forall (w : World) (id : Z) (reassignTaskDto : ReassignTaskDto.t)
         (currentUserId : option Z) (result : Task.t) (w' : World),
    wellFormed w ->
    noOverlap (tasks w) ->
    TasksService.reassign id reassignTaskDto currentUserId w = (Ok result, w') ->
    wellFormed w' /\ noOverlap (tasks w').
Proof.
  intros w id dto caller result w' Hwf Hno H. split.
  - exact (reassign_preserves_wellFormed id dto caller w result w' Hwf H).
  - exact (reassign_preserves_noOverlap id dto caller w result w'
             (proj1 Hwf) Hno H).
Qed.

(** X19 at the reassignment of [T1] to user 6. *)
Lemma reassign_keeps_store_invariants_witness :
  wellFormed
    (snd (TasksService.reassign 1 reassignToFreeUser (Some 2) sampleWorld))
  /\ noOverlap
       (tasks
          (snd (TasksService.reassign 1 reassignToFreeUser (Some 2)
                  sampleWorld))).
Proof.
  apply (reassign_keeps_store_invariants sampleWorld 1 reassignToFreeUser
           (Some 2)
           (valueOr T1
              (fst (TasksService.reassign 1 reassignToFreeUser (Some 2)
                      sampleWorld)))
           (snd (TasksService.reassign 1 reassignToFreeUser (Some 2)
                   sampleWorld))).
  - exact wellFormed_sampleWorld.
  - exact noOverlap_sampleWorld.
  - vm_compute. reflexivity.
Defined.

(** X20. A successful [remove] keeps the store well formed and free of
    overlap. *)
Theorem remove_keeps_store_invariants :
  forall (w : World) (id : Z) (w' : World),
    wellFormed w ->
    noOverlap (tasks w) ->
    TasksService.remove id w = (Ok tt, w') ->
    wellFormed w' /\ noOverlap (tasks w').
Proof.
  intros w id w' Hwf Hno H. split.
  - exact (remove_preserves_wellFormed id w w' Hwf H).
  - exact (remove_preserves_noOverlap id w w' Hno H).
Qed.

(** X20 at the deletion of [T3]. *)
Lemma remove_keeps_store_invariants_witness :
  wellFormed (snd (TasksService.remove 3 sampleWorld))
  /\ noOverlap (tasks (snd (TasksService.remove 3 sampleWorld))).
Proof.
  apply (remove_keeps_store_invariants sampleWorld 3
           (snd (TasksService.remove 3 sampleWorld))).
  - exact wellFormed_sampleWorld.
  - exact noOverlap_sampleWorld.
  - vm_compute. reflexivity.
Defined.

(** ** Creation and deletion together *)

Lemma create_result_id h dto caller w result w' :
  TasksService.create h dto caller w = (Ok result, w') ->
  Task.id result = nextId w.
Proof.
  intros H. unfold TasksService.create in H.
  apply bind_inv_ok in H. destruct H as [[] [w1 [Hv H]]].
  apply (readOnly_eq _ _ _ _ (readOnly_validateTaskCreation h dto)) in Hv.
  subst w1.
  apply bind_inv_ok in H. destruct H as [row [w2 [Hc H]]].
  apply repository_create_ok in Hc. destruct Hc as [Hrow _].
  apply bind_inv_ok in H. destruct H as [[] [w3 [Hq H]]].
  apply bind_inv_ok in H. destruct H as [reloaded [w4 [Hl H]]].
  apply reloadTaskWithRelations_ok in Hl. destruct Hl as [-> Hfind].
  apply bind_inv_ok in H. destruct H as [[] [w4 [Hn H]]].
  unfold ret in H. inversion H. subst reloaded.
  apply find_some_id in Hfind. destruct Hfind as [Hid _].
  rewrite Hid. apply rowOf_some in Hrow. tauto.
Qed.

Lemma filter_below (rows : list Task.t) n :
  Forall (fun t => 0 < Task.id t < n) rows ->
  filter (fun r => negb (Task.id r =? n)) rows = rows.
Proof.
  induction 1 as [|r rows Hr _ IH]; [reflexivity|].
  simpl. assert (E : (Task.id r =? n) = false) by (apply Z.eqb_neq; lia).
  now rewrite E, IH.
Qed.

(** X21. On a well-formed store, a task that [create] has just returned
    can be removed by its key, and the table is then what it was before the
    creation; the key is not given out again. *)
Theorem create_then_remove_restores_table :
  forall (h : Host) (w : World) (createTaskDto : CreateTaskDto.t)
         (currentUserId : option Z) (result : Task.t) (w1 : World),
    wellFormed w ->
    TasksService.create h createTaskDto currentUserId w = (Ok result, w1) ->
    exists w2,
      TasksService.remove (Task.id result) w1 = (Ok tt, w2)
      /\ tasks w2 = tasks w
      /\ nextId w2 = nextId w + 1.
Proof.
  intros h w dto caller result w1 Hwf H.
  pose proof (create_result_id h dto caller w result w1 H) as Hid.
  apply create_ok in H.
  destruct H as [row [_ [_ [Hrow [Ht Hn]]]]].
  apply rowOf_some in Hrow. destruct Hrow as [Hrid _].
  destruct Hwf as [_ [_ Hlt]].
  assert (Hfind :
    find (fun t => Task.id t =? Task.id result) (tasks w1) = Some row).
  { rewrite Ht, Hid, <- Hrid. apply find_fresh.
    rewrite Forall_forall in Hlt. intros t Hin. apply Hlt in Hin. lia. }
  destruct (remove_run (Task.id result) w1 row Hfind)
    as [w2 [es [Hrun [Ht2 [Hn2 _]]]]].
  exists w2. split; [exact Hrun|]. split; [|now rewrite Hn2].
  rewrite Ht2, Ht, filter_app, Hid, (filter_below _ _ Hlt). simpl.
  rewrite Hrid, Z.eqb_refl. simpl. apply app_nil_r.
Qed.

(** X21 at a task created in the sample store. *)
Lemma create_then_remove_restores_table_witness :
  exists w2,
    TasksService.remove
      (Task.id
         (valueOr T1
            (fst (TasksService.create isoHost paddedDto (Some 2) sampleWorld))))
      (snd (TasksService.create isoHost paddedDto (Some 2) sampleWorld))
    = (Ok tt, w2)
    /\ tasks w2 = tasks sampleWorld
    /\ nextId w2 = nextId sampleWorld + 1.
Proof.
  apply (create_then_remove_restores_table isoHost sampleWorld paddedDto
           (Some 2)).
  - exact wellFormed_sampleWorld.
  - vm_compute. reflexivity.
Defined.

(** ** The tasks of a user *)

Lemma insertByStartDate_perm db task l :
  Permutation (TaskRepositoryService.insertByStartDate db task l) (task :: l).
Proof.
  induction l as [|x rest IH]; simpl; [apply Permutation_refl|].
  destruct ((Task.startDate task <? Task.startDate x)
            || ((Task.startDate task =? Task.startDate x)
                && tieBefore db task x));
    [apply Permutation_refl|].
  apply perm_trans with (x :: task :: rest);
    [now apply perm_skip | apply perm_swap].
Qed.

Lemma orderByStartDateAsc_perm db l :
  Permutation (TaskRepositoryService.orderByStartDateAsc db l) l.
Proof.
  induction l as [|x rest IH]; simpl; [constructor|].
  apply perm_trans
    with (x :: TaskRepositoryService.orderByStartDateAsc db rest);
    [apply insertByStartDate_perm | now apply perm_skip].
Qed.

(** Where the engine puts [task] before [x], it starts no later than [x];
    where it does not, it starts no earlier. *)
Lemma insertByStartDate_test db task x :
  (if (Task.startDate task <? Task.startDate x)
      || ((Task.startDate task =? Task.startDate x) && tieBefore db task x)
   then Task.startDate task <= Task.startDate x
   else Task.startDate x <= Task.startDate task).
Proof.
  destruct (Task.startDate task <? Task.startDate x) eqn:E1; simpl.
  - apply Z.ltb_lt in E1. lia.
  - apply Z.ltb_ge in E1.
    destruct (Task.startDate task =? Task.startDate x) eqn:E2; simpl.
    + apply Z.eqb_eq in E2. destruct (tieBefore db task x); lia.
    + exact E1.
Qed.

Lemma insertByStartDate_sorted db task l :
  Sorted (fun a b => Task.startDate a <= Task.startDate b) l ->
  Sorted (fun a b => Task.startDate a <= Task.startDate b)
         (TaskRepositoryService.insertByStartDate db task l).
Proof.
  induction l as [|x rest IH]; intros Hs; simpl.
  - repeat constructor.
  - pose proof (insertByStartDate_test db task x) as Hx.
    destruct ((Task.startDate task <? Task.startDate x)
              || ((Task.startDate task =? Task.startDate x)
                  && tieBefore db task x)).
    + constructor; [exact Hs|]. now constructor.
    + inversion Hs as [|? ? Hrest Hhd]. subst.
      constructor; [now apply IH|].
      destruct rest as [|y rest']; simpl.
      * now constructor.
      * destruct ((Task.startDate task <? Task.startDate y)
                  || ((Task.startDate task =? Task.startDate y)
                      && tieBefore db task y)).
        -- now constructor.
        -- constructor. now inversion Hhd.
Qed.

Lemma orderByStartDateAsc_sorted db l :
  Sorted (fun a b => Task.startDate a <= Task.startDate b)
         (TaskRepositoryService.orderByStartDateAsc db l).
Proof.
  induction l as [|x rest IH]; simpl; [constructor|].
  now apply insertByStartDate_sorted.
Qed.

Lemma sqlEq_some column userId :
  TaskRepositoryService.sqlEq column (Some userId) = true
  <-> column = Some userId.
Proof.
  unfold TaskRepositoryService.sqlEq. destruct column as [a|].
  - rewrite Z.eqb_eq. split; [now intros -> | now intros [= ->]].
  - split; discriminate.
Qed.

(** X22. [getUserTasks] reads the table without changing anything and
    returns exactly the stored tasks assigned to the user, completed ones
    included, each as often as it is stored, in ascending order of start
    date, however the engine orders the tasks that start together. *)
Theorem getUserTasks_lists_user_tasks_by_start :
  forall (db : Engine) (w : World) (userId : Z),
    exists l,
      AvailabilityService.getUserTasks db userId w = (Ok l, w)
      /\ Permutation l
           (filter (fun task =>
                      TaskRepositoryService.sqlEq (Task.assignedUserId task)
                                                  (Some userId))
                   (tasks w))
      /\ Sorted (fun a b => Task.startDate a <= Task.startDate b) l
      /\ (forall task,
             In task l
             <-> In task (tasks w) /\ Task.assignedUserId task = Some userId).
Proof.
  intros db w userId. eexists. split; [reflexivity|].
  split; [apply orderByStartDateAsc_perm|].
  split; [apply orderByStartDateAsc_sorted|].
  intros task. split.
  - intros Hin.
    apply (Permutation_in _ (orderByStartDateAsc_perm db _)) in Hin.
    apply filter_In in Hin. now rewrite sqlEq_some in Hin.
  - intros [Hin Hu].
    apply (Permutation_in _
             (Permutation_sym (orderByStartDateAsc_perm db _))).
    apply filter_In. now rewrite sqlEq_some.
Qed.

Lemma handleUpdateAvailability_eq db userId w :
  AvailabilityProcessor.handleUpdateAvailability db userId w
  = (Ok {| AvailabilityProcessor.success := true;
           AvailabilityProcessor.taskCount :=
             Z.of_nat
               (List.length
                  (filter (fun task =>
                             TaskRepositoryService.sqlEq
                               (Task.assignedUserId task) (Some userId))
                          (tasks w))) |}, w).
Proof.
  unfold AvailabilityProcessor.handleUpdateAvailability,
    AvailabilityService.getUserTasks,
    TaskRepositoryService.getUserTasksForAvailability, bind, getTasks, ret.
  now rewrite (Permutation_length (orderByStartDateAsc_perm db _)).
Qed.

(** X23. The availability job that a successful [create] enqueues for the
    assignee reports, once the creation is done, one task more than it would
    have reported before; for any other user it reports the same count. *)
Theorem availability_job_counts_created_task :
  forall (db : Engine) (h : Host) (w : World) (createTaskDto : CreateTaskDto.t)
         (currentUserId : option Z) (result : Task.t) (w' : World)
         (userId : Z),
    TasksService.create h createTaskDto currentUserId w = (Ok result, w') ->
    exists before after,
      AvailabilityProcessor.handleUpdateAvailability db userId w
      = (Ok before, w)
      /\ AvailabilityProcessor.handleUpdateAvailability db userId w'
         = (Ok after, w')
      /\ AvailabilityProcessor.taskCount after
         = AvailabilityProcessor.taskCount before
           + (if TaskRepositoryService.sqlEq
                   (CreateTaskDto.assignedUserId createTaskDto) (Some userId)
              then 1 else 0).
Proof.
  intros db h w dto caller result w' userId H.
  apply create_ok in H. destruct H as [row [_ [_ [Hrow [Ht _]]]]].
  apply rowOf_some in Hrow. destruct Hrow as [_ [Hu _]]. simpl in Hu.
  do 2 eexists.
  split; [apply handleUpdateAvailability_eq|].
  split; [apply handleUpdateAvailability_eq|].
  simpl. rewrite Ht, filter_app, length_app, Nat2Z.inj_add. f_equal.
  simpl. rewrite Hu.
  now destruct (TaskRepositoryService.sqlEq _ _).
Qed.

(** X23 at the creation of a task for user 6 in the sample store, seen by
    the job of user 6. *)
Lemma availability_job_counts_created_task_witness :
  exists before after,
    AvailabilityProcessor.handleUpdateAvailability sampleEngine 6 sampleWorld
    = (Ok before, sampleWorld)
    /\ AvailabilityProcessor.handleUpdateAvailability sampleEngine 6
         (snd (TasksService.create isoHost paddedDto (Some 2) sampleWorld))
       = (Ok after,
          snd (TasksService.create isoHost paddedDto (Some 2) sampleWorld))
    /\ AvailabilityProcessor.taskCount after
       = AvailabilityProcessor.taskCount before
         + (if TaskRepositoryService.sqlEq
                 (CreateTaskDto.assignedUserId paddedDto) (Some 6)
            then 1 else 0).
Proof.
  apply (availability_job_counts_created_task sampleEngine isoHost
           sampleWorld paddedDto
           (Some 2)
           (valueOr T1
              (fst (TasksService.create isoHost paddedDto (Some 2) sampleWorld)))).
  vm_compute. reflexivity.
Defined.

(** ** Listing *)

Lemma complexFilterRow_user db status assignedUserId search userId task :
  userId <> 0 ->
  TaskRepositoryService.complexFilterRow db
    {| TaskFilter.status := status;
       TaskFilter.assignedUserId := assignedUserId;
       TaskFilter.search := search;
       TaskFilter.currentUserRole := Some UserRole.USER;
       TaskFilter.currentUserId := Some userId;
       TaskFilter.dateRange := None |} task
  = true ->
  Task.assignedUserId task = Some userId.
Proof.
  intros Hnz. unfold TaskRepositoryService.complexFilterRow. simpl.
  apply Z.eqb_neq in Hnz. rewrite Hnz. simpl.
  intros H. apply andb_prop in H. destruct H as [H _].
  apply andb_prop in H. destruct H as [H _].
  apply andb_prop in H. destruct H as [_ H].
  now apply sqlEq_some.
Qed.

(** X24. A caller with the role USER and a non-zero id is only ever shown
    tasks assigned to them, whatever filters the request carries; and with no
    status, assignee or search filter they are shown every one of them. The
    engine's ordering is only assumed to permute the rows. *)
Theorem findAll_scopes_user_to_own_tasks :
  forall (db : Engine) (w : World) (status : option TaskStatus)
         (assignedUserId : option Z) (search : option string) (userId : Z),
    (forall rows, Permutation (orderByCreatedAtDesc db rows) rows) ->
    userId <> 0 ->
    exists l,
      TasksService.findAll db status assignedUserId search
        (Some UserRole.USER) (Some userId) w
      = (Ok l, w)
      /\ (forall task,
             In task l ->
             In task (tasks w) /\ Task.assignedUserId task = Some userId)
      /\ (status = None ->
          truthyNum assignedUserId = false ->
          truthyStr search = false ->
          forall task,
            In task (tasks w) ->
            Task.assignedUserId task = Some userId ->
            In task l).
Proof.
  intros db w status assignedUserId search userId Hperm Hnz.
  eexists. split; [reflexivity|]. split.
  - intros task Hin. apply (Permutation_in _ (Hperm _)) in Hin.
    apply filter_In in Hin. destruct Hin as [Hin Hrow].
    split; [exact Hin|].
    exact (complexFilterRow_user db status assignedUserId search userId task
             Hnz Hrow).
  - intros -> Ha Hs task Hin Hu.
    apply (Permutation_in _ (Permutation_sym (Hperm _))).
    apply filter_In. split; [exact Hin|].
    unfold TaskRepositoryService.complexFilterRow. simpl.
    rewrite Ha, Hs. apply Z.eqb_neq in Hnz. rewrite Hnz. simpl.
    rewrite !andb_true_r. now apply sqlEq_some.
Qed.

(** X24 at user 4 listing the sample store with a status filter. *)
Lemma findAll_scopes_user_to_own_tasks_witness :
  exists l,
    TasksService.findAll sampleEngine (Some IN_PROGRESS) None None
      (Some UserRole.USER) (Some 4) sampleWorld
    = (Ok l, sampleWorld)
    /\ (forall task,
           In task l ->
           In task (tasks sampleWorld) /\ Task.assignedUserId task = Some 4)
    /\ (Some IN_PROGRESS = None ->
        truthyNum None = false ->
        truthyStr None = false ->
        forall task,
          In task (tasks sampleWorld) ->
          Task.assignedUserId task = Some 4 ->
          In task l).
Proof.
  apply (findAll_scopes_user_to_own_tasks sampleEngine sampleWorld
           (Some IN_PROGRESS) None None 4).
  - intros rows. apply Permutation_sym, Permutation_rev.
  - lia.
Defined.

(** X25. A caller who is not a USER and sends no status, assignee or
    search filter is shown the whole table: every stored task, each as often
    as it is stored. *)
Theorem findAll_unfiltered_lists_every_task :
  forall (db : Engine) (w : World) (currentUserRole : option string)
         (currentUserId : option Z),
    (forall rows, Permutation (orderByCreatedAtDesc db rows) rows) ->
    isRole currentUserRole UserRole.USER = false ->
    exists l,
      TasksService.findAll db None None None currentUserRole currentUserId w
      = (Ok l, w)
      /\ Permutation l (tasks w).
Proof.
  intros db w role caller Hperm Hrole.
  eexists. split; [reflexivity|].
  apply perm_trans with
    (filter (TaskRepositoryService.complexFilterRow db
               {| TaskFilter.status := None;
                  TaskFilter.assignedUserId := None;
                  TaskFilter.search := None;
                  TaskFilter.currentUserRole := role;
                  TaskFilter.currentUserId := caller;
                  TaskFilter.dateRange := None |}) (tasks w));
    [apply Hperm|].
  assert (Hall : forall task,
    TaskRepositoryService.complexFilterRow db
      {| TaskFilter.status := None;
         TaskFilter.assignedUserId := None;
         TaskFilter.search := None;
         TaskFilter.currentUserRole := role;
         TaskFilter.currentUserId := caller;
         TaskFilter.dateRange := None |} task = true).
  { intros task. unfold TaskRepositoryService.complexFilterRow. simpl.
    unfold isRole in Hrole. destruct role as [r|]; [|reflexivity].
    now rewrite Hrole. }
  induction (tasks w) as [|r rows IH]; simpl; [constructor|].
  rewrite Hall. now apply perm_skip.
Qed.

(** X25 at a manager listing the sample store. *)
Lemma findAll_unfiltered_lists_every_task_witness :
  exists l,
    TasksService.findAll sampleEngine None None None
      (Some UserRole.MANAGER) (Some 2) sampleWorld
    = (Ok l, sampleWorld)
    /\ Permutation l (tasks sampleWorld).
Proof.
  apply (findAll_unfiltered_lists_every_task sampleEngine sampleWorld
           (Some UserRole.MANAGER) (Some 2)).
  - intros rows. apply Permutation_sym, Permutation_rev.
  - reflexivity.
Defined.

(** X26 at the reassignment of [T1] from user 4 to user 6. *)
Lemma reassign_effects_witness :
  exists es,
    trace (snd (TasksService.reassign 1 reassignToFreeUser (Some 2) sampleWorld))
    = trace sampleWorld ++ es
    /\ notified es = []
    /\ forall u,
         In u (queued es) ->
         ReassignTaskDto.assignedUserId reassignToFreeUser = Some u.
Proof.
  apply (reassign_effects 1 reassignToFreeUser (Some 2) sampleWorld
           (valueOr T1
              (fst (TasksService.reassign 1 reassignToFreeUser (Some 2)
                      sampleWorld)))).
  vm_compute. reflexivity.
Defined.

(** ** Writes the table refuses *)

Lemma refersToUser_unknown w u :
  ~ In u (users w) ->
  TaskRepositoryService.refersToUser (users w) (Some u) = false.
Proof.
  intros Hnot. simpl. destruct (existsb (Z.eqb u) (users w)) eqn:E;
    [|reflexivity].
  exfalso. apply Hnot. apply existsb_exists in E.
  destruct E as [x [Hx Heq]]. apply Z.eqb_eq in Heq. now subst.
Qed.




(** X28. Reassigning a stored task to an id that passes validation and the
    overlap check but is the key of no user, when the task is not already
    assigned to that id, fails at the save with a
    [TaskInfrastructureException] of the repository, and nothing is written,
    enqueued or dispatched. *)
Theorem reassign_refused_by_the_table :
  forall (w : World) (id : Z) (reassignTaskDto : ReassignTaskDto.t)
         (currentUserId : option Z) (prior : Task.t) (target : Z),
    idsPositive (tasks w) ->
    find (fun t => Task.id t =? id) (tasks w) = Some prior ->
    ReassignTaskDto.assignedUserId reassignTaskDto = Some target ->
    target <> 0 ->
    (forall other,
        In other (tasks w) ->
        ~ conflicting target (Task.startDate prior) (Task.endDate prior)
            (Some id) other) ->
    Task.assignedUserId prior <> Some target ->
    ~ In target (users w) ->
    TasksService.reassign id reassignTaskDto currentUserId w
    = (Throw (TaskInfrastructureException "TaskRepository" "save task"), w).
Proof.
  intros w id dto caller prior target Hpos Hfind Hdto Hnz Hfree Hne Hnot.
  pose proof (find_some_id _ _ _ Hfind) as [Hid _].
  assert (Hchk := checkOverlap_free w target (Task.startDate prior)
                    (Task.endDate prior) (Some id) Hpos Hfree).
  assert (Htruthy : truthyNum (Some target) = true).
  { simpl. apply negb_true_iff, Z.eqb_neq. exact Hnz. }
  assert (Hval :
    TaskBusinessLogicService.validateTaskReassignment id dto w
    = (Ok (TaskDataPreparationDomain.applyTaskReassignment prior dto None), w)).
  { unfold TaskBusinessLogicService.validateTaskReassignment,
      TaskDomainService.prepareTaskReassignment.
    unfold bind at 1.
    rewrite (bind_ok _ _ _ _ _ (findOne_eq id w)), Hfind.
    unfold bind at 1. unfold liftR at 1.
    unfold TaskValidationDomain.validateTaskReassignmentData.
    rewrite Hdto, Htruthy. cbn [negb].
    unfold bind at 1. rewrite Hchk. reflexivity. }
  unfold TasksService.reassign.
  rewrite (bind_ok _ _ _ _ _ Hval).
  unfold bind at 1.
  assert (Hassign :
    TasksService.objectAssign
      (TaskDataPreparationDomain.applyTaskReassignment prior dto None)
      (TaskBusinessLogicService.buildTaskEntityForReassignment
         (TaskDataPreparationDomain.applyTaskReassignment prior dto None)
         dto caller)
    = Some (TaskDataPreparationDomain.applyTaskReassignment prior dto caller)).
  { unfold TasksService.objectAssign,
      TaskDataPreparationDomain.applyTaskReassignment. simpl.
    rewrite Hdto. now destruct caller. }
  unfold TasksService.saveAndReloadTask. rewrite Hassign.
  rewrite (save_found _ prior)
    by (unfold TaskDataPreparationDomain.applyTaskReassignment; simpl;
        now rewrite Hid).
  assert (Hacc :
    TaskRepositoryService.accepts (users w) (Some prior)
      (TaskRepositoryService.mergeRow prior
         (TaskDataPreparationDomain.applyTaskReassignment prior dto caller))
    = false).
  { unfold TaskRepositoryService.accepts, TaskRepositoryService.mergeRow,
      TaskDataPreparationDomain.applyTaskReassignment.
    cbn [Task.title Task.description Task.assignedUserId Task.assignedById].
    rewrite Hdto. cbn [TaskRepositoryService.orElse].
    rewrite (refersToUser_unknown w target Hnot).
    assert (Hd : optZ_eqb (Task.assignedUserId prior) (Some target) = false).
    { destruct (optZ_eqb (Task.assignedUserId prior) (Some target)) eqn:E;
        [|reflexivity].
      apply optZ_eqb_eq in E. contradiction. }
    rewrite Hd. cbn [orb]. now rewrite andb_false_r. }
  now rewrite Hacc.
Qed.

(** X28 at the reassignment of [T1] to user 999. *)
Lemma reassign_refused_by_the_table_witness :
  TasksService.reassign 1 {| ReassignTaskDto.assignedUserId := Some 999 |}
    (Some 2) sampleWorld
  = (Throw (TaskInfrastructureException "TaskRepository" "save task"),
     sampleWorld).
Proof.
  apply (reassign_refused_by_the_table sampleWorld 1
           {| ReassignTaskDto.assignedUserId := Some 999 |} (Some 2) T1 999).
  - repeat constructor.
  - reflexivity.
  - reflexivity.
  - lia.
  - intros other Hin [[Hu _] _].
    destruct Hin as [<-|[<-|[<-|[]]]]; discriminate Hu.
  - discriminate.
  - simpl. intuition discriminate.
Defined.
